(** * CMNFA backend: the request-to-CLI bridge of [backend.py]

    A shallow embedding of the Flask backend that fronts the [cmc]
    command-line client: the helpers [_is_base64], [_decode_result],
    [exec_cmc], [ok], [err] and the eight business endpoints, together with
    the parts of the Python standard library they call ([str.strip],
    [base64], [json], [os.path]).

    Representation.  A Python [str] is a Rocq [string] holding the UTF-8
    encoding of the text (a lone surrogate, which Python allows inside a
    [str], is carried as its three-byte generalised encoding); Python
    [bytes] are lists of [Z] in the range 0..255; an [int] is a [Z]; a
    [float] is a double; a [dict] is an association list in insertion
    order.

    Effects.  A handler reads the file system and starts a process; both
    are answers of a [world], and what the handler did is recorded in a
    trace.  A handler takes the body that [request.get_json(force=True)]
    parsed and returns the value it hands to [jsonify], or raises.

    The library functions follow CPython 3.11.  The page [/] renders a
    template and is left out; [/api/system/status] comes after the
    business endpoints. *)

From Stdlib Require Import String Ascii List ZArith Bool Lia DecimalString SpecFloat.
Import ListNotations.

Local Open Scope string_scope.
Local Open Scope Z_scope.

(** ** Bytes and characters *)

Definition bytes := list Z.

Definition ord (c : ascii) : Z := Z.of_N (N_of_ascii c).
Definition chr (z : Z) : ascii := ascii_of_N (Z.to_N z).

Definition bytes_of_str (s : string) : bytes := map ord (list_ascii_of_string s).
Definition str_of_bytes (bs : bytes) : string := string_of_list_ascii (map chr bs).

Definition nonempty (s : string) : bool :=
  match s with EmptyString => false | String _ _ => true end.

Definition between (lo x hi : Z) : bool := (lo <=? x) && (x <=? hi).

(** ** [str] methods *)

Module PyStr.

(** One-byte white space of [str.isspace]: TAB, LF, VT, FF, CR, the four
    separators FS GS RS US, and SPACE. *)
Definition space1 (b : Z) : bool :=
  between 9 b 13 || between 28 b 31 || (b =? 32).

(** U+0085 and U+00A0, as [C2 85] and [C2 A0]. *)
Definition space2 (b1 b2 : Z) : bool :=
  (b1 =? 194) && ((b2 =? 133) || (b2 =? 160)).

(** U+1680, U+2000..U+200A, U+2028, U+2029, U+202F, U+205F, U+3000. *)
Definition space3 (b1 b2 b3 : Z) : bool :=
  ((b1 =? 225) && (b2 =? 154) && (b3 =? 128))
  || ((b1 =? 226) && (b2 =? 128)
      && (between 128 b3 138 || (b3 =? 168) || (b3 =? 169) || (b3 =? 175)))
  || ((b1 =? 226) && (b2 =? 129) && (b3 =? 159))
  || ((b1 =? 227) && (b2 =? 128) && (b3 =? 128)).

(** [lstrip rev] drops leading white space; with [rev = true] the bytes
    of the list are those of the text read backwards, so that the same
    loop drops trailing white space. *)
Fixpoint lstrip (rev : bool) (bs : bytes) : bytes :=
  match bs with
  | [] => []
  | b1 :: t1 =>
      if space1 b1 then lstrip rev t1
      else
        match t1 with
        | [] => bs
        | b2 :: t2 =>
            if (if rev then space2 b2 b1 else space2 b1 b2) then lstrip rev t2
            else
              match t2 with
              | [] => bs
              | b3 :: t3 =>
                  if (if rev then space3 b3 b2 b1 else space3 b1 b2 b3)
                  then lstrip rev t3
                  else bs
              end
        end
  end.

(** [s.strip()] *)
Definition strip (s : string) : string :=
  str_of_bytes (rev (lstrip true (rev (lstrip false (bytes_of_str s))))).

(** [sep.join(xs)] *)
Fixpoint join (sep : string) (xs : list string) : string :=
  match xs with
  | [] => ""
  | [x] => x
  | x :: rest => x ++ sep ++ join sep rest
  end.

(** [sub in s] *)
Fixpoint contains (sub s : string) : bool :=
  prefix sub s ||
  match s with
  | EmptyString => false
  | String _ rest => contains sub rest
  end.

(** [c in s] for a one-character [c]. *)
Fixpoint mem (c : ascii) (s : string) : bool :=
  match s with
  | EmptyString => false
  | String d rest => Ascii.eqb c d || mem c rest
  end.

(** [str(n)] for an [int]. *)
Definition of_int (n : Z) : string := NilEmpty.string_of_int (Z.to_int n).

End PyStr.

(** ** UTF-8 *)

Module Utf8.

Definition cont (b : Z) : bool := between 128 b 191.

(** Code points of a byte sequence.  With [surrogates = false] this is the
    strict decoder behind [bytes.decode("utf-8")]: overlong forms, the
    surrogate range and everything above U+10FFFF are refused. *)
Fixpoint code_points (surrogates : bool) (bs : bytes) : option (list Z) :=
  match bs with
  | [] => Some []
  | b1 :: t1 =>
      if between 0 b1 127 then option_map (cons b1) (code_points surrogates t1)
      else
        match t1 with
        | [] => None
        | b2 :: t2 =>
            if between 194 b1 223 && cont b2 then
              option_map (cons (Z.lor (Z.shiftl (Z.land b1 31) 6) (Z.land b2 63)))
                         (code_points surrogates t2)
            else
              match t2 with
              | [] => None
              | b3 :: t3 =>
                  if ((b1 =? 224) && between 160 b2 191
                      || between 225 b1 236 && cont b2
                      || (b1 =? 237) && (if surrogates then cont b2 else between 128 b2 159)
                      || between 238 b1 239 && cont b2) && cont b3
                  then
                    option_map
                      (cons (Z.lor (Z.shiftl (Z.land b1 15) 12)
                               (Z.lor (Z.shiftl (Z.land b2 63) 6) (Z.land b3 63))))
                      (code_points surrogates t3)
                  else
                    match t3 with
                    | [] => None
                    | b4 :: t4 =>
                        if ((b1 =? 240) && between 144 b2 191
                            || between 241 b1 243 && cont b2
                            || (b1 =? 244) && between 128 b2 143)
                           && cont b3 && cont b4
                        then
                          option_map
                            (cons (Z.lor (Z.shiftl (Z.land b1 7) 18)
                                     (Z.lor (Z.shiftl (Z.land b2 63) 12)
                                        (Z.lor (Z.shiftl (Z.land b3 63) 6)
                                           (Z.land b4 63)))))
                            (code_points surrogates t4)
                        else None
                    end
              end
        end
  end.

Definition valid (bs : bytes) : bool :=
  match code_points false bs with Some _ => true | None => false end.

(** The encoding of one code point (surrogates included). *)
Definition encode_cp (c : Z) : bytes :=
  if c <? 128 then [c]
  else if c <? 2048 then
    [Z.lor 192 (Z.shiftr c 6); Z.lor 128 (Z.land c 63)]
  else if c <? 65536 then
    [Z.lor 224 (Z.shiftr c 12); Z.lor 128 (Z.land (Z.shiftr c 6) 63);
     Z.lor 128 (Z.land c 63)]
  else
    [Z.lor 240 (Z.shiftr c 18); Z.lor 128 (Z.land (Z.shiftr c 12) 63);
     Z.lor 128 (Z.land (Z.shiftr c 6) 63); Z.lor 128 (Z.land c 63)].

(** [s.encode("utf-8")]: [None] stands for [UnicodeEncodeError], raised
    when the text holds a lone surrogate. *)
Definition encode (s : string) : option bytes :=
  if valid (bytes_of_str s) then Some (bytes_of_str s) else None.

(** [bs.decode("utf-8")]: [None] stands for [UnicodeDecodeError]. *)
Definition decode (bs : bytes) : option string :=
  if valid bs then Some (str_of_bytes bs) else None.

End Utf8.

(** ** The [base64] module (over [binascii]) *)

Module Base64.

Definition alphabet : string :=
  "ABCDEFGHIJKLMNOPQRSTUVWXYZabcdefghijklmnopqrstuvwxyz0123456789+/".

Definition BASE64_PAD : Z := 61.

(** [table_a2b_base64]: the sextet of an alphabet byte. *)
Definition table_a2b_base64 (c : Z) : option Z :=
  if between 65 c 90 then Some (c - 65)
  else if between 97 c 122 then Some (c - 71)
  else if between 48 c 57 then Some (c + 4)
  else if c =? 43 then Some 62
  else if c =? 47 then Some 63
  else None.

(** [table_b2a_base64] *)
Definition table_b2a_base64 (v : Z) : Z :=
  if v <? 26 then v + 65
  else if v <? 52 then v + 71
  else if v <? 62 then v - 4
  else if v =? 62 then 43
  else 47.

(** An [unsigned char] keeps the low eight bits. *)
Definition u8 (z : Z) : Z := Z.land z 255.

(** The loop of [binascii.a2b_base64].  [out] is the output written so
    far, last byte first; [None] stands for [binascii.Error]. *)
Fixpoint a2b_loop (strict_mode : bool) (data : bytes)
         (quad_pos leftchar pads : Z) (padding_started : bool)
         (out : bytes) : option bytes :=
  match data with
  | [] => if quad_pos =? 0 then Some (rev out) else None
  | this_ch :: rest =>
      if this_ch =? BASE64_PAD then
        if 2 <=? quad_pos then
          if 4 <=? quad_pos + (pads + 1) then
            if strict_mode && negb (match rest with [] => true | _ => false end)
            then None
            else Some (rev out)
          else a2b_loop strict_mode rest quad_pos leftchar (pads + 1) true out
        else a2b_loop strict_mode rest quad_pos leftchar pads true out
      else
        match table_a2b_base64 this_ch with
        | None =>
            if strict_mode then None
            else a2b_loop strict_mode rest quad_pos leftchar pads padding_started out
        | Some v =>
            if strict_mode && padding_started then None
            else if quad_pos =? 0 then
              a2b_loop strict_mode rest 1 v 0 padding_started out
            else if quad_pos =? 1 then
              a2b_loop strict_mode rest 2 (u8 (Z.shiftl v 4)) 0 padding_started
                (Z.lor (u8 (Z.shiftl leftchar 2)) (Z.shiftr v 4) :: out)
            else if quad_pos =? 2 then
              a2b_loop strict_mode rest 3 (u8 (Z.shiftl v 6)) 0 padding_started
                (Z.lor leftchar (Z.shiftr v 2) :: out)
            else
              a2b_loop strict_mode rest 0 0 0 padding_started
                (Z.lor leftchar v :: out)
        end
  end.

(** [binascii.a2b_base64(data, strict_mode=...)] *)
Definition a2b_base64 (data : bytes) (strict_mode : bool) : option bytes :=
  match data with
  | c :: _ =>
      if strict_mode && (c =? BASE64_PAD) then None
      else a2b_loop strict_mode data 0 0 0 false []
  | [] => a2b_loop strict_mode data 0 0 0 false []
  end.

(** [base64.b64decode(s, validate=...)] on a [str]: the text is first
    encoded as ASCII ([ValueError] when it is not), then handed to
    [binascii]. *)
Definition b64decode (s : string) (validate : bool) : option bytes :=
  let data := bytes_of_str s in
  if forallb (fun b => b <? 128) data then a2b_base64 data validate else None.

(** [binascii.b2a_base64(data, newline=False)] *)
Fixpoint b2a_base64 (data : bytes) : bytes :=
  match data with
  | [] => []
  | [a] =>
      [table_b2a_base64 (Z.shiftr a 2);
       table_b2a_base64 (Z.shiftl (Z.land a 3) 4);
       BASE64_PAD; BASE64_PAD]
  | [a; b] =>
      [table_b2a_base64 (Z.shiftr a 2);
       table_b2a_base64 (Z.lor (Z.shiftl (Z.land a 3) 4) (Z.shiftr b 4));
       table_b2a_base64 (Z.shiftl (Z.land b 15) 2);
       BASE64_PAD]
  | a :: b :: c :: rest =>
      table_b2a_base64 (Z.shiftr a 2)
      :: table_b2a_base64 (Z.lor (Z.shiftl (Z.land a 3) 4) (Z.shiftr b 4))
      :: table_b2a_base64 (Z.lor (Z.shiftl (Z.land b 15) 2) (Z.shiftr c 6))
      :: table_b2a_base64 (Z.land c 63)
      :: b2a_base64 rest
  end.

(** [base64.b64encode(data)] *)
Definition b64encode (data : bytes) : bytes := b2a_base64 data.

End Base64.

(** ** The [float] type

    A [float] is an IEEE 754 double: a [spec_float] with 53 bits of
    precision.  Reading a literal rounds to the nearest double, ties to
    even, as [float(s)] does; [repr] gives the shortest digits that read
    back as the same double. *)

Module PyFloat.

Definition prec : Z := 53.
Definition emax : Z := 1024.

(** The double nearest to [(-1)^neg * m * 10^e], ties to even. *)
Definition of_decimal (neg : bool) (m e : Z) : spec_float :=
  match m with
  | Zpos p =>
      if 0 <=? e then binary_round prec emax neg (Z.to_pos (m * 10 ^ e)) 0
      else SFdiv prec emax (S754_finite neg p 0)
                 (S754_finite false (Z.to_pos (10 ^ (- e))) 0)
  | _ => S754_zero neg
  end.

Definition digits_value (ds : list ascii) : Z :=
  fold_left (fun acc c => acc * 10 + (ord c - 48)) ds 0.

(** The digits [s] starts with, and what follows them. *)
Fixpoint span_digits (s : string) : list ascii * string :=
  match s with
  | String c rest =>
      if between 48 (ord c) 57 then
        let (ds, r) := span_digits rest in (c :: ds, r)
      else ([], s)
  | EmptyString => ([], s)
  end.

(** [float(l)] for a JSON number [l] with a fraction or an exponent. *)
Definition of_literal (l : string) : spec_float :=
  let (neg, l) := match l with
                  | String "-" rest => (true, rest)
                  | _ => (false, l)
                  end in
  let (ip, r1) := span_digits l in
  let (fp, r2) := match r1 with
                  | String "." rest => span_digits rest
                  | _ => ([], r1)
                  end in
  let ex := match r2 with
            | String _ (String "-" rest) => - digits_value (fst (span_digits rest))
            | String _ (String "+" rest) => digits_value (fst (span_digits rest))
            | String _ rest => digits_value (fst (span_digits rest))
            | EmptyString => 0
            end in
  of_decimal neg (digits_value (ip ++ fp)%list) (ex - Z.of_nat (length fp)).

(** The same finite double. *)
Definition same (x y : spec_float) : bool :=
  match x, y with
  | S754_finite s m e, S754_finite s' m' e' => Bool.eqb s s' && Pos.eqb m m' && (e =? e')
  | _, _ => false
  end.

(** [N / D * 10^s] as a fraction. *)
Definition scaled (N D s : Z) : Z * Z :=
  if 0 <=? s then (N * 10 ^ s, D) else (N, D * 10 ^ (- s)).

(** The largest [k] with [10^k <= N / D], searched upwards from a [k]
    that is not above it. *)
Fixpoint magnitude (fuel : nat) (N D k : Z) : Z :=
  match fuel with
  | O => k
  | S fuel' =>
      let (n, d) := scaled N D (- (k + 1)) in
      if d <=? n then magnitude fuel' N D (k + 1) else k
  end.

(** The shortest digits that read back as [x = N / D], as [c * 10^e]:
    among the numbers of [n] digits the two next to [x] are tried, the
    nearer one first (the even one when [x] is half-way), then [n + 1]
    digits; 17 digits always do. *)
Fixpoint shortest (fuel : nat) (x : spec_float) (N D k n : Z) : Z * Z :=
  let s := n - 1 - k in
  let (num, den) := scaled N D s in
  let lo := num / den in
  let hi := lo + 1 in
  let lo_ok := same (of_decimal false lo (- s)) x in
  let hi_ok := same (of_decimal false hi (- s)) x in
  let pick := if lo_ok && hi_ok then
                match 2 * num ?= (lo + hi) * den with
                | Lt => lo
                | Gt => hi
                | Eq => if Z.even lo then lo else hi
                end
              else if lo_ok then lo else hi in
  match fuel with
  | O => (lo, - s)
  | S fuel' =>
      if lo_ok || hi_ok then (pick, - s) else shortest fuel' x N D k (n + 1)
  end.

(** [c * 10^e] without trailing zeros in [c]. *)
Fixpoint strip_zeros (fuel : nat) (c e : Z) : Z * Z :=
  match fuel with
  | O => (c, e)
  | S fuel' => if (c mod 10 =? 0) && negb (c =? 0) then strip_zeros fuel' (c / 10) (e + 1)
               else (c, e)
  end.

Fixpoint zeros (n : nat) : string :=
  match n with O => "" | S n' => String "0" (zeros n') end.

Definition take (n : nat) (s : string) : string := substring 0 n s.
Definition drop (n : nat) (s : string) : string := substring n (String.length s - n) s.

(** [repr(x)] for a positive finite [x = m * 2^e]: exponent notation
    when the decimal point would fall more than four places before the
    digits or more than sixteen after their start. *)
Definition repr_pos (x : spec_float) (m : positive) (e : Z) : string :=
  let (N, D) := if 0 <=? e then (Zpos m * 2 ^ e, 1) else (Zpos m, 2 ^ (- e)) in
  let k0 := ((Z.log2 N - Z.log2 D) * 1233) / 4096 - 2 in
  let k := magnitude 6 N D k0 in
  let (c0, e0) := shortest 17 x N D k 1 in
  let (c, e10) := strip_zeros 20 c0 e0 in
  let ds := PyStr.of_int c in
  let nd := Z.of_nat (String.length ds) in
  let decpt := nd + e10 in
  if (decpt <=? -4) || (16 <? decpt) then
    let ex := decpt - 1 in
    let mant := match ds with
                | String d "" => String d ""
                | String d rest => String d ("." ++ rest)
                | "" => ""
                end in
    let exs := PyStr.of_int (Z.abs ex) in
    mant ++ "e" ++ (if ex <? 0 then "-" else "+")
         ++ (if Z.abs ex <? 10 then "0" else "") ++ exs
  else if decpt <=? 0 then "0." ++ zeros (Z.to_nat (- decpt)) ++ ds
  else if nd <=? decpt then ds ++ zeros (Z.to_nat (decpt - nd)) ++ ".0"
  else take (Z.to_nat decpt) ds ++ "." ++ drop (Z.to_nat decpt) ds.

(** [x == 0.0] *)
Definition is_zero (x : spec_float) : bool :=
  match x with S754_zero _ => true | _ => false end.

(** What [json.dumps] writes for a float. *)
Definition repr (x : spec_float) : string :=
  match x with
  | S754_zero s => if s then "-0.0" else "0.0"
  | S754_infinity s => if s then "-Infinity" else "Infinity"
  | S754_nan => "NaN"
  | S754_finite s m e =>
      (if s then "-" else "") ++ repr_pos (S754_finite false m e) m e
  end.

End PyFloat.

(** ** JSON values and the [json] module *)

(** What [json.loads] builds and [json.dumps] accepts. *)
#[warnings="-register-all"] Inductive json : Type :=
| JNull
| JBool (b : bool)
| JInt (n : Z)
| JFloat (x : spec_float)
| JStr (s : string)
| JArr (items : list json)
| JObj (fields : list (string * json)).

Definition dict := list (string * json).

(** [d.get(k)] on a [dict]. *)
Fixpoint dict_get (d : dict) (k : string) : option json :=
  match d with
  | [] => None
  | (k', v) :: rest => if String.eqb k k' then Some v else dict_get rest k
  end.

(** [d[k] = v]: an existing key keeps its place. *)
Fixpoint dict_set (d : dict) (k : string) (v : json) : dict :=
  match d with
  | [] => [(k, v)]
  | (k', v') :: rest =>
      if String.eqb k k' then (k, v) :: rest else (k', v') :: dict_set rest k v
  end.

Module Json.

Definition quote : ascii := "034".
Definition backslash : ascii := "092".

Definition is_digit (c : ascii) : bool := between 48 (ord c) 57.
Definition is_e (c : ascii) : bool := (ord c =? 101) || (ord c =? 69).
Definition is_sign (c : ascii) : bool := (ord c =? 43) || (ord c =? 45).

Definition hex_val (c : ascii) : option Z :=
  let n := ord c in
  if between 48 n 57 then Some (n - 48)
  else if between 97 n 102 then Some (n - 87)
  else if between 65 n 70 then Some (n - 55)
  else None.

Definition hex4 (a b c d : ascii) : option Z :=
  match hex_val a, hex_val b, hex_val c, hex_val d with
  | Some x, Some y, Some z, Some w => Some (((x * 16 + y) * 16 + z) * 16 + w)
  | _, _, _, _ => None
  end.

(** *** Scanning *)

Inductive token : Type :=
| TLBrace | TRBrace | TLBracket | TRBracket | TColon | TComma
| TAtom (v : json).

(** Where the scanner is.  Buffers hold the characters read so far, last
    one first. *)
Inductive mode : Type :=
| Top
| InStr (buf : list ascii) (hi : option Z)
| Sign
| IntPart (buf : list ascii) (more : bool)
| Frac (buf : list ascii)
| ExpMark (buf : list ascii)
| Exp (buf : list ascii).

Definition digits_value (ds : list ascii) : Z :=
  fold_left (fun acc c => acc * 10 + (ord c - 48)) ds 0.

(** An integer literal; [int] refuses more than 4300 digits
    (ValueError). *)
Definition int_token (buf : list ascii) : option token :=
  match rev buf with
  | c :: ds =>
      if ord c =? 45 then
        if 4300 <? Z.of_nat (length ds) then None
        else Some (TAtom (JInt (- digits_value ds)))
      else
        if 4300 <? Z.of_nat (length (c :: ds)) then None
        else Some (TAtom (JInt (digits_value (c :: ds))))
  | [] => None
  end.

Definition float_token (buf : list ascii) : token :=
  TAtom (JFloat (PyFloat.of_literal (string_of_list_ascii (rev buf)))).

Definition starts_digit (s : string) : bool :=
  match s with String c _ => is_digit c | EmptyString => false end.

Definition starts_exp (s : string) : bool :=
  match s with
  | String c rest => is_digit c || (is_sign c && starts_digit rest)
  | EmptyString => false
  end.

Definition push_cp (cp : Z) (buf : list ascii) : list ascii :=
  (rev (map chr (Utf8.encode_cp cp)) ++ buf)%list.

Definition flush (hi : option Z) (buf : list ascii) : list ascii :=
  match hi with Some h => push_cp h buf | None => buf end.

Definition is_high (u : Z) : bool := between 55296 u 56319.
Definition is_low (u : Z) : bool := between 56320 u 57343.

Definition simple_escape (c : ascii) : option ascii :=
  let n := ord c in
  if n =? 34 then Some quote
  else if n =? 92 then Some backslash
  else if n =? 47 then Some "/"%char
  else if n =? 98 then Some "008"%char
  else if n =? 102 then Some "012"%char
  else if n =? 110 then Some "010"%char
  else if n =? 114 then Some "013"%char
  else if n =? 116 then Some "009"%char
  else None.

(** What one character does to the scanner. *)
Inductive action : Type :=
| Fail
| Cont (m : mode)
| AtTop (acc : list token)
| AtStr (buf : list ascii) (hi : option Z).

(** Inside a number: the character either extends the literal or ends
    it, in which case it is read again between tokens. *)
Definition number_step (m : mode) (c : ascii) (rest : string)
           (acc : list token) : action :=
  match m with
  | Top => AtTop acc
  | InStr buf hi => AtStr buf hi
  | Sign =>
      if ord c =? 48 then Cont (IntPart [c; "-"%char] false)
      else if is_digit c then Cont (IntPart [c; "-"%char] true)
      else Fail
  | IntPart buf more =>
      if more && is_digit c then Cont (IntPart (c :: buf) true)
      else if (ord c =? 46) && starts_digit rest then Cont (Frac (c :: buf))
      else if is_e c && starts_exp rest then Cont (ExpMark (c :: buf))
      else match int_token buf with
           | Some t => AtTop (t :: acc)
           | None => Fail
           end
  | Frac buf =>
      if is_digit c then Cont (Frac (c :: buf))
      else if is_e c && starts_exp rest then Cont (ExpMark (c :: buf))
      else AtTop (float_token buf :: acc)
  | ExpMark buf =>
      if is_digit c || is_sign c then Cont (Exp (c :: buf)) else Fail
  | Exp buf =>
      if is_digit c then Cont (Exp (c :: buf))
      else AtTop (float_token buf :: acc)
  end.

Definition punctuation (c : ascii) : option token :=
  let n := ord c in
  if n =? 123 then Some TLBrace
  else if n =? 125 then Some TRBrace
  else if n =? 91 then Some TLBracket
  else if n =? 93 then Some TRBracket
  else if n =? 58 then Some TColon
  else if n =? 44 then Some TComma
  else None.

Definition is_ws (c : ascii) : bool :=
  let n := ord c in (n =? 32) || (n =? 9) || (n =? 10) || (n =? 13).

(** The scanner: tokens of [s], last one first. *)
Fixpoint scan (m : mode) (s : string) (acc : list token) {struct s}
  : option (list token) :=
  match s with
  | EmptyString =>
      match m with
      | Top => Some acc
      | IntPart buf _ => option_map (fun t => t :: acc) (int_token buf)
      | Frac buf | Exp buf => Some (float_token buf :: acc)
      | InStr _ _ | Sign | ExpMark _ => None
      end
  | String c rest =>
      match number_step m c rest acc with
      | Fail => None
      | Cont m' => scan m' rest acc
      | AtTop acc =>
          if is_ws c then scan Top rest acc
          else
            match punctuation c with
            | Some t => scan Top rest (t :: acc)
            | None =>
                if Ascii.eqb c quote then scan (InStr [] None) rest acc
                else if ord c =? 48 then scan (IntPart [c] false) rest acc
                else if is_digit c then scan (IntPart [c] true) rest acc
                else
                  match c, rest with
                  | "n"%char, String "u" (String "l" (String "l" r)) =>
                      scan Top r (TAtom JNull :: acc)
                  | "t"%char, String "r" (String "u" (String "e" r)) =>
                      scan Top r (TAtom (JBool true) :: acc)
                  | "f"%char, String "a" (String "l" (String "s" (String "e" r))) =>
                      scan Top r (TAtom (JBool false) :: acc)
                  | "N"%char, String "a" (String "N" r) =>
                      scan Top r (TAtom (JFloat S754_nan) :: acc)
                  | "I"%char, String "n" (String "f" (String "i" (String "n"
                               (String "i" (String "t" (String "y" r)))))) =>
                      scan Top r (TAtom (JFloat (S754_infinity false)) :: acc)
                  | "-"%char, String "I" (String "n" (String "f" (String "i"
                               (String "n" (String "i" (String "t" (String "y" r))))))) =>
                      scan Top r (TAtom (JFloat (S754_infinity true)) :: acc)
                  | "-"%char, _ => scan Sign rest acc
                  | _, _ => None
                  end
            end
      | AtStr buf hi =>
          if Ascii.eqb c quote then
            scan Top rest
              (TAtom (JStr (string_of_list_ascii (rev (flush hi buf)))) :: acc)
          else if Ascii.eqb c backslash then
            match rest with
            | String "u" (String h1 (String h2 (String h3 (String h4 r)))) =>
                match hex4 h1 h2 h3 h4 with
                | None => None
                | Some u =>
                    match hi with
                    | Some h =>
                        if is_low u then
                          scan (InStr
                                  (push_cp (65536 + Z.lor (Z.shiftl (h - 55296) 10)
                                                      (u - 56320)) buf) None) r acc
                        else if is_high u then
                          scan (InStr (push_cp h buf) (Some u)) r acc
                        else scan (InStr (push_cp u (push_cp h buf)) None) r acc
                    | None =>
                        if is_high u then scan (InStr buf (Some u)) r acc
                        else scan (InStr (push_cp u buf) None) r acc
                    end
                end
            | String e r =>
                match simple_escape e with
                | Some ch => scan (InStr (ch :: flush hi buf) None) r acc
                | None => None
                end
            | EmptyString => None
            end
          else if ord c <? 32 then None
          else scan (InStr (c :: flush hi buf) None) rest acc
      end
  end.

(** *** Parsing *)

(** The containers that are still open around the value being read. *)
Inductive frame : Type :=
| FArr (items : list json)
| FObj (fields : dict) (key : string).

Inductive pstate : Type :=
| PValue (stk : list frame)
| PArrOpen (stk : list frame)
| PArrNext (items : list json) (stk : list frame)
| PObjOpen (stk : list frame)
| PKey (fields : dict) (stk : list frame)
| PColon (fields : dict) (key : string) (stk : list frame)
| PObjNext (fields : dict) (stk : list frame)
| PDone (v : json).

(** A value is complete: hand it to the innermost open container. *)
Definition complete (v : json) (stk : list frame) : pstate :=
  match stk with
  | [] => PDone v
  | FArr items :: stk' => PArrNext (v :: items) stk'
  | FObj fields key :: stk' => PObjNext (dict_set fields key v) stk'
  end.

Definition begin_value (stk : list frame) (t : token) : option pstate :=
  match t with
  | TAtom v => Some (complete v stk)
  | TLBracket => Some (PArrOpen stk)
  | TLBrace => Some (PObjOpen stk)
  | _ => None
  end.

Definition step (st : pstate) (t : token) : option pstate :=
  match st, t with
  | PValue stk, _ => begin_value stk t
  | PArrOpen stk, TRBracket => Some (complete (JArr []) stk)
  | PArrOpen stk, _ => begin_value (FArr [] :: stk) t
  | PArrNext items stk, TComma => Some (PValue (FArr items :: stk))
  | PArrNext items stk, TRBracket => Some (complete (JArr (rev items)) stk)
  | PObjOpen stk, TRBrace => Some (complete (JObj []) stk)
  | PObjOpen stk, TAtom (JStr k) => Some (PColon [] k stk)
  | PKey fields stk, TAtom (JStr k) => Some (PColon fields k stk)
  | PColon fields k stk, TColon => Some (PValue (FObj fields k :: stk))
  | PObjNext fields stk, TComma => Some (PKey fields stk)
  | PObjNext fields stk, TRBrace => Some (complete (JObj fields) stk)
  | _, _ => None
  end.

Fixpoint parse (st : pstate) (ts : list token) : option json :=
  match ts with
  | [] => match st with PDone v => Some v | _ => None end
  | t :: rest =>
      match step st t with
      | Some st' => parse st' rest
      | None => None
      end
  end.

(** What the text [s] denotes, read on a stack without bound; [None]
    stands for the exception [json.loads] raises ([JSONDecodeError], or
    [ValueError] for an oversized integer). *)
Definition loads (s : string) : option json :=
  match scan Top s [] with
  | Some ts => parse (PValue []) (rev ts)
  | None => None
  end.

(** How deep the containers of a text are nested: [open] of them are
    open, [deepest] is the most that were open at once. *)
Fixpoint nesting (ts : list token) (open deepest : Z) : Z :=
  match ts with
  | [] => deepest
  | (TLBrace | TLBracket) :: rest =>
      nesting rest (open + 1) (Z.max deepest (open + 1))
  | (TRBrace | TRBracket) :: rest => nesting rest (open - 1) deepest
  | _ :: rest => nesting rest open deepest
  end.

(** [json.loads(s)] called where the interpreter has room for [room]
    nested containers: the scanner enters a recursive call for every
    object and array it opens and raises [RecursionError] when the
    recursion limit is reached, before or after any other error in the
    text.  [None] stands for that exception too. *)
Definition loads_within (room : Z) (s : string) : option json :=
  match scan Top s [] with
  | Some ts =>
      if nesting (rev ts) 0 0 <=? room then parse (PValue []) (rev ts) else None
  | None => None
  end.

End Json.

Module JsonDump.

Definition hex_digit (n : Z) : ascii :=
  if n <? 10 then chr (48 + n) else chr (87 + n).

(** ['\\u{0:04x}'.format(n)] *)
Definition u_escape (n : Z) : string :=
  String Json.backslash
    (String "u"
       (String (hex_digit (Z.land (Z.shiftr n 12) 15))
          (String (hex_digit (Z.land (Z.shiftr n 8) 15))
             (String (hex_digit (Z.land (Z.shiftr n 4) 15))
                (String (hex_digit (Z.land n 15)) ""))))).

(** One code point under [ensure_ascii]: the short escapes of
    [ESCAPE_DCT], printable ASCII as it is, four hex digits for the rest
    of the BMP, a surrogate pair above it. *)
Definition escape_cp (n : Z) : string :=
  if n =? 34 then String Json.backslash (String Json.quote "")
  else if n =? 92 then String Json.backslash (String Json.backslash "")
  else if n =? 10 then String Json.backslash "n"
  else if n =? 13 then String Json.backslash "r"
  else if n =? 9 then String Json.backslash "t"
  else if n =? 8 then String Json.backslash "b"
  else if n =? 12 then String Json.backslash "f"
  else if between 32 n 126 then String (chr n) ""
  else if n <? 65536 then u_escape n
  else
    let m := n - 65536 in
    u_escape (Z.lor 55296 (Z.land (Z.shiftr m 10) 1023))
    ++ u_escape (Z.lor 56320 (Z.land m 1023)).

(** [encode_basestring_ascii(s)].  A byte string that is the encoding of
    no text is read byte by byte. *)
Definition encode_basestring_ascii (s : string) : string :=
  let cps := match Utf8.code_points true (bytes_of_str s) with
             | Some cps => cps
             | None => bytes_of_str s
             end in
  String Json.quote (String.concat "" (map escape_cp cps) ++ String Json.quote "").

(** [json.dumps(v, separators=(item_sep, key_sep))] *)
Fixpoint dumps (item_sep key_sep : string) (v : json) : string :=
  match v with
  | JNull => "null"
  | JBool true => "true"
  | JBool false => "false"
  | JInt n => PyStr.of_int n
  | JFloat x => PyFloat.repr x
  | JStr s => encode_basestring_ascii s
  | JArr [] => "[]"
  | JArr items =>
      "[" ++ PyStr.join item_sep (map (dumps item_sep key_sep) items) ++ "]"
  | JObj [] => "{}"
  | JObj fields =>
      "{" ++ PyStr.join item_sep
               (map (fun kv => encode_basestring_ascii (fst kv) ++ key_sep
                               ++ dumps item_sep key_sep (snd kv)) fields)
      ++ "}"
  end.

(** [json.dumps(v)] with the default separators. *)
Definition dumps_default : json -> string := dumps ", " ": ".

(** [json.dumps(v, separators=(',', ':'))] *)
Definition dumps_compact : json -> string := dumps "," ":".

End JsonDump.

(** ** Dynamic typing: truth values, type names *)

Module Py.

(** [bool(v)] *)
Definition truthy (v : json) : bool :=
  match v with
  | JNull => false
  | JBool b => b
  | JInt n => negb (n =? 0)
  | JFloat x => negb (PyFloat.is_zero x)
  | JStr s => nonempty s
  | JArr items => match items with [] => false | _ => true end
  | JObj fields => match fields with [] => false | _ => true end
  end.

(** [a or b] *)
Definition or (a b : json) : json := if truthy a then a else b.

(** [type(v).__name__] *)
Definition type_name (v : json) : string :=
  match v with
  | JNull => "NoneType"
  | JBool _ => "bool"
  | JInt _ => "int"
  | JFloat _ => "float"
  | JStr _ => "str"
  | JArr _ => "list"
  | JObj _ => "dict"
  end.

End Py.

(** ** [os.path] (POSIX) *)

Module PosixPath.

Definition ends_with_sep (s : string) : bool :=
  match rev (list_ascii_of_string s) with
  | c :: _ => Ascii.eqb c "/"
  | [] => false
  end.

(** [os.path.join(a, b)] *)
Definition join (a b : string) : string :=
  if prefix "/" b then b
  else if negb (nonempty a) || ends_with_sep a then a ++ b
  else a ++ "/" ++ b.

(** The text after the last ['/'] of [cs]; [cur] is what has been read
    since the last one. *)
Fixpoint after_last_sep (cs : list ascii) (cur : list ascii) : list ascii :=
  match cs with
  | [] => rev cur
  | c :: rest =>
      if Ascii.eqb c "/" then after_last_sep rest []
      else after_last_sep rest (c :: cur)
  end.

(** [os.path.basename(p)] *)
Definition basename (p : string) : string :=
  string_of_list_ascii (after_last_sep (list_ascii_of_string p) []).

End PosixPath.

(** ** Effects: the file system, the child process, the log *)

(** How [subprocess.run(..., capture_output=True, text=True, timeout=...)]
    ends: the process exits, the time-out expires, or anything else goes
    wrong ([e] is the text of that exception). *)
Inductive process_result : Type :=
| Completed (returncode : Z) (stdout stderr : string)
| TimeoutExpired
| OtherError (e : string).

(** The machine the backend runs on.  [recursion_room] is how many
    containers [json.loads] can nest where [exec_cmc] calls it: what
    [sys.getrecursionlimit()] leaves once the frames of the server and of
    the handler are counted. *)
Record world : Type := {
  path_exists : string -> bool;
  subprocess_run : list string -> string -> Z -> process_result;
  recursion_room : Z
}.

(** What a request leaves behind, in order.  [Spawn] records a call of
    [subprocess.run], whether or not the process could be started. *)
Inductive event : Type :=
| LogInfo (msg : string)
| Spawn (cmd : list string) (cwd : string) (timeout : Z).

(** The exceptions that escape a handler; Flask answers them with a 500
    page. *)
Inductive pyexn : Type :=
| AttributeError (type_name attr : string)
| UnicodeEncodeError
| UnicodeDecodeError.

(** A computation reads the world, extends the trace and either raises or
    returns. *)
Definition M (A : Type) : Type :=
  world -> list event -> list event * (pyexn + A).

Definition ret {A} (a : A) : M A := fun _ tr => (tr, inr a).

Definition raise {A} (e : pyexn) : M A := fun _ tr => (tr, inl e).

Definition bind {A B} (m : M A) (k : A -> M B) : M B :=
  fun w tr =>
    match m w tr with
    | (tr', inl e) => (tr', inl e)
    | (tr', inr a) => k a w tr'
    end.

Notation "x <- m ;; k" := (bind m (fun x => k))
  (at level 61, m at next level, right associativity).
Notation "' p <- m ;; k" := (bind m (fun x => match x with p => k end))
  (at level 61, p pattern, m at next level, right associativity).
Notation "m ;;; k" := (bind m (fun _ => k))
  (at level 61, right associativity).

Definition os_path_exists (p : string) : M bool :=
  fun w tr => (tr, inr (path_exists w p)).

Definition log_info (msg : string) : M unit :=
  fun _ tr => ((tr ++ [LogInfo msg])%list, inr tt).

Definition run_subprocess (cmd : list string) (cwd : string) (timeout : Z)
  : M process_result :=
  fun w tr => ((tr ++ [Spawn cmd cwd timeout])%list, inr (subprocess_run w cmd cwd timeout)).

(** [json.loads(s)] inside [try: ... except Exception:]; [None] stands
    for the exception caught. *)
Definition json_loads (s : string) : M (option json) :=
  fun w tr => (tr, inr (Json.loads_within (recursion_room w) s)).

(** One request served from an empty trace. *)
Definition serve {A} (m : M A) (w : world) : list event * (pyexn + A) := m w [].

(** The child processes a trace has started. *)
Fixpoint spawns (tr : list event) : list (list string * string * Z) :=
  match tr with
  | [] => []
  | Spawn cmd cwd t :: rest => (cmd, cwd, t) :: spawns rest
  | LogInfo _ :: rest => spawns rest
  end.

(** Attribute access on a value of any type. *)
Module Dyn.

(** [v.get(k, default)] *)
Definition get (v : json) (k : string) (default : json) : M json :=
  match v with
  | JObj d => ret (match dict_get d k with Some x => x | None => default end)
  | _ => raise (AttributeError (Py.type_name v) "get")
  end.

(** [v.strip()] *)
Definition strip (v : json) : M string :=
  match v with
  | JStr s => ret (PyStr.strip s)
  | _ => raise (AttributeError (Py.type_name v) "strip")
  end.

(** [v.encode("utf-8")] *)
Definition encode (v : json) : M bytes :=
  match v with
  | JStr s =>
      match Utf8.encode s with
      | Some bs => ret bs
      | None => raise UnicodeEncodeError
      end
  | _ => raise (AttributeError (Py.type_name v) "encode")
  end.

(** [bs.decode("utf-8")] *)
Definition decode (bs : bytes) : M string :=
  match Utf8.decode bs with
  | Some s => ret s
  | None => raise UnicodeDecodeError
  end.

End Dyn.

(** ** The backend *)

(** The settings read from the environment when the module is loaded. *)
Record config : Type := {
  CONTRACT_NAME : string;
  SDK_CONF_PATH : string;
  CMC_BIN : string;
  WORK_DIR : string
}.

(** [os.getenv(name, default)] *)
Definition getenv (env : string -> option string) (name default : string) : string :=
  match env name with Some v => v | None => default end.

Definition load_config (env : string -> option string) : config := {|
  CONTRACT_NAME := getenv env "CM_CONTRACT" "CMNFA";
  SDK_CONF_PATH := getenv env "CM_SDK" "./testdata/sdk_config.yml";
  CMC_BIN := getenv env "CM_CMC_BIN" "./cmc";
  WORK_DIR := getenv env "CM_WORKDIR" "/home/young3/chainmaker-go/tools/cmc"
|}.

Definition base64_charset : string :=
  Base64.alphabet ++ "=" ++ String "010" (String "013" "").

Definition _is_base64 (s : string) : bool :=
  if negb (nonempty s)
     || existsb (fun c => negb (PyStr.mem c base64_charset)) (list_ascii_of_string s)
  then false
  else
    match Base64.b64decode s true with
    | Some _ => true
    | None => false
    end.

Definition _decode_result (maybe_b64 : json) : json :=
  match maybe_b64 with
  | JStr s =>
      if _is_base64 s then
        match Base64.b64decode s false with
        | Some bs =>
            match Utf8.decode bs with
            | Some text => JStr text
            | None => maybe_b64
            end
        | None => maybe_b64
        end
      else maybe_b64
  | _ => maybe_b64
  end.

Definition ok (data : json) : json :=
  JObj [("success", JBool true); ("data", data)].

Definition err (msg : json) : json :=
  JObj [("success", JBool false); ("error", msg)].

(** The default of [exec_cmc]'s [timeout] argument. *)
Definition default_timeout : Z := 60.

Section Backend.

Variable cfg : config.

Definition exec_cmc (method : string) (params : option dict) (sync : bool)
           (timeout : Z) : M (bool * json) :=
  let cmd :=
    [CMC_BIN cfg; "client"; "contract"; "user"; "invoke";
     "--contract-name=" ++ CONTRACT_NAME cfg;
     "--method=" ++ method;
     "--sdk-conf-path=" ++ SDK_CONF_PATH cfg;
     "--sync-result=" ++ (if sync then "true" else "false")] in
  let cmd :=
    match params with
    | Some (kv :: rest) =>
        List.app cmd ["--params=" ++ JsonDump.dumps_compact (JObj (kv :: rest))]
    | Some [] | None => cmd
    end in
  cmc_found <- os_path_exists
                 (PosixPath.join (WORK_DIR cfg) (PosixPath.basename (CMC_BIN cfg))) ;;
  if negb cmc_found then
    ret (false, JStr ("找不到 CMC 可执行文件：" ++ PosixPath.join (WORK_DIR cfg) (CMC_BIN cfg)))
  else
    sdk_found <- os_path_exists (PosixPath.join (WORK_DIR cfg) (SDK_CONF_PATH cfg)) ;;
    if negb sdk_found then
      ret (false, JStr ("找不到 SDK 配置：" ++ PosixPath.join (WORK_DIR cfg) (SDK_CONF_PATH cfg)))
    else
      log_info ("Exec: " ++ PyStr.join " " cmd) ;;;
      p <- run_subprocess cmd (WORK_DIR cfg) timeout ;;
      match p with
      | Completed returncode out errout =>
          let stdout := PyStr.strip out in
          let stderr := PyStr.strip errout in
          if negb (returncode =? 0) then
            ret (false,
                 JStr (if nonempty stderr then stderr
                       else if nonempty stdout then stdout
                       else "cmc 退出码 " ++ PyStr.of_int returncode))
          else
            parsed <- json_loads stdout ;;
            match parsed with
            | Some data => ret (true, data)
            | None => ret (true, JStr stdout)
            end
      | TimeoutExpired => ret (false, JStr "执行超时")
      | OtherError e => ret (false, JStr ("执行异常：" ++ e))
      end.

(** GET /api/nfa/total-supply *)
Definition total_supply : M json :=
  '(ok_, data) <- exec_cmc "TotalSupply" None true default_timeout ;;
  if negb ok_ then ret (err data)
  else
    cr <- Dyn.get data "contract_result" (JObj []) ;;
    res <- Dyn.get cr "result" (JStr "MA==") ;;
    ret (ok (_decode_result res)).

(** POST /api/nfa/owner *)
Definition owner_of (body : json) : M json :=
  raw <- Dyn.get body "tokenId" (JStr "") ;;
  token_id <- Dyn.strip raw ;;
  if negb (nonempty token_id) then ret (err (JStr "tokenId 不能为空"))
  else
    '(ok_, data) <- exec_cmc "OwnerOf" (Some [("tokenId", JStr token_id)])
                      true default_timeout ;;
    if negb ok_ then ret (err data)
    else
      cr <- Dyn.get data "contract_result" (JObj []) ;;
      res <- Dyn.get cr "result" (JStr "") ;;
      ret (ok (_decode_result res)).

(** POST /api/nfa/token-uri *)
Definition token_uri (body : json) : M json :=
  raw <- Dyn.get body "tokenId" (JStr "") ;;
  token_id <- Dyn.strip raw ;;
  if negb (nonempty token_id) then ret (err (JStr "tokenId 不能为空"))
  else
    '(ok_, data) <- exec_cmc "TokenURI" (Some [("tokenId", JStr token_id)])
                      true default_timeout ;;
    if negb ok_ then ret (err data)
    else
      cr <- Dyn.get data "contract_result" (JObj []) ;;
      res <- Dyn.get cr "result" (JStr "") ;;
      ret (ok (_decode_result res)).

(** POST /api/nfa/balance-of *)
Definition balance_of (body : json) : M json :=
  raw <- Dyn.get body "account" (JStr "") ;;
  account <- Dyn.strip raw ;;
  if negb (nonempty account) then ret (err (JStr "account 不能为空"))
  else
    '(ok_, data) <- exec_cmc "BalanceOf" (Some [("account", JStr account)])
                      true default_timeout ;;
    if negb ok_ then ret (err data)
    else
      cr <- Dyn.get data "contract_result" (JObj []) ;;
      res <- Dyn.get cr "result" (JStr "MA==") ;;
      ret (ok (_decode_result res)).

(** POST /api/nfa/mint *)
Definition mint (b : json) : M json :=
  raw_to <- Dyn.get b "to" (JStr "") ;;
  to <- Dyn.strip raw_to ;;
  raw_id <- Dyn.get b "tokenId" (JStr "") ;;
  token_id <- Dyn.strip raw_id ;;
  raw_cat <- Dyn.get b "categoryName" (JStr "") ;;
  category <- Dyn.strip raw_cat ;;
  raw_text <- Dyn.get b "metadata_text" JNull ;;
  metadata_text <- Dyn.encode (Py.or raw_text (JStr "")) ;;
  metadata_b64 <- Dyn.get b "metadata_b64" JNull ;;
  if negb (nonempty to && nonempty token_id && nonempty category) then
    ret (err (JStr "to / tokenId / categoryName 不能为空"))
  else
    meta <- (if Py.truthy metadata_b64 then ret metadata_b64
             else
               match metadata_text with
               | [] => ret (JStr "")
               | _ => text <- Dyn.decode (Base64.b64encode metadata_text) ;;
                      ret (JStr text)
               end) ;;
    '(ok_, data) <- exec_cmc "Mint"
                      (Some [("to", JStr to); ("tokenId", JStr token_id);
                             ("categoryName", JStr category); ("metadata", meta)])
                      true default_timeout ;;
    if negb ok_ then ret (err data)
    else
      cr <- Dyn.get data "contract_result" (JObj []) ;;
      msg <- Dyn.get cr "message" (JStr "") ;;
      evts <- Dyn.get cr "contract_event" (JArr []) ;;
      tx_id <- Dyn.get data "tx_id" JNull ;;
      height <- Dyn.get data "tx_block_height" JNull ;;
      ret (ok (JObj [("message", msg); ("events", evts);
                     ("tx_id", tx_id); ("block_height", height)])).

(** POST /api/nfa/transfer-from *)
Definition transfer_from (b : json) : M json :=
  raw_from <- Dyn.get b "from" (JStr "") ;;
  from_addr <- Dyn.strip raw_from ;;
  raw_to <- Dyn.get b "to" (JStr "") ;;
  to_addr <- Dyn.strip raw_to ;;
  raw_id <- Dyn.get b "tokenId" (JStr "") ;;
  token_id <- Dyn.strip raw_id ;;
  if negb (nonempty from_addr && nonempty to_addr && nonempty token_id) then
    ret (err (JStr "from / to / tokenId 不能为空"))
  else
    '(ok_, data) <- exec_cmc "TransferFrom"
                      (Some [("from", JStr from_addr); ("to", JStr to_addr);
                             ("tokenId", JStr token_id)])
                      true default_timeout ;;
    if negb ok_ then ret (err data)
    else
      cr <- Dyn.get data "contract_result" (JObj []) ;;
      msg <- Dyn.get cr "message" (JStr "") ;;
      evts <- Dyn.get cr "contract_event" (JArr []) ;;
      tx_id <- Dyn.get data "tx_id" JNull ;;
      height <- Dyn.get data "tx_block_height" JNull ;;
      ret (ok (JObj [("message", msg); ("events", evts);
                     ("tx_id", tx_id); ("block_height", height)])).

(** POST /api/nfa/burn *)
Definition burn (b : json) : M json :=
  raw_id <- Dyn.get b "tokenId" (JStr "") ;;
  token_id <- Dyn.strip raw_id ;;
  if negb (nonempty token_id) then ret (err (JStr "tokenId 不能为空"))
  else
    '(ok_, data) <- exec_cmc "Burn" (Some [("tokenId", JStr token_id)])
                      true default_timeout ;;
    if negb ok_ then ret (err data)
    else
      cr <- Dyn.get data "contract_result" (JObj []) ;;
      msg <- Dyn.get cr "message" (JStr "") ;;
      evts <- Dyn.get cr "contract_event" (JArr []) ;;
      tx_id <- Dyn.get data "tx_id" JNull ;;
      height <- Dyn.get data "tx_block_height" JNull ;;
      ret (ok (JObj [("message", msg); ("events", evts);
                     ("tx_id", tx_id); ("block_height", height)])).

(** POST /api/nfa/create-or-set-category *)
Definition create_or_set_category (b : json) : M json :=
  raw_name <- Dyn.get b "categoryName" (JStr "") ;;
  name <- Dyn.strip raw_name ;;
  raw_uri <- Dyn.get b "categoryURI" (JStr "") ;;
  uri <- Dyn.strip raw_uri ;;
  if negb (nonempty name && nonempty uri) then
    ret (err (JStr "categoryName / categoryURI 不能为空"))
  else
    let category_json :=
      JsonDump.dumps_default
        (JObj [("categoryName", JStr name); ("categoryURI", JStr uri)]) in
    '(ok_, data) <- exec_cmc "CreateOrSetCategory"
                      (Some [("category", JStr category_json)])
                      true default_timeout ;;
    if negb ok_ then ret (err data)
    else
      cr <- Dyn.get data "contract_result" (JObj []) ;;
      msg <- Dyn.get cr "message" (JStr "") ;;
      evts <- Dyn.get cr "contract_event" (JArr []) ;;
      tx_id <- Dyn.get data "tx_id" JNull ;;
      height <- Dyn.get data "tx_block_height" JNull ;;
      ret (ok (JObj [("message", msg); ("events", evts);
                     ("tx_id", tx_id); ("block_height", height)])).

End Backend.

(** ** Vocabulary of the statements *)

(** [s] is made of the base64 alphabet, ['='] and line breaks only. *)
Definition charset_only (s : string) : bool :=
  forallb (fun c => PyStr.mem c base64_charset) (list_ascii_of_string s).

(** [text] is what [s] says when read as base64: [s] is non-empty, made of
    the alphabet, padding and line breaks only, strict decoding accepts it,
    and the bytes it yields are the UTF-8 encoding of [text]. *)
Definition base64_text (s text : string) : Prop :=
  nonempty s = true /\ charset_only s = true /\
  exists bs, Base64.b64decode s true = Some bs /\ Utf8.decode bs = Some text.

(** The two checks [exec_cmc] makes before it starts the process. *)
Definition preconditions_hold (cfg : config) (w : world) : bool :=
  path_exists w (PosixPath.join (WORK_DIR cfg) (PosixPath.basename (CMC_BIN cfg)))
  && path_exists w (PosixPath.join (WORK_DIR cfg) (SDK_CONF_PATH cfg)).

(** The [--params] argument, present for a non-empty mapping only. *)
Definition params_flag (params : option dict) : list string :=
  match params with
  | Some (kv :: rest) => ["--params=" ++ JsonDump.dumps_compact (JObj (kv :: rest))]
  | Some [] | None => []
  end.

Definition command_line (cfg : config) (method : string) (params : option dict)
           (sync : bool) : list string :=
  List.app
    [CMC_BIN cfg; "client"; "contract"; "user"; "invoke";
     "--contract-name=" ++ CONTRACT_NAME cfg;
     "--method=" ++ method;
     "--sdk-conf-path=" ++ SDK_CONF_PATH cfg;
     "--sync-result=" ++ (if sync then "true" else "false")]
    (params_flag params).

(** What [exec_cmc] returns for each way the process can end, where
    [json.loads] has room for [room] nested containers. *)
Definition outcome (room : Z) (p : process_result) : bool * json :=
  match p with
  | Completed returncode out errout =>
      if negb (returncode =? 0) then
        (false,
         JStr (if nonempty (PyStr.strip errout) then PyStr.strip errout
               else if nonempty (PyStr.strip out) then PyStr.strip out
               else "cmc 退出码 " ++ PyStr.of_int returncode))
      else
        match Json.loads_within room (PyStr.strip out) with
        | Some data => (true, data)
        | None => (true, JStr (PyStr.strip out))
        end
  | TimeoutExpired => (false, JStr "执行超时")
  | OtherError e => (false, JStr ("执行异常：" ++ e))
  end.

(** Concrete machines for the examples below. *)
Module Scenario.

(** The settings when no environment variable is set. *)
Definition cfg0 : config := load_config (fun _ => None).

(** A machine whose files are [files] and where every process ends as
    [p]; [json.loads] can nest 900 containers there. *)
Definition machine (files : list string) (p : process_result) : world := {|
  path_exists := fun q => existsb (String.eqb q) files;
  subprocess_run := fun _ _ _ => p;
  recursion_room := 900
|}.

(** The binary and the SDK configuration where [cfg0] looks for them. *)
Definition installed : list string :=
  ["/home/young3/chainmaker-go/tools/cmc/cmc";
   "/home/young3/chainmaker-go/tools/cmc/./testdata/sdk_config.yml"].

Definition newline : string := String "010" "".

(** A binary configured in a sub-directory of the working directory. *)
Definition cfg_subdir : config :=
  load_config (fun name =>
    if String.eqb name "CM_CMC_BIN" then Some "bin/cmc"
    else if String.eqb name "CM_WORKDIR" then Some "/w"
    else None).

(** Requests and outputs. *)
Definition owner_request : dict := [("tokenId", JStr (" 7" ++ newline))].

Definition mint_request : dict :=
  [("to", JStr " alice "); ("tokenId", JStr "7"); ("categoryName", JStr "art");
   ("metadata_text", JStr "hello")].

Definition success_data : json :=
  JObj [("contract_result",
         JObj [("message", JStr "U3VjY2Vzcw==");
               ("contract_event",
                JArr [JObj [("topic", JStr "mint")]; JObj [("topic", JStr "log")]])]);
        ("tx_id", JStr "17a9");
        ("tx_block_height", JInt 42)].

Definition success_output : string :=
  JsonDump.dumps_compact success_data ++ newline.

End Scenario.

(** The business endpoints. *)
Inductive endpoint : Type :=
| TotalSupply | OwnerOf | TokenURI | BalanceOf
| Mint | TransferFrom | Burn | CreateOrSetCategory.

(** The route table: the handler behind each endpoint.  [total-supply] is
    a GET and reads no body. *)
Definition handle (cfg : config) (e : endpoint) (body : json) : M json :=
  match e with
  | TotalSupply => total_supply cfg
  | OwnerOf => owner_of cfg body
  | TokenURI => token_uri cfg body
  | BalanceOf => balance_of cfg body
  | Mint => mint cfg body
  | TransferFrom => transfer_from cfg body
  | Burn => burn cfg body
  | CreateOrSetCategory => create_or_set_category cfg body
  end.

(** The fields each handler reads with [.get(k, "").strip()] and refuses
    when empty, in the order it reads them. *)
Definition required_fields (e : endpoint) : list string :=
  match e with
  | TotalSupply => []
  | OwnerOf | TokenURI | Burn => ["tokenId"]
  | BalanceOf => ["account"]
  | Mint => ["to"; "tokenId"; "categoryName"]
  | TransferFrom => ["from"; "to"; "tokenId"]
  | CreateOrSetCategory => ["categoryName"; "categoryURI"]
  end.

(** The contract method behind each endpoint. *)
Definition method_name (e : endpoint) : string :=
  match e with
  | TotalSupply => "TotalSupply"
  | OwnerOf => "OwnerOf"
  | TokenURI => "TokenURI"
  | BalanceOf => "BalanceOf"
  | Mint => "Mint"
  | TransferFrom => "TransferFrom"
  | Burn => "Burn"
  | CreateOrSetCategory => "CreateOrSetCategory"
  end.

(** The write operations. *)
Definition is_write (e : endpoint) : bool :=
  match e with
  | Mint | TransferFrom | Burn | CreateOrSetCategory => true
  | _ => false
  end.

(** A value that is a [str] holding well-formed text. *)
Definition is_text (v : json) : bool :=
  match v with
  | JStr s => Utf8.valid (bytes_of_str s)
  | _ => false
  end.

(** The fields a handler reads from the body. *)
Definition fields_read (e : endpoint) : list string :=
  match e with
  | Mint => ["to"; "tokenId"; "categoryName"; "metadata_text"; "metadata_b64"]
  | _ => required_fields e
  end.

(** Field [k] is absent or holds text. *)
Definition text_at (kvs : dict) (k : string) : bool :=
  match dict_get kvs k with
  | Some v => is_text v
  | None => true
  end.

(** A request for endpoint [e] whose fields hold text wherever the handler
    reads them: the mapping of string to string the endpoints are written
    for.  Other fields may hold anything. *)
Definition text_request (e : endpoint) (kvs : dict) : bool :=
  forallb (text_at kvs) (fields_read e).

(** The text submitted for field [k]; an absent field counts as empty, as
    with [.get(k, "")]. *)
Definition field (kvs : dict) (k : string) : string :=
  match dict_get kvs k with
  | Some (JStr s) => s
  | _ => ""
  end.

(** The request passes the validation of endpoint [e]: every required
    field is non-empty once trimmed. *)
Definition passes_validation (e : endpoint) (kvs : dict) : bool :=
  forallb (fun k => nonempty (PyStr.strip (field kvs k))) (required_fields e).

Arguments PyStr.strip : simpl never.
Arguments PyStr.of_int : simpl never.
Arguments PyStr.join : simpl never.
Arguments PosixPath.join : simpl never.
Arguments PosixPath.basename : simpl never.
Arguments Json.loads : simpl never.
Arguments Json.loads_within : simpl never.
Arguments JsonDump.dumps_compact : simpl never.
Arguments JsonDump.dumps_default : simpl never.
Arguments _decode_result : simpl never.
Arguments Utf8.valid : simpl never.
Arguments Utf8.encode : simpl never.
Arguments Utf8.decode : simpl never.
Arguments Base64.b64encode : simpl never.
Arguments String.append : simpl never.
Arguments exec_cmc : simpl never.

(** What each read endpoint answers when the contract result carries no
    [result]. *)
Definition result_default (e : endpoint) : json :=
  match e with
  | TotalSupply | BalanceOf => JStr "MA=="
  | _ => JStr ""
  end.

(** What endpoint [e] does with the data of a successful invocation. *)
Definition reply (e : endpoint) (data : json) : M json :=
  if is_write e then
    cr <- Dyn.get data "contract_result" (JObj []) ;;
    msg <- Dyn.get cr "message" (JStr "") ;;
    evts <- Dyn.get cr "contract_event" (JArr []) ;;
    tx_id <- Dyn.get data "tx_id" JNull ;;
    height <- Dyn.get data "tx_block_height" JNull ;;
    ret (ok (JObj [("message", msg); ("events", evts);
                   ("tx_id", tx_id); ("block_height", height)]))
  else
    cr <- Dyn.get data "contract_result" (JObj []) ;;
    res <- Dyn.get cr "result" (result_default e) ;;
    ret (ok (_decode_result res)).

(** What endpoint [e] does with what [exec_cmc] returns. *)
Definition after (e : endpoint) (r : bool * json) : M json :=
  let (ok_, data) := r in
  if negb ok_ then ret (err data) else reply e data.

(** The required fields of a request, trimmed. *)
Definition trimmed (e : endpoint) (kvs : dict) : dict :=
  map (fun k => (k, JStr (PyStr.strip (field kvs k)))) (required_fields e).

(** The [metadata] parameter of a mint. *)
Definition mint_metadata (kvs : dict) : string :=
  if nonempty (field kvs "metadata_b64") then field kvs "metadata_b64"
  else str_of_bytes (Base64.b64encode (bytes_of_str (field kvs "metadata_text"))).

(** The params mapping of the table in section 4.1 of the specification,
    with every required field trimmed. *)
Definition invocation_params (e : endpoint) (kvs : dict) : option dict :=
  match e with
  | TotalSupply => None
  | Mint => Some (trimmed e kvs ++ [("metadata", JStr (mint_metadata kvs))])%list
  | CreateOrSetCategory =>
      Some [("category", JStr (JsonDump.dumps_default (JObj (trimmed e kvs))))]
  | _ => Some (trimmed e kvs)
  end.

(** The message of a failed validation: the required fields, then
    "must not be empty". *)
Definition validation_message (e : endpoint) : string :=
  String.concat " / " (required_fields e) ++ " 不能为空".



(** A computation that leaves the trace alone. *)
Definition pure {A} (m : M A) : Prop :=
  forall w tr, exists r, m w tr = (tr, r).

(** ** The status endpoint *)

(** GET /api/system/status.  [now] is what [datetime.now().isoformat()]
    returns when the request is served. *)
Definition system_status (cfg : config) (now : string) : M json :=
  cmc_ok <- os_path_exists
              (PosixPath.join (WORK_DIR cfg) (PosixPath.basename (CMC_BIN cfg))) ;;
  cfg_ok <- os_path_exists (PosixPath.join (WORK_DIR cfg) (SDK_CONF_PATH cfg)) ;;
  ret (ok (JObj [("cmc", JStr (if cmc_ok then "OK" else "MISSING"));
                 ("sdk_config", JStr (if cfg_ok then "OK" else "MISSING"));
                 ("contract", JStr (CONTRACT_NAME cfg));
                 ("workdir", JStr (WORK_DIR cfg));
                 ("time", JStr now)])).

(** ** Vocabulary of the round trips *)

(** A Unicode scalar value: a code point that is not a surrogate. *)
Definition scalar (cp : Z) : bool :=
  between 0 cp 1114111 && negb (between 55296 cp 57343).

(** An entry of a mapping of string to string, both well-formed text. *)
Definition text_entry (kv : string * json) : bool :=
  Utf8.valid (bytes_of_str (fst kv)) && is_text (snd kv).

(** The tokens of one entry of an object, and of the entries after the
    first one. *)
Definition entry_tokens (kv : string * json) : list Json.token :=
  [Json.TAtom (JStr (fst kv)); Json.TColon; Json.TAtom (snd kv)].

Definition more_tokens (d : dict) : list Json.token :=
  flat_map (fun kv => Json.TComma :: entry_tokens kv) d.

(** Printable ASCII only: no control character, nothing above [~]. *)
Definition printable (s : string) : bool :=
  forallb (fun b => between 32 b 126) (bytes_of_str s).

(** ** Vocabulary of mistyped requests *)

(** A value that is a [str]. *)
Definition is_str (v : json) : bool :=
  match v with JStr _ => true | _ => false end.

(** Field [k] is absent or holds a [str]. *)
Definition str_at (kvs : dict) (k : string) : bool :=
  match dict_get kvs k with
  | Some v => is_str v
  | None => true
  end.

(** [(b.get(k) or "").encode("utf-8")] succeeds: the field is absent,
    counts as false, or holds well-formed text. *)
Definition encodable (kvs : dict) (k : string) : bool :=
  match dict_get kvs k with
  | Some v => negb (Py.truthy v) || is_text v
  | None => true
  end.

(** The handler of [e] gets as far as its validation on the body [kvs]:
    every required field is absent or a string and, for a mint,
    [metadata_text] can be encoded. *)
Definition reaches_validation (e : endpoint) (kvs : dict) : bool :=
  forallb (str_at kvs) (required_fields e)
  && match e with Mint => encodable kvs "metadata_text" | _ => true end.

(** The base64 text of [metadata_text]. *)
Definition metadata_encoded (kvs : dict) : json :=
  JStr (str_of_bytes (Base64.b64encode (bytes_of_str (field kvs "metadata_text")))).

(** The params of a request that reaches and passes the validation; the
    [metadata] of a mint is [metadata_b64] when that counts as true. *)
Definition passed_params (e : endpoint) (kvs : dict) : option dict :=
  match e with
  | Mint =>
      Some (trimmed e kvs
            ++ [("metadata",
                 match dict_get kvs "metadata_b64" with
                 | Some v => if Py.truthy v then v else metadata_encoded kvs
                 | None => metadata_encoded kvs
                 end)])%list
  | _ => invocation_params e kvs
  end.

(** [n] arrays, one inside the other. *)
Fixpoint nested (n : nat) (inner : string) : string :=
  match n with
  | O => inner
  | S n' => "[" ++ nested n' inner ++ "]"
  end.
(** * Properties *)

(** ** The library models on sample inputs

    The values below are what CPython 3.11 computes. *)

Example strip_sample :
  PyStr.strip (String "009" (String "032" ("a b" ++ String "010" (String "194" (String "160" "")))))
  = "a b".
Proof. vm_compute. reflexivity. Qed.

Example of_int_sample :
  PyStr.of_int 0 = "0" /\ PyStr.of_int (-9) = "-9" /\ PyStr.of_int 127 = "127".
Proof. vm_compute. auto. Qed.

Example b64decode_sample :
  Base64.b64decode "MA==" true = Some [48] /\
  Base64.b64decode "abcd=" true = Some [105; 183; 29] /\
  Base64.b64decode "abc==" true = None /\
  Base64.b64decode "abc==" false = Some [105; 183] /\
  Base64.b64decode "ab=cd" true = None /\
  Base64.b64decode "ab=cd" false = Some [105; 183; 29] /\
  Base64.b64decode "=" true = None /\
  Base64.b64decode "=" false = Some [] /\
  Base64.b64decode "a" false = None /\
  Base64.b64decode ("MA==" ++ String "010" "") true = None /\
  Base64.b64decode ("MA==" ++ String "010" "") false = Some [48].
Proof. vm_compute. repeat split. Qed.

Example b64encode_sample :
  str_of_bytes (Base64.b64encode (bytes_of_str "hello")) = "aGVsbG8=" /\
  str_of_bytes (Base64.b64encode (bytes_of_str "0")) = "MA==".
Proof. vm_compute. split; reflexivity. Qed.

Example loads_sample :
  Json.loads "[1, 2.5e3 ,-0, -12, null, true]"
  = Some (JArr [JInt 1; JFloat (S754_finite false 5497558138880000 (-41)); JInt 0;
                JInt (-12); JNull; JBool true]) /\
  Json.loads " { } " = Some (JObj []) /\
  Json.loads "-Infinity" = Some (JFloat (S754_infinity true)) /\
  map Json.loads ["01"; "1."; "-"; "[1,]"; "[1 2]"; "nul"; ""; "+1"; ".5"; "2.e3";
                  "true false"; "[[]"; "{1:2}"]
  = repeat None 13.
Proof. vm_compute. repeat split. Qed.

Example float_sample :
  map (fun l => PyFloat.repr (PyFloat.of_literal l))
      ["1.50"; "2.5e3"; "1e400"; "9007199254740993.0"; "0.1"; "1e16"; "1e15"; "1e-5";
       "0.0001"; "5e-324"; "2e-324"; "-0.0"; "1.7976931348623157e308"; "4.35"]
  = ["1.5"; "2500.0"; "Infinity"; "9007199254740992.0"; "0.1"; "1e+16";
     "1000000000000000.0"; "1e-05"; "0.0001"; "5e-324"; "0.0"; "-0.0";
     "1.7976931348623157e+308"; "4.35"].
Proof. vm_compute. reflexivity. Qed.

Example loads_within_sample :
  Json.loads_within 2 "[[1], 2]" = Some (JArr [JArr [JInt 1]; JInt 2]) /\
  Json.loads_within 1 "[[1], 2]" = None /\
  Json.loads_within 1 "[1, [], 2" = None /\
  Json.loads_within 0 "7" = Some (JInt 7).
Proof. vm_compute. repeat split. Qed.

Example loads_dumps_sample :
  Json.loads Scenario.success_output = Some Scenario.success_data /\
  Json.loads (JsonDump.dumps_default Scenario.success_data) = Some Scenario.success_data /\
  JsonDump.dumps_compact (JObj [("a", JArr [JInt 1; JNull; JObj []]); ("b", JBool false)])
  = "{" ++ String Json.quote ("a" ++ String Json.quote (":[1,null,{}],"
        ++ String Json.quote ("b" ++ String Json.quote ":false}"))).
Proof. vm_compute. repeat split. Qed.

Example path_sample :
  PosixPath.join "/w" "./cmc" = "/w/./cmc" /\
  PosixPath.join "/w" "/abs" = "/abs" /\
  PosixPath.join "/w/" "x" = "/w/x" /\
  PosixPath.basename "./cmc" = "cmc" /\
  PosixPath.basename "bin/cmc" = "cmc" /\
  PosixPath.basename "a/b/" = "".
Proof. vm_compute. repeat split. Qed.

(** Section 8 of the specification: a total supply whose process prints
    [{"contract_result":{"result":"MA=="}}] is answered with ["0"]. *)
Example total_supply_sample :
  snd (serve (handle Scenario.cfg0 TotalSupply JNull)
         (Scenario.machine Scenario.installed
            (Completed 0
               (JsonDump.dumps_compact
                  (JObj [("contract_result", JObj [("result", JStr "MA==")])])) "")))
  = inr (ok (JStr "0")).
Proof. vm_compute. reflexivity. Qed.

(** ** Base64 detection and decoding *)

Section Base64Facts.

Import Base64.

(** Strict mode only adds ways to fail: whatever it accepts, the lenient
    decoder reads the same way. *)
Lemma a2b_loop_strict_lenient data :
  forall quad_pos leftchar pads started started' out bs,
    a2b_loop true data quad_pos leftchar pads started out = Some bs ->
    a2b_loop false data quad_pos leftchar pads started' out = Some bs.
Proof.
  induction data as [|c rest IH]; intros q l p st st' out bs; simpl.
  - auto.
  - destruct (c =? BASE64_PAD).
    + destruct (2 <=? q).
      * destruct (4 <=? q + (p + 1)).
        -- destruct rest; simpl; [auto | discriminate].
        -- apply IH.
      * apply IH.
    + destruct (table_a2b_base64 c) as [v|]; [|discriminate].
      destruct st; simpl; [discriminate|].
      destruct (q =? 0); [apply IH|].
      destruct (q =? 1); [apply IH|].
      destruct (q =? 2); apply IH.
Qed.

Lemma b64decode_strict_lenient s bs :
  b64decode s true = Some bs -> b64decode s false = Some bs.
Proof.
  unfold b64decode, a2b_base64.
  destruct (forallb _ _); [|discriminate].
  destruct (bytes_of_str s) as [|c rest] eqn:E.
  - apply a2b_loop_strict_lenient.
  - cbn [andb]. destruct (c =? BASE64_PAD); [discriminate|].
    apply a2b_loop_strict_lenient.
Qed.

(** Strict mode accepts no line break, wherever it stands. *)
Lemma a2b_loop_line_break data :
  forall quad_pos leftchar pads started out,
    (In 10 data \/ In 13 data) ->
    a2b_loop true data quad_pos leftchar pads started out = None.
Proof.
  induction data as [|c rest IH]; intros q l p st out Hin.
  - destruct Hin as [[]|[]].
  - cbn [a2b_loop].
    assert (Hc : c = 10 \/ c = 13 \/ In 10 rest \/ In 13 rest).
    { destruct Hin as [[H|H]|[H|H]]; auto. }
    destruct Hc as [->|[->|Hrest]]; [reflexivity|reflexivity|].
    assert (Hne : rest <> []) by (destruct rest; [destruct Hrest as [[]|[]]|discriminate]).
    destruct (c =? BASE64_PAD).
    + destruct (2 <=? q); [|apply IH, Hrest].
      destruct (4 <=? q + (p + 1)); [|apply IH, Hrest].
      destruct rest; [contradiction|reflexivity].
    + destruct (table_a2b_base64 c); [|reflexivity].
      destruct (true && st); [reflexivity|].
      destruct (q =? 0); [apply IH, Hrest|].
      destruct (q =? 1); [apply IH, Hrest|].
      destruct (q =? 2); apply IH, Hrest.
Qed.

End Base64Facts.

Lemma existsb_negb {A} (f : A -> bool) (l : list A) :
  existsb (fun x => negb (f x)) l = negb (forallb f l).
Proof.
  induction l as [|x l IH]; simpl; [reflexivity|].
  rewrite IH. destruct (f x); reflexivity.
Qed.

Lemma is_base64_spec s :
  _is_base64 s =
  nonempty s && charset_only s
  && match Base64.b64decode s true with Some _ => true | None => false end.
Proof.
  unfold _is_base64, charset_only. rewrite existsb_negb.
  destruct (nonempty s); simpl; [|reflexivity].
  destruct (forallb _ _); reflexivity.
Qed.

(** The line breaks of the character test never get through: strict
    decoding refuses them, so a string that holds one is returned
    unchanged. *)
Lemma decode_result_line_break s :
  In "010"%char (list_ascii_of_string s) \/ In "013"%char (list_ascii_of_string s) ->
  _decode_result (JStr s) = JStr s.
Proof.
  intros Hin. unfold _decode_result. rewrite is_base64_spec.
  assert (Hdec : Base64.b64decode s true = None).
  { unfold Base64.b64decode, Base64.a2b_base64.
    assert (Hb : In 10 (bytes_of_str s) \/ In 13 (bytes_of_str s)).
    { unfold bytes_of_str.
      destruct Hin as [H|H]; [left|right];
        apply (in_map ord) in H; exact H. }
    destruct (forallb _ _); [|reflexivity].
    destruct (bytes_of_str s) as [|c rest] eqn:E; [destruct Hb as [[]|[]]|].
    destruct (true && (c =? Base64.BASE64_PAD)); [reflexivity|].
    apply a2b_loop_line_break, Hb. }
  rewrite Hdec, !andb_false_r. reflexivity.
Qed.

(** C3, as stated, fails: ["/w=="] is non-empty, lies in the alphabet and
    passes strict decoding, yet it is returned unchanged, because the byte
    it decodes to (0xFF) is not UTF-8 text. *)
Lemma decode_result_keeps_non_utf8 :
  nonempty "/w==" = true /\ charset_only "/w==" = true /\
  Base64.b64decode "/w==" true = Some [255] /\
  Utf8.decode [255] = None /\
  _decode_result (JStr "/w==") = JStr "/w==".
Proof. vm_compute. repeat split. Qed.

(** C3, amended: [_decode_result] returns the decoded text of [s] exactly
    when [s] is non-empty, made of the base64 alphabet, padding and line
    breaks only, accepted by strict base64 decoding, and the decoded bytes
    are valid UTF-8; in every other case [s] is returned unchanged. *)
Theorem decode_result_spec (s : string) :
  (forall text, base64_text s text -> _decode_result (JStr s) = JStr text) /\
  ((forall text, ~ base64_text s text) -> _decode_result (JStr s) = JStr s).
Proof.
  unfold base64_text, _decode_result. rewrite is_base64_spec. split.
  - intros text (Hne & Hcs & bs & Hdec & Hutf).
    rewrite Hne, Hcs, Hdec. simpl.
    rewrite (b64decode_strict_lenient _ _ Hdec), Hutf. reflexivity.
  - intros Hno.
    destruct (nonempty s) eqn:Hne; simpl; [|reflexivity].
    destruct (charset_only s) eqn:Hcs; simpl; [|reflexivity].
    destruct (Base64.b64decode s true) as [bs|] eqn:Hdec; [|reflexivity].
    rewrite (b64decode_strict_lenient _ _ Hdec).
    destruct (Utf8.decode bs) as [text|] eqn:Hutf; [|reflexivity].
    exfalso. apply (Hno text). repeat split; auto. exists bs. auto.
Qed.

Lemma decode_result_spec_witness :
  base64_text "MA==" "0" /\ _decode_result (JStr "MA==") = JStr "0".
Proof.
  assert (H : base64_text "MA==" "0").
  { repeat split. exists [48]. split; reflexivity. }
  split; [exact H | exact (proj1 (decode_result_spec "MA==") "0" H)].
Defined.

(** ** The execution wrapper *)

Lemma exec_cmc_run cfg method params sync timeout w tr :
  exec_cmc cfg method params sync timeout w tr =
  if negb (path_exists w (PosixPath.join (WORK_DIR cfg) (PosixPath.basename (CMC_BIN cfg))))
  then (tr, inr (false, JStr ("找不到 CMC 可执行文件：" ++ PosixPath.join (WORK_DIR cfg) (CMC_BIN cfg))))
  else if negb (path_exists w (PosixPath.join (WORK_DIR cfg) (SDK_CONF_PATH cfg)))
  then (tr, inr (false, JStr ("找不到 SDK 配置：" ++ PosixPath.join (WORK_DIR cfg) (SDK_CONF_PATH cfg))))
  else
    let cmd := command_line cfg method params sync in
    ((tr ++ [LogInfo ("Exec: " ++ PyStr.join " " cmd); Spawn cmd (WORK_DIR cfg) timeout])%list,
     inr (outcome (recursion_room w) (subprocess_run w cmd (WORK_DIR cfg) timeout))).
Proof.
  unfold exec_cmc, bind, os_path_exists, log_info, run_subprocess, json_loads, ret.
  cbv beta zeta.
  destruct (path_exists w (PosixPath.join (WORK_DIR cfg) (PosixPath.basename (CMC_BIN cfg)))); [|reflexivity].
  cbv beta iota. cbn [negb].
  destruct (path_exists w (PosixPath.join (WORK_DIR cfg) (SDK_CONF_PATH cfg))); [|reflexivity].
  cbv beta iota. cbn [negb].
  assert (Hcmd :
    match params with
    | Some (kv :: rest) =>
        List.app [CMC_BIN cfg; "client"; "contract"; "user"; "invoke";
                  "--contract-name=" ++ CONTRACT_NAME cfg; "--method=" ++ method;
                  "--sdk-conf-path=" ++ SDK_CONF_PATH cfg;
                  "--sync-result=" ++ (if sync then "true" else "false")]
                 ["--params=" ++ JsonDump.dumps_compact (JObj (kv :: rest))]
    | _ => [CMC_BIN cfg; "client"; "contract"; "user"; "invoke";
            "--contract-name=" ++ CONTRACT_NAME cfg; "--method=" ++ method;
            "--sdk-conf-path=" ++ SDK_CONF_PATH cfg;
            "--sync-result=" ++ (if sync then "true" else "false")]
    end = command_line cfg method params sync).
  { destruct params as [[|kv rest]|]; reflexivity. }
  rewrite Hcmd.
  rewrite <- app_assoc. cbn [List.app].
  unfold outcome.
  destruct (subprocess_run w _ _ _) as [rc out errout| |e]; try reflexivity.
  destruct (negb (rc =? 0)); [reflexivity|].
  destruct (Json.loads_within _ _); reflexivity.
Qed.

(** The trace and the result of one call of [exec_cmc]. *)
Lemma serve_exec_cmc cfg method params sync timeout w :
  serve (exec_cmc cfg method params sync timeout) w =
  if negb (path_exists w (PosixPath.join (WORK_DIR cfg) (PosixPath.basename (CMC_BIN cfg))))
  then ([], inr (false, JStr ("找不到 CMC 可执行文件：" ++ PosixPath.join (WORK_DIR cfg) (CMC_BIN cfg))))
  else if negb (path_exists w (PosixPath.join (WORK_DIR cfg) (SDK_CONF_PATH cfg)))
  then ([], inr (false, JStr ("找不到 SDK 配置：" ++ PosixPath.join (WORK_DIR cfg) (SDK_CONF_PATH cfg))))
  else
    let cmd := command_line cfg method params sync in
    ([LogInfo ("Exec: " ++ PyStr.join " " cmd); Spawn cmd (WORK_DIR cfg) timeout],
     inr (outcome (recursion_room w) (subprocess_run w cmd (WORK_DIR cfg) timeout))).
Proof. unfold serve. rewrite exec_cmc_run. reflexivity. Qed.

(** If a call of [exec_cmc] started a process, it started this one. *)
Lemma exec_cmc_spawned cfg method params sync timeout w cmd cwd t :
  In (cmd, cwd, t) (spawns (fst (serve (exec_cmc cfg method params sync timeout) w))) ->
  cmd = command_line cfg method params sync /\ cwd = WORK_DIR cfg /\ t = timeout /\
  serve (exec_cmc cfg method params sync timeout) w =
  ([LogInfo ("Exec: " ++ PyStr.join " " cmd); Spawn cmd cwd t],
   inr (outcome (recursion_room w) (subprocess_run w cmd cwd t))).
Proof.
  rewrite serve_exec_cmc.
  destruct (negb (path_exists w _)); [intros []|].
  destruct (negb (path_exists w _)); [intros []|].
  cbv zeta. simpl. intros [H|[]]. inversion H; subst. auto.
Qed.

(** C6, as stated, fails: with a standard error of one blank and a line
    break (not empty) and a standard output of ["boom"], the failure
    message is ["boom"], not the standard-error text. *)
Lemma nonzero_exit_blank_stderr :
  let stderr := " " ++ Scenario.newline in
  let w := Scenario.machine Scenario.installed (Completed 1 "boom" stderr) in
  nonempty stderr = true /\
  snd (serve (exec_cmc Scenario.cfg0 "TotalSupply" None true default_timeout) w)
  = inr (false, JStr "boom") /\
  JStr "boom" <> JStr stderr.
Proof. vm_compute. repeat split. discriminate. Qed.

(** C6, amended: when the process exits with a non-zero code, [exec_cmc]
    fails with the standard-error text trimmed of surrounding white space;
    if that is empty, with the trimmed standard-output text; if both are
    empty after trimming, with a generic message that carries the exit
    code -- in that order. *)
Theorem nonzero_exit_message cfg w method params sync timeout cmd cwd t rc out errout :
  In (cmd, cwd, t) (spawns (fst (serve (exec_cmc cfg method params sync timeout) w))) ->
  subprocess_run w cmd cwd t = Completed rc out errout ->
  rc <> 0 ->
  snd (serve (exec_cmc cfg method params sync timeout) w) =
  inr (false,
       JStr (if nonempty (PyStr.strip errout) then PyStr.strip errout
             else if nonempty (PyStr.strip out) then PyStr.strip out
             else "cmc 退出码 " ++ PyStr.of_int rc)).
Proof.
  intros Hin Hrun Hrc.
  destruct (exec_cmc_spawned _ _ _ _ _ _ _ _ _ Hin) as (_ & _ & _ & ->).
  rewrite Hrun. simpl.
  destruct (Z.eqb_spec rc 0); [contradiction|reflexivity].
Qed.

Lemma nonzero_exit_message_witness :
  snd (serve (exec_cmc Scenario.cfg0 "OwnerOf" (Some [("tokenId", JStr "7")]) true default_timeout)
         (Scenario.machine Scenario.installed (Completed 1 "" "insufficient permission")))
  = inr (false, JStr "insufficient permission").
Proof.
  eapply (nonzero_exit_message Scenario.cfg0
            (Scenario.machine Scenario.installed (Completed 1 "" "insufficient permission"))
            "OwnerOf" (Some [("tokenId", JStr "7")]) true default_timeout
            _ _ _ 1 "" "insufficient permission").
  - vm_compute. left. reflexivity.
  - reflexivity.
  - discriminate.
Defined.


(** ** Request bodies made of text *)

Lemma text_at_get kvs k v :
  text_at kvs k = true -> dict_get kvs k = Some v ->
  exists s, v = JStr s /\ Utf8.valid (bytes_of_str s) = true.
Proof.
  unfold text_at. intros H E. rewrite E in H.
  destruct v; try discriminate. eauto.
Qed.

(** [b.get(k, "")] *)
Lemma get_text kvs k :
  text_at kvs k = true ->
  match dict_get kvs k with Some x => x | None => JStr "" end = JStr (field kvs k).
Proof.
  intros H. unfold field. destruct (dict_get kvs k) as [v|] eqn:E; [|reflexivity].
  destruct (text_at_get _ _ _ H E) as (s & -> & _). reflexivity.
Qed.

(** [b.get(k) or ""] *)
Lemma get_or_text kvs k :
  text_at kvs k = true ->
  Py.or match dict_get kvs k with Some x => x | None => JNull end (JStr "")
  = JStr (field kvs k).
Proof.
  intros H. unfold field. destruct (dict_get kvs k) as [v|] eqn:E; [|reflexivity].
  destruct (text_at_get _ _ _ H E) as (s & -> & _).
  destruct s; reflexivity.
Qed.

(** [b.get(k)] read as a truth value *)
Lemma get_truthy kvs k :
  text_at kvs k = true ->
  Py.truthy match dict_get kvs k with Some x => x | None => JNull end
  = nonempty (field kvs k) /\
  (nonempty (field kvs k) = true ->
   match dict_get kvs k with Some x => x | None => JNull end = JStr (field kvs k)).
Proof.
  intros H. unfold field. destruct (dict_get kvs k) as [v|] eqn:E.
  - destruct (text_at_get _ _ _ H E) as (s & -> & _). auto.
  - split; [reflexivity|discriminate].
Qed.

Lemma field_valid kvs k :
  text_at kvs k = true -> Utf8.valid (bytes_of_str (field kvs k)) = true.
Proof.
  intros H. unfold field. destruct (dict_get kvs k) as [v|] eqn:E; [|reflexivity].
  destruct (text_at_get _ _ _ H E) as (s & -> & Hs). exact Hs.
Qed.

Lemma encode_field kvs k :
  text_at kvs k = true ->
  Utf8.encode (field kvs k) = Some (bytes_of_str (field kvs k)).
Proof. intros H. unfold Utf8.encode. rewrite (field_valid _ _ H). reflexivity. Qed.

(** ** Computations that leave no trace *)

Lemma pure_ret {A} (a : A) : pure (ret a).
Proof. intros w tr. eexists. reflexivity. Qed.

Lemma pure_raise {A} e : pure (@raise A e).
Proof. intros w tr. eexists. reflexivity. Qed.

Lemma pure_get v k d : pure (Dyn.get v k d).
Proof. destruct v; first [apply pure_raise | apply pure_ret]. Qed.

Lemma pure_strip v : pure (Dyn.strip v).
Proof. destruct v; first [apply pure_raise | apply pure_ret]. Qed.

Lemma pure_encode v : pure (Dyn.encode v).
Proof.
  destruct v; try apply pure_raise.
  simpl. destruct (Utf8.encode s); [apply pure_ret | apply pure_raise].
Qed.

Lemma pure_decode bs : pure (Dyn.decode bs).
Proof.
  unfold Dyn.decode. destruct (Utf8.decode bs); [apply pure_ret | apply pure_raise].
Qed.

Create HintDb pure.

#[local] Hint Resolve pure_ret pure_raise pure_get pure_strip pure_encode pure_decode
  : pure.

(** To reason about [x <- m ;; k] with [m] pure: either [m] raises and
    the trace is unchanged, or [k] runs from the same trace. *)
Lemma bind_pure {A B} (m : M A) (k : A -> M B) w tr
      (P : list event * (pyexn + B) -> Prop) :
  pure m ->
  (forall e, P (tr, inl e)) ->
  (forall a, P (k a w tr)) ->
  P (bind m k w tr).
Proof.
  intros Hm He Ha. unfold bind. destruct (Hm w tr) as [[e|a] ->]; auto.
Qed.

Ltac pure_step :=
  apply bind_pure; [auto with pure | | intro].

(** ** The shape of every handler *)

(** Whatever the body, a handler either stops before [exec_cmc] and leaves
    no trace, or it makes one call of [exec_cmc], with the default
    time-out, and goes on with [after]. *)
Lemma handle_shape cfg e body w tr :
  (exists r, handle cfg e body w tr = (tr, r)) \/
  (exists params,
      handle cfg e body w tr =
      bind (exec_cmc cfg (method_name e) params true default_timeout) (after e) w tr).
Proof.
  destruct e; unfold handle.
  - right. exists None. reflexivity.
  - unfold owner_of. do 2 (pure_step; [intros; left; eexists; reflexivity|]).
    destruct (negb _); [left; eexists; reflexivity|].
    right. eexists. reflexivity.
  - unfold token_uri. do 2 (pure_step; [intros; left; eexists; reflexivity|]).
    destruct (negb _); [left; eexists; reflexivity|].
    right. eexists. reflexivity.
  - unfold balance_of. do 2 (pure_step; [intros; left; eexists; reflexivity|]).
    destruct (negb _); [left; eexists; reflexivity|].
    right. eexists. reflexivity.
  - unfold mint. do 9 (pure_step; [intros; left; eexists; reflexivity|]).
    destruct (negb _); [left; eexists; reflexivity|].
    apply bind_pure; [|intros; left; eexists; reflexivity|intro meta].
    + destruct (Py.truthy _); [auto with pure|].
      match goal with |- pure (match ?bs with _ => _ end) => destruct bs as [|z zs] end;
        [auto with pure|].
      intros w' tr'. unfold bind.
      destruct (pure_decode (Base64.b64encode (z :: zs)) w' tr') as [[x|x] ->];
        eexists; reflexivity.
    + right. eexists. reflexivity.
  - unfold transfer_from. do 6 (pure_step; [intros; left; eexists; reflexivity|]).
    destruct (negb _); [left; eexists; reflexivity|].
    right. eexists. reflexivity.
  - unfold burn. do 2 (pure_step; [intros; left; eexists; reflexivity|]).
    destruct (negb _); [left; eexists; reflexivity|].
    right. eexists. reflexivity.
  - unfold create_or_set_category.
    do 4 (pure_step; [intros; left; eexists; reflexivity|]).
    destruct (negb _); [left; eexists; reflexivity|].
    right. eexists. reflexivity.
Qed.

(** ** [b64encode] yields ASCII *)

Lemma table_b2a_ascii v : 0 <= v -> 0 <= Base64.table_b2a_base64 v < 128.
Proof.
  intros Hv. unfold Base64.table_b2a_base64.
  destruct (Z.ltb_spec v 26); [lia|].
  destruct (Z.ltb_spec v 52); [lia|].
  destruct (Z.ltb_spec v 62); [lia|].
  destruct (v =? 62); lia.
Qed.

Ltac nonneg :=
  repeat first [ assumption
               | apply Z.shiftr_nonneg
               | apply Z.shiftl_nonneg
               | apply Z.lor_nonneg; split
               | apply Z.land_nonneg; left ].

Lemma b2a_base64_ascii data :
  Forall (fun b => 0 <= b) data ->
  Forall (fun c => 0 <= c < 128) (Base64.b2a_base64 data).
Proof.
  assert (Hpad : 0 <= Base64.BASE64_PAD < 128) by (unfold Base64.BASE64_PAD; lia).
  assert (H3 : forall n (l : bytes), (length l <= n)%nat ->
               Forall (fun b => 0 <= b) l ->
               Forall (fun c => 0 <= c < 128) (Base64.b2a_base64 l)).
  { induction n as [|n IH]; intros l Hlen Hl.
    - destruct l; [constructor | simpl in Hlen; lia].
    - destruct l as [|a [|b [|c rest]]]; cbn [Base64.b2a_base64].
      + constructor.
      + inversion Hl; subst.
        repeat apply Forall_cons; try apply Forall_nil; try exact Hpad;
          apply table_b2a_ascii; nonneg.
      + inversion Hl as [|? ? Ha Hl1]; subst. inversion Hl1; subst.
        repeat apply Forall_cons; try apply Forall_nil; try exact Hpad;
          apply table_b2a_ascii; nonneg.
      + inversion Hl as [|? ? Ha Hl1]; subst. inversion Hl1 as [|? ? Hb Hl2]; subst.
        inversion Hl2 as [|? ? Hc Hl3]; subst.
        repeat apply Forall_cons;
          try (apply table_b2a_ascii; nonneg).
        apply IH; [simpl in Hlen; lia | assumption]. }
  intros H. apply (H3 (length data)); auto.
Qed.

Lemma valid_ascii bs :
  Forall (fun c => 0 <= c < 128) bs -> Utf8.valid bs = true.
Proof.
  unfold Utf8.valid.
  induction 1 as [|c bs Hc _ IH]; [reflexivity|].
  simpl. unfold between.
  destruct (Z.leb_spec 0 c); [|lia].
  destruct (Z.leb_spec c 127); [|lia].
  simpl. destruct (Utf8.code_points false bs); [reflexivity|discriminate].
Qed.

Lemma bytes_of_str_nonneg s : Forall (fun b => 0 <= b) (bytes_of_str s).
Proof.
  unfold bytes_of_str. apply Forall_forall. intros b Hb.
  apply in_map_iff in Hb. destruct Hb as (c & <- & _). unfold ord. lia.
Qed.

(** [base64.b64encode(text.encode("utf-8")).decode("utf-8")] never fails. *)
Lemma decode_b64encode s :
  Utf8.decode (Base64.b64encode (bytes_of_str s))
  = Some (str_of_bytes (Base64.b64encode (bytes_of_str s))).
Proof.
  unfold Utf8.decode, Base64.b64encode.
  rewrite valid_ascii; [reflexivity|].
  apply b2a_base64_ascii, bytes_of_str_nonneg.
Qed.

(** ** Handlers on bodies made of text *)

Lemma bind_ret_run {A B} (a : A) (k : A -> M B) w tr :
  bind (ret a) k w tr = k a w tr.
Proof. reflexivity. Qed.

(** One step of a handler on a text body: a field is read, trimmed or
    encoded. *)
Ltac text_step :=
  first [ rewrite get_text by assumption
        | rewrite get_or_text by assumption
        | rewrite encode_field by assumption
        | rewrite bind_ret_run
        | progress cbn [Dyn.get Dyn.strip Dyn.encode]
        | progress cbv beta ].

(** The metadata a mint passes on. *)
Lemma mint_meta_run kvs (k : json -> M json) w tr :
  text_at kvs "metadata_b64" = true ->
  bind (if Py.truthy match dict_get kvs "metadata_b64" with
                     | Some x => x
                     | None => JNull
                     end
        then ret match dict_get kvs "metadata_b64" with
                 | Some x => x
                 | None => JNull
                 end
        else
          match bytes_of_str (field kvs "metadata_text") with
          | [] => ret (JStr "")
          | _ => text <- Dyn.decode
                           (Base64.b64encode (bytes_of_str (field kvs "metadata_text"))) ;;
                 ret (JStr text)
          end) k w tr
  = k (JStr (mint_metadata kvs)) w tr.
Proof.
  intros H. unfold mint_metadata.
  destruct (get_truthy kvs "metadata_b64" H) as [-> Hval].
  destruct (nonempty (field kvs "metadata_b64")).
  - rewrite (Hval eq_refl). reflexivity.
  - destruct (bytes_of_str (field kvs "metadata_text")) eqn:E; [reflexivity|].
    rewrite <- E. unfold Dyn.decode. rewrite decode_b64encode. reflexivity.
Qed.

(** On a body made of text, a handler validates the required fields and
    then invokes the contract method with the trimmed fields. *)
Lemma handle_text cfg e kvs w tr :
  text_request e kvs = true ->
  handle cfg e (JObj kvs) w tr =
  if passes_validation e kvs then
    bind (exec_cmc cfg (method_name e) (invocation_params e kvs) true default_timeout)
         (after e) w tr
  else (tr, inr (err (JStr (validation_message e)))).
Proof.
  unfold text_request. intros H.
  destruct e; cbn [fields_read required_fields forallb] in H;
    repeat (apply andb_prop in H; destruct H as [? H]);
    unfold handle, passes_validation, invocation_params, trimmed;
    cbn [required_fields forallb map List.app method_name].
  - reflexivity.
  - unfold owner_of. repeat text_step.
    destruct (nonempty (PyStr.strip (field kvs "tokenId"))); reflexivity.
  - unfold token_uri. repeat text_step.
    destruct (nonempty (PyStr.strip (field kvs "tokenId"))); reflexivity.
  - unfold balance_of. repeat text_step.
    destruct (nonempty (PyStr.strip (field kvs "account"))); reflexivity.
  - unfold mint. repeat text_step.
    destruct (nonempty (PyStr.strip (field kvs "to")));
      destruct (nonempty (PyStr.strip (field kvs "tokenId")));
      destruct (nonempty (PyStr.strip (field kvs "categoryName")));
      try reflexivity.
    cbn [andb negb]. rewrite mint_meta_run by assumption. reflexivity.
  - unfold transfer_from. repeat text_step.
    destruct (nonempty (PyStr.strip (field kvs "from")));
      destruct (nonempty (PyStr.strip (field kvs "to")));
      destruct (nonempty (PyStr.strip (field kvs "tokenId")));
      reflexivity.
  - unfold burn. repeat text_step.
    destruct (nonempty (PyStr.strip (field kvs "tokenId"))); reflexivity.
  - unfold create_or_set_category. repeat text_step.
    destruct (nonempty (PyStr.strip (field kvs "categoryName")));
      destruct (nonempty (PyStr.strip (field kvs "categoryURI")));
      reflexivity.
Qed.

(** ** What follows [exec_cmc] *)

Lemma pure_reply e data : pure (reply e data).
Proof.
  unfold reply. destruct (is_write e); intros w tr.
  - do 5 (apply bind_pure; [auto with pure | intros; eexists; reflexivity | intro]).
    eexists. reflexivity.
  - do 2 (apply bind_pure; [auto with pure | intros; eexists; reflexivity | intro]).
    eexists. reflexivity.
Qed.

Lemma pure_after e r : pure (after e r).
Proof.
  destruct r as [ok_ data]. unfold after.
  destruct (negb ok_); [apply pure_ret | apply pure_reply].
Qed.

Lemma fst_bind_pure {A B} (m : M A) (k : A -> M B) w tr :
  (forall a, pure (k a)) -> fst (bind m k w tr) = fst (m w tr).
Proof.
  intros Hk. unfold bind. destruct (m w tr) as [tr' [e|a]]; [reflexivity|].
  destruct (Hk a w tr') as [r ->]. reflexivity.
Qed.

(** Every process a handler starts runs in the working directory with the
    default time-out. *)
Lemma handle_spawned cfg e body w cmd cwd t :
  In (cmd, cwd, t) (spawns (fst (serve (handle cfg e body) w))) ->
  exists params,
    cmd = command_line cfg (method_name e) params true /\
    cwd = WORK_DIR cfg /\ t = default_timeout /\
    serve (handle cfg e body) w =
    bind (exec_cmc cfg (method_name e) params true default_timeout) (after e) w [].
Proof.
  unfold serve.
  destruct (handle_shape cfg e body w []) as [[r ->]|[params ->]]; [intros []|].
  rewrite fst_bind_pure by apply pure_after.
  intros Hin. exists params.
  destruct (exec_cmc_spawned cfg _ _ _ _ w _ _ _ Hin) as (-> & -> & -> & _).
  auto.
Qed.

(** A handler whose process exits with code 0: [after] gets what the
    output parses to, or the trimmed output itself. *)
Lemma handle_completed cfg e body w cmd cwd t out errout :
  In (cmd, cwd, t) (spawns (fst (serve (handle cfg e body) w))) ->
  subprocess_run w cmd cwd t = Completed 0 out errout ->
  snd (serve (handle cfg e body) w) =
  snd (after e (true, match Json.loads_within (recursion_room w) (PyStr.strip out) with
                      | Some data => data
                      | None => JStr (PyStr.strip out)
                      end)
         w [LogInfo ("Exec: " ++ PyStr.join " " cmd); Spawn cmd cwd t]).
Proof.
  intros Hin Hrun.
  destruct (handle_spawned _ _ _ _ _ _ _ Hin) as (params & -> & -> & -> & ->).
  unfold bind. rewrite exec_cmc_run.
  unfold serve in Hin.
  destruct (handle_shape cfg e body w []) as [[r Hr]|[params' Hr]];
    rewrite Hr in Hin; [destruct Hin|].
  rewrite fst_bind_pure in Hin by apply pure_after.
  rewrite exec_cmc_run in Hin.
  destruct (negb (path_exists w _)); [destruct Hin|].
  destruct (negb (path_exists w _)); [destruct Hin|].
  cbv zeta. rewrite Hrun. unfold outcome. cbn [Z.eqb negb].
  destruct (Json.loads_within (recursion_room w) (PyStr.strip out)); reflexivity.
Qed.

(** ** Output that is not JSON *)

(** C1, as stated, fails: the output ["oops"] followed by a line break is
    not JSON; [exec_cmc] hands ["oops"] to its caller, without the line
    break, and the total-supply endpoint raises instead of answering. *)
Lemma unparsable_output_not_unchanged :
  let out := "oops" ++ Scenario.newline in
  let w := Scenario.machine Scenario.installed (Completed 0 out "") in
  Json.loads out = None /\
  snd (serve (exec_cmc Scenario.cfg0 "TotalSupply" None true default_timeout) w)
  = inr (true, JStr "oops") /\
  JStr "oops" <> JStr out /\
  snd (serve (handle Scenario.cfg0 TotalSupply JNull) w)
  = inl (AttributeError "str" "get").
Proof. vm_compute. repeat split. discriminate. Qed.

(** C1, amended: when the process exits with code 0 and its output,
    trimmed of surrounding white space, does not parse as JSON, [exec_cmc]
    raises no failure and returns success with the whole trimmed text as an
    opaque string. *)
Theorem unparsable_output_passthrough cfg w method params sync timeout cmd cwd t out errout :
  In (cmd, cwd, t) (spawns (fst (serve (exec_cmc cfg method params sync timeout) w))) ->
  subprocess_run w cmd cwd t = Completed 0 out errout ->
  Json.loads_within (recursion_room w) (PyStr.strip out) = None ->
  snd (serve (exec_cmc cfg method params sync timeout) w)
  = inr (true, JStr (PyStr.strip out)).
Proof.
  intros Hin Hrun Hparse.
  destruct (exec_cmc_spawned _ _ _ _ _ _ _ _ _ Hin) as (_ & _ & _ & ->).
  rewrite Hrun. unfold outcome. cbn [Z.eqb negb snd]. rewrite Hparse. reflexivity.
Qed.

Lemma unparsable_output_passthrough_witness :
  snd (serve (exec_cmc Scenario.cfg0 "TotalSupply" None true default_timeout)
         (Scenario.machine Scenario.installed
            (Completed 0 ("not json" ++ Scenario.newline) "")))
  = inr (true, JStr "not json").
Proof.
  eapply (unparsable_output_passthrough Scenario.cfg0
            (Scenario.machine Scenario.installed
               (Completed 0 ("not json" ++ Scenario.newline) ""))
            "TotalSupply" None true default_timeout
            _ _ _ ("not json" ++ Scenario.newline) "").
  - vm_compute. left. reflexivity.
  - reflexivity.
  - vm_compute. reflexivity.
Defined.

(** Every endpoint raises [AttributeError] when the process exits with
    code 0 and its output is not JSON: the handler calls [.get] on the
    string [exec_cmc] returned. *)
Lemma unparsable_output_raises cfg e body w cmd cwd t out errout :
  In (cmd, cwd, t) (spawns (fst (serve (handle cfg e body) w))) ->
  subprocess_run w cmd cwd t = Completed 0 out errout ->
  Json.loads_within (recursion_room w) (PyStr.strip out) = None ->
  snd (serve (handle cfg e body) w) = inl (AttributeError "str" "get").
Proof.
  intros Hin Hrun Hparse.
  rewrite (handle_completed _ _ _ _ _ _ _ _ _ Hin Hrun), Hparse.
  unfold after, reply. destruct (is_write e); reflexivity.
Qed.

(** C2, at the failing input: with the binary and the configuration in
    place and a process that exits with code 0 after printing ["oops"],
    GET /api/nfa/total-supply raises [AttributeError]; so does a process
    that prints the JSON array [[]], and so does POST /api/nfa/owner on
    the body [{"tokenId": 5}].  No [{success, ...}] object is returned. *)
Theorem total_supply_raises_on_plain_output :
  snd (serve (handle Scenario.cfg0 TotalSupply JNull)
         (Scenario.machine Scenario.installed (Completed 0 "oops" "")))
  = inl (AttributeError "str" "get") /\
  snd (serve (handle Scenario.cfg0 TotalSupply JNull)
         (Scenario.machine Scenario.installed (Completed 0 "[]" "")))
  = inl (AttributeError "list" "get") /\
  snd (serve (handle Scenario.cfg0 OwnerOf (JObj [("tokenId", JInt 5)]))
         (Scenario.machine Scenario.installed (Completed 0 "{}" "")))
  = inl (AttributeError "int" "strip").
Proof. vm_compute. repeat split. Qed.

(** ** Validation *)

Lemma validation_fails e kvs k :
  In k (required_fields e) -> PyStr.strip (field kvs k) = "" ->
  passes_validation e kvs = false.
Proof.
  unfold passes_validation. intros Hin Hk.
  induction (required_fields e) as [|k' l IH]; [destruct Hin|].
  simpl. destruct Hin as [->|Hin].
  - rewrite Hk. reflexivity.
  - rewrite (IH Hin). apply andb_false_r.
Qed.

Lemma validation_message_names e k :
  In k (required_fields e) -> PyStr.contains k (validation_message e) = true.
Proof.
  destruct e; simpl; intros H;
    repeat (destruct H as [<-|H]; [vm_compute; reflexivity|]); destruct H.
Qed.

(** ** The params of an invocation *)

(** C10: on every endpoint, a request that passes validation invokes the
    contract method with the params of the table, in which every required
    field is the trimmed form of what was submitted; the process that is
    started carries exactly these params. *)
Theorem trimmed_fields_passed cfg w e kvs :
  text_request e kvs = true ->
  passes_validation e kvs = true ->
  (forall tr,
      handle cfg e (JObj kvs) w tr =
      bind (exec_cmc cfg (method_name e) (invocation_params e kvs) true default_timeout)
           (after e) w tr) /\
  (forall k, In k (required_fields e) ->
             dict_get (trimmed e kvs) k = Some (JStr (PyStr.strip (field kvs k)))) /\
  spawns (fst (serve (handle cfg e (JObj kvs)) w)) =
  if preconditions_hold cfg w then
    [(command_line cfg (method_name e) (invocation_params e kvs) true,
      WORK_DIR cfg, default_timeout)]
  else [].
Proof.
  intros Htext Hvalid.
  assert (Hrun : forall tr,
             handle cfg e (JObj kvs) w tr =
             bind (exec_cmc cfg (method_name e) (invocation_params e kvs) true
                     default_timeout) (after e) w tr).
  { intros tr. rewrite (handle_text _ _ _ _ _ Htext), Hvalid. reflexivity. }
  split; [exact Hrun|]. split.
  - unfold trimmed. destruct e; simpl; intros k H;
      repeat (destruct H as [<-|H]; [reflexivity|]); destruct H.
  - unfold serve. rewrite Hrun, fst_bind_pure by apply pure_after.
    rewrite exec_cmc_run. unfold preconditions_hold.
    destruct (path_exists w _); [|reflexivity].
    destruct (path_exists w _); reflexivity.
Qed.

Lemma trimmed_fields_passed_witness :
  invocation_params OwnerOf Scenario.owner_request = Some [("tokenId", JStr "7")] /\
  spawns (fst (serve (handle Scenario.cfg0 OwnerOf (JObj Scenario.owner_request))
                 (Scenario.machine Scenario.installed (Completed 0 "{}" ""))))
  = [(command_line Scenario.cfg0 "OwnerOf" (Some [("tokenId", JStr "7")]) true,
      WORK_DIR Scenario.cfg0, default_timeout)].
Proof.
  split; [vm_compute; reflexivity|].
  rewrite (proj2 (proj2 (trimmed_fields_passed Scenario.cfg0
                           (Scenario.machine Scenario.installed (Completed 0 "{}" ""))
                           OwnerOf Scenario.owner_request eq_refl eq_refl))).
  vm_compute. reflexivity.
Defined.

(** ** The command line *)

(** C8: the process [exec_cmc] starts, when the preconditions let it
    start one, is [<binary> client contract user invoke
    --contract-name=<name> --method=<method> --sdk-conf-path=<path>
    --sync-result=<true|false>], followed by [--params=<compact JSON>]
    exactly when a non-empty params mapping is given, in the working
    directory and with the time-out of the request; every process an
    endpoint starts runs in the working directory with the default
    time-out of 60. *)
Theorem exec_cmc_command_line cfg w :
  (forall method params sync timeout,
      spawns (fst (serve (exec_cmc cfg method params sync timeout) w)) =
      if preconditions_hold cfg w then
        [(List.app
            [CMC_BIN cfg; "client"; "contract"; "user"; "invoke";
             "--contract-name=" ++ CONTRACT_NAME cfg;
             "--method=" ++ method;
             "--sdk-conf-path=" ++ SDK_CONF_PATH cfg;
             "--sync-result=" ++ (if sync then "true" else "false")]
            match params with
            | Some (kv :: rest) =>
                ["--params=" ++ JsonDump.dumps_compact (JObj (kv :: rest))]
            | _ => []
            end,
          WORK_DIR cfg, timeout)]
      else []) /\
  (forall e body cmd cwd t,
      In (cmd, cwd, t) (spawns (fst (serve (handle cfg e body) w))) ->
      cwd = WORK_DIR cfg /\ t = 60).
Proof.
  split.
  - intros method params sync timeout.
    rewrite serve_exec_cmc. unfold preconditions_hold.
    destruct (path_exists w _); [|reflexivity].
    destruct (path_exists w _); [|reflexivity].
    destruct params as [[|kv rest]|]; reflexivity.
  - intros e body cmd cwd t Hin.
    destruct (handle_spawned _ _ _ _ _ _ _ Hin) as (params & _ & -> & -> & _).
    split; reflexivity.
Qed.

Lemma exec_cmc_command_line_witness :
  spawns (fst (serve (handle Scenario.cfg0 OwnerOf (JObj Scenario.owner_request))
                 (Scenario.machine Scenario.installed (Completed 0 "{}" ""))))
  = [(["./cmc"; "client"; "contract"; "user"; "invoke"; "--contract-name=CMNFA";
       "--method=OwnerOf"; "--sdk-conf-path=./testdata/sdk_config.yml";
       "--sync-result=true";
       "--params=" ++ JsonDump.dumps_compact (JObj [("tokenId", JStr "7")])],
      "/home/young3/chainmaker-go/tools/cmc", 60)] /\
  "/home/young3/chainmaker-go/tools/cmc" = WORK_DIR Scenario.cfg0 /\ 60 = 60.
Proof.
  split; [vm_compute; reflexivity|].
  apply (proj2 (exec_cmc_command_line Scenario.cfg0
                  (Scenario.machine Scenario.installed (Completed 0 "{}" "")))
           OwnerOf (JObj Scenario.owner_request)
           ["./cmc"; "client"; "contract"; "user"; "invoke"; "--contract-name=CMNFA";
            "--method=OwnerOf"; "--sdk-conf-path=./testdata/sdk_config.yml";
            "--sync-result=true";
            "--params=" ++ JsonDump.dumps_compact (JObj [("tokenId", JStr "7")])]).
  vm_compute. left. reflexivity.
Defined.

(** ** Write operations *)



(** ** The precondition on the binary *)

(** C7, at the failing input: with [CM_CMC_BIN=bin/cmc] and
    [CM_WORKDIR=/w], on a machine that has [/w/cmc] and the SDK
    configuration but no [/w/bin/cmc], [exec_cmc] passes its checks and
    starts [bin/cmc]; the failure it reports is that of the start, not a
    missing binary.  On a machine that has [/w/bin/cmc] but no [/w/cmc],
    it reports [/w/bin/cmc] as missing. *)
Theorem binary_check_uses_base_name :
  let cfg := Scenario.cfg_subdir in
  let sdk := "/w/./testdata/sdk_config.yml" in
  let failure := OtherError "[Errno 2] No such file or directory: 'bin/cmc'" in
  PosixPath.join (WORK_DIR cfg) (CMC_BIN cfg) = "/w/bin/cmc" /\
  path_exists (Scenario.machine ["/w/cmc"; sdk] failure) "/w/bin/cmc" = false /\
  serve (exec_cmc cfg "TotalSupply" None true default_timeout)
        (Scenario.machine ["/w/cmc"; sdk] failure)
  = ([LogInfo ("Exec: bin/cmc client contract user invoke --contract-name=CMNFA"
               ++ " --method=TotalSupply --sdk-conf-path=./testdata/sdk_config.yml"
               ++ " --sync-result=true");
      Spawn ["bin/cmc"; "client"; "contract"; "user"; "invoke";
             "--contract-name=CMNFA"; "--method=TotalSupply";
             "--sdk-conf-path=./testdata/sdk_config.yml"; "--sync-result=true"]
            "/w" 60],
     inr (false, JStr "执行异常：[Errno 2] No such file or directory: 'bin/cmc'")) /\
  path_exists (Scenario.machine ["/w/bin/cmc"; sdk] failure) "/w/bin/cmc" = true /\
  serve (exec_cmc cfg "TotalSupply" None true default_timeout)
        (Scenario.machine ["/w/bin/cmc"; sdk] failure)
  = ([], inr (false, JStr "找不到 CMC 可执行文件：/w/bin/cmc")).
Proof. vm_compute. repeat split. Qed.

(** What the code does check: without a file named as the base name of
    the binary in the working directory, or without the SDK configuration,
    [exec_cmc] fails at once and starts nothing. *)
Lemma preconditions_fail_fast cfg w method params sync timeout :
  preconditions_hold cfg w = false ->
  exists msg,
    serve (exec_cmc cfg method params sync timeout) w = ([], inr (false, JStr msg)).
Proof.
  unfold preconditions_hold. intros H. rewrite serve_exec_cmc.
  destruct (path_exists w _); [|eexists; reflexivity].
  simpl in H. rewrite H. eexists. reflexivity.
Qed.

(** * Further properties of the code *)

(** ** What a request leaves behind *)

Lemma trace_cases cfg e body w :
  fst (serve (handle cfg e body) w) = [] \/
  exists params,
    fst (serve (handle cfg e body) w) =
    [LogInfo ("Exec: " ++ PyStr.join " " (command_line cfg (method_name e) params true));
     Spawn (command_line cfg (method_name e) params true) (WORK_DIR cfg) 60].
Proof.
  unfold serve.
  destruct (handle_shape cfg e body w []) as [[r ->]|[params ->]]; [left; reflexivity|].
  rewrite fst_bind_pure by apply pure_after.
  rewrite exec_cmc_run.
  destruct (negb (path_exists w _)); [left; reflexivity|].
  destruct (negb (path_exists w _)); [left; reflexivity|].
  right. exists params. reflexivity.
Qed.

(** X1: whatever the endpoint, the body and the machine, a request leaves
    either no trace at all, or one log line with the command line followed
    by the start of that one process, in the working directory and with
    the time-out of 60: there is no second attempt. *)
Theorem handle_trace_shape cfg e body w :
  fst (serve (handle cfg e body) w) = [] \/
  exists params,
    fst (serve (handle cfg e body) w) =
    [LogInfo ("Exec: " ++ PyStr.join " " (command_line cfg (method_name e) params true));
     Spawn (command_line cfg (method_name e) params true) (WORK_DIR cfg) 60].
Proof. exact (trace_cases cfg e body w). Qed.

(** What a handler answers once its process has ended, however it ended. *)
Lemma handle_outcome cfg e body w cmd cwd t :
  In (cmd, cwd, t) (spawns (fst (serve (handle cfg e body) w))) ->
  snd (serve (handle cfg e body) w) =
  snd (after e (outcome (recursion_room w) (subprocess_run w cmd cwd t)) w
         [LogInfo ("Exec: " ++ PyStr.join " " cmd); Spawn cmd cwd t]).
Proof.
  intros Hin.
  destruct (handle_spawned _ _ _ _ _ _ _ Hin) as (params & -> & -> & -> & Hrun).
  unfold serve in *. rewrite Hrun in *.
  rewrite fst_bind_pure in Hin by apply pure_after.
  unfold bind. rewrite exec_cmc_run in *.
  destruct (negb (path_exists w _)); [destruct Hin|].
  destruct (negb (path_exists w _)); [destruct Hin|].
  reflexivity.
Qed.

(** X2: on every endpoint, when the process that was started does not
    exit with code 0, the answer is [{success: false, error}] with the
    message of [exec_cmc]: the trimmed standard error, else the trimmed
    standard output, else the exit code, for a non-zero exit; the
    time-out message when the time-out expired; the text of the exception
    for any other failure. *)
Theorem handle_failure_reported cfg e body w cmd cwd t p :
  In (cmd, cwd, t) (spawns (fst (serve (handle cfg e body) w))) ->
  subprocess_run w cmd cwd t = p ->
  (forall out errout, p <> Completed 0 out errout) ->
  snd (serve (handle cfg e body) w) =
  inr (err (JStr match p with
                 | Completed rc out errout =>
                     if nonempty (PyStr.strip errout) then PyStr.strip errout
                     else if nonempty (PyStr.strip out) then PyStr.strip out
                     else "cmc 退出码 " ++ PyStr.of_int rc
                 | TimeoutExpired => "执行超时"
                 | OtherError x => "执行异常：" ++ x
                 end)).
Proof.
  intros Hin Hrun Hfail.
  rewrite (handle_outcome _ _ _ _ _ _ _ Hin), Hrun.
  destruct p as [rc out errout| |x]; try reflexivity.
  unfold outcome. destruct (Z.eqb_spec rc 0) as [->|Hrc].
  - exfalso. apply (Hfail out errout). reflexivity.
  - reflexivity.
Qed.

Lemma handle_failure_reported_witness :
  snd (serve (handle Scenario.cfg0 Burn (JObj [("tokenId", JStr "7")]))
         (Scenario.machine Scenario.installed TimeoutExpired))
  = inr (err (JStr "执行超时")).
Proof.
  eapply (handle_failure_reported Scenario.cfg0 Burn (JObj [("tokenId", JStr "7")])
            (Scenario.machine Scenario.installed TimeoutExpired) _ _ _ TimeoutExpired).
  - vm_compute. left. reflexivity.
  - reflexivity.
  - discriminate.
Defined.

(** X3: when a file named as the base name of the binary is missing from
    the working directory, or the SDK configuration is missing, no
    endpoint starts a process, whatever the body; a request that passes
    validation is answered with [{success: false, error}] where the error
    names the joined path of the binary, or else that of the SDK
    configuration, and nothing is logged. *)
Theorem handle_config_missing cfg w e :
  preconditions_hold cfg w = false ->
  (forall body, spawns (fst (serve (handle cfg e body) w)) = []) /\
  (forall kvs,
      text_request e kvs = true -> passes_validation e kvs = true ->
      serve (handle cfg e (JObj kvs)) w =
      ([], inr (err (JStr
         (if path_exists w (PosixPath.join (WORK_DIR cfg) (PosixPath.basename (CMC_BIN cfg)))
          then "找不到 SDK 配置：" ++ PosixPath.join (WORK_DIR cfg) (SDK_CONF_PATH cfg)
          else "找不到 CMC 可执行文件：" ++ PosixPath.join (WORK_DIR cfg) (CMC_BIN cfg)))))).
Proof.
  unfold preconditions_hold. intros Hpre. split.
  - intros body. unfold serve.
    destruct (handle_shape cfg e body w []) as [[r ->]|[params ->]]; [reflexivity|].
    rewrite fst_bind_pure by apply pure_after.
    rewrite exec_cmc_run.
    destruct (path_exists w _); [|reflexivity].
    simpl in Hpre. rewrite Hpre. reflexivity.
  - intros kvs Htext Hvalid. unfold serve.
    rewrite (handle_text _ _ _ _ _ Htext), Hvalid.
    unfold bind. rewrite exec_cmc_run.
    destruct (path_exists w _); [|reflexivity].
    simpl in Hpre. rewrite Hpre. reflexivity.
Qed.

Lemma handle_config_missing_witness :
  serve (handle Scenario.cfg0 OwnerOf (JObj Scenario.owner_request))
        (Scenario.machine ["/home/young3/chainmaker-go/tools/cmc/cmc"] (Completed 0 "{}" ""))
  = ([], inr (err (JStr ("找不到 SDK 配置：" ++
        "/home/young3/chainmaker-go/tools/cmc/./testdata/sdk_config.yml")))).
Proof.
  apply (proj2 (handle_config_missing Scenario.cfg0
                  (Scenario.machine ["/home/young3/chainmaker-go/tools/cmc/cmc"]
                     (Completed 0 "{}" ""))
                  OwnerOf eq_refl) Scenario.owner_request eq_refl eq_refl).
Defined.

(** ** Read operations *)




(** ** Bodies and outputs of the wrong shape *)

(** X5: on every endpoint that reads a body, a body that is not a JSON
    object makes the handler raise [AttributeError] on [get]; nothing is
    logged and no process is started. *)
Theorem non_object_body_raises cfg w e body :
  e <> TotalSupply ->
  (forall kvs, body <> JObj kvs) ->
  serve (handle cfg e body) w = ([], inl (AttributeError (Py.type_name body) "get")).
Proof.
  intros He Hbody.
  destruct e; try contradiction;
    destruct body; try reflexivity; exfalso; eapply Hbody; reflexivity.
Qed.

Lemma non_object_body_raises_witness :
  serve (handle Scenario.cfg0 Mint (JArr [JStr "alice"]))
        (Scenario.machine Scenario.installed (Completed 0 "{}" ""))
  = ([], inl (AttributeError "list" "get")).
Proof.
  apply (non_object_body_raises Scenario.cfg0
           (Scenario.machine Scenario.installed (Completed 0 "{}" ""))
           Mint (JArr [JStr "alice"])); discriminate.
Defined.

(** When [exec_cmc] reports a failure, what it returns with it is a
    message. *)
Lemma outcome_failure_message room p data :
  outcome room p = (false, data) -> exists msg, data = JStr msg.
Proof.
  unfold outcome. destruct p as [rc out errout| |x].
  - destruct (negb (rc =? 0)).
    + intros [= <-]. eexists. reflexivity.
    + destruct (Json.loads_within _ _); discriminate.
  - intros [= <-]. eexists. reflexivity.
  - intros [= <-]. eexists. reflexivity.
Qed.



(** ** Base64: encoding, then decoding *)

(** A check made on every number below [n] holds of every such number. *)
Lemma forall_below (P : Z -> bool) (n : nat) :
  forallb P (map Z.of_nat (seq 0 n)) = true ->
  forall z, 0 <= z < Z.of_nat n -> P z = true.
Proof.
  intros H z Hz. rewrite forallb_forall in H. apply H.
  apply in_map_iff. exists (Z.to_nat z). split; [lia|].
  apply in_seq. lia.
Qed.

(** ** Bit operations as arithmetic *)

Lemma land_shiftl_small x y n :
  0 <= n -> 0 <= y < 2 ^ n -> Z.land (Z.shiftl x n) y = 0.
Proof.
  intros Hn Hy. apply Z.bits_inj'. intros i Hi. rewrite Z.land_spec, Z.bits_0.
  destruct (Z.lt_ge_cases i n).
  - rewrite Z.shiftl_spec_low by lia. reflexivity.
  - rewrite <- (Z.mod_small y (2 ^ n)) by lia.
    rewrite Z.mod_pow2_bits_high by lia. apply andb_false_r.
Qed.

(** Where the low [n] bits are free, [|] adds. *)
Lemma lor_shiftl_add x y n :
  0 <= n -> 0 <= y < 2 ^ n -> Z.lor (Z.shiftl x n) y = x * 2 ^ n + y.
Proof.
  intros Hn Hy. rewrite <- Z.shiftl_mul_pow2 by lia.
  rewrite Z.add_nocarry_lxor by (apply land_shiftl_small; lia).
  symmetry. apply Z.lxor_lor, land_shiftl_small; lia.
Qed.

(** Powers of two as numerals, masks as remainders, shifts as quotients
    and products; what is left is linear arithmetic. *)
Ltac pow2 :=
  change (2 ^ 2) with 4 in *; change (2 ^ 3) with 8 in *; change (2 ^ 4) with 16 in *;
  change (2 ^ 5) with 32 in *; change (2 ^ 6) with 64 in *; change (2 ^ 8) with 256 in *;
  change (2 ^ 10) with 1024 in *; change (2 ^ 12) with 4096 in *;
  change (2 ^ 18) with 262144 in *.

Ltac arith := pow2; Z.div_mod_to_equations; lia.

(** The masks of the code, as remainders. *)
Lemma land_masks a :
  Z.land a 3 = a mod 4 /\ Z.land a 7 = a mod 8 /\ Z.land a 15 = a mod 16 /\
  Z.land a 31 = a mod 32 /\ Z.land a 63 = a mod 64 /\ Z.land a 255 = a mod 256 /\
  Z.land a 1023 = a mod 1024.
Proof.
  repeat split;
    [ exact (Z.land_ones a 2 ltac:(lia)) | exact (Z.land_ones a 3 ltac:(lia))
    | exact (Z.land_ones a 4 ltac:(lia)) | exact (Z.land_ones a 5 ltac:(lia))
    | exact (Z.land_ones a 6 ltac:(lia)) | exact (Z.land_ones a 8 ltac:(lia))
    | exact (Z.land_ones a 10 ltac:(lia)) ].
Qed.

Ltac masks :=
  repeat match goal with
         | |- context [Z.land ?a 3] => rewrite (proj1 (land_masks a))
         | |- context [Z.land ?a 7] => rewrite (proj1 (proj2 (land_masks a)))
         | |- context [Z.land ?a 15] => rewrite (proj1 (proj2 (proj2 (land_masks a))))
         | |- context [Z.land ?a 31] =>
             rewrite (proj1 (proj2 (proj2 (proj2 (land_masks a)))))
         | |- context [Z.land ?a 63] =>
             rewrite (proj1 (proj2 (proj2 (proj2 (proj2 (land_masks a))))))
         | |- context [Z.land ?a 255] =>
             rewrite (proj1 (proj2 (proj2 (proj2 (proj2 (proj2 (land_masks a)))))))
         | |- context [Z.land ?a 1023] =>
             rewrite (proj2 (proj2 (proj2 (proj2 (proj2 (proj2 (land_masks a)))))))
         end.

Ltac to_arith :=
  repeat first
    [ rewrite Z.shiftr_div_pow2 by lia
    | progress masks
    | rewrite lor_shiftl_add by (first [lia | to_arith; arith])
    | progress (rewrite ?Z.shiftl_mul_pow2 by lia) ].

Ltac bits := to_arith; arith.

Section Base64RoundTrip.

Import Base64.

(** The four sextets of three bytes, as [b2a_base64] cuts them. *)
Let s1 (a : Z) : Z := Z.shiftr a 2.
Let s2 (a b : Z) : Z := Z.lor (Z.shiftl (Z.land a 3) 4) (Z.shiftr b 4).
Let s3 (b c : Z) : Z := Z.lor (Z.shiftl (Z.land b 15) 2) (Z.shiftr c 6).
Let s4 (c : Z) : Z := Z.land c 63.

(** What the decoder does with one character of the encoder. *)
Lemma sextet_char v :
  0 <= v < 64 ->
  (table_b2a_base64 v =? BASE64_PAD) = false /\
  table_a2b_base64 (table_b2a_base64 v) = Some v.
Proof.
  intros Hv.
  assert (H := forall_below
                 (fun v => negb (table_b2a_base64 v =? BASE64_PAD)
                           && match table_a2b_base64 (table_b2a_base64 v) with
                              | Some x => x =? v
                              | None => false
                              end) 64 eq_refl v Hv).
  apply andb_prop in H. destruct H as [H1 H2].
  split; [apply negb_true_iff, H1|].
  destruct (table_a2b_base64 (table_b2a_base64 v)); [|discriminate].
  apply Z.eqb_eq in H2. subst. reflexivity.
Qed.

Lemma sextets_bounded a b :
  0 <= a < 256 -> 0 <= b < 256 ->
  0 <= s1 a < 64 /\ 0 <= s2 a b < 64 /\ 0 <= s3 a b < 64 /\ 0 <= s4 a < 64
  /\ 0 <= Z.shiftl (Z.land a 3) 4 < 64 /\ 0 <= Z.shiftl (Z.land a 15) 2 < 64.
Proof.
  intros Ha Hb. unfold s1, s2, s3, s4. repeat split; bits.
Qed.

(** The bytes the decoder puts together are the bytes that were cut. *)
Lemma bytes_restored a b :
  0 <= a < 256 -> 0 <= b < 256 ->
  Z.lor (u8 (Z.shiftl (s1 a) 2)) (Z.shiftr (s2 a b) 4) = a /\
  Z.lor (u8 (Z.shiftl (s1 a) 2)) (Z.shiftr (Z.shiftl (Z.land a 3) 4) 4) = a /\
  u8 (Z.shiftl (s2 a b) 4) = Z.shiftl (Z.shiftr b 4) 4 /\
  Z.shiftr (s3 a b) 2 = Z.land a 15 /\
  Z.shiftr (Z.shiftl (Z.land a 15) 2) 2 = Z.land a 15 /\
  Z.lor (Z.shiftl (Z.shiftr a 4) 4) (Z.land a 15) = a /\
  Z.lor (u8 (Z.shiftl (s3 a b) 6)) (s4 b) = b.
Proof.
  intros Ha Hb. unfold s1, s2, s3, s4, u8.
  assert (U : forall x, 0 <= x < 64 -> Z.land (Z.shiftl x 2) 255 = Z.shiftl x 2)
    by (intros x Hx; bits).
  assert (V : forall x, 0 <= x < 64 -> Z.land (Z.shiftl x 6) 255 = Z.shiftl (x mod 4) 6)
    by (intros x Hx; bits).
  repeat split.
  - rewrite U by bits. bits.
  - rewrite U by bits. bits.
  - bits.
  - bits.
  - bits.
  - bits.
  - rewrite V by bits. bits.
Qed.

(** One step of the decoder on a character of the encoder. *)
Lemma a2b_loop_sextet v rest q l p out :
  0 <= v < 64 ->
  a2b_loop true (table_b2a_base64 v :: rest) q l p false out =
  if q =? 0 then a2b_loop true rest 1 v 0 false out
  else if q =? 1 then
    a2b_loop true rest 2 (u8 (Z.shiftl v 4)) 0 false
      (Z.lor (u8 (Z.shiftl l 2)) (Z.shiftr v 4) :: out)
  else if q =? 2 then
    a2b_loop true rest 3 (u8 (Z.shiftl v 6)) 0 false (Z.lor l (Z.shiftr v 2) :: out)
  else a2b_loop true rest 0 0 0 false (Z.lor l v :: out).
Proof.
  intros Hv. destruct (sextet_char v Hv) as [Hpad Htab].
  cbn [a2b_loop]. rewrite Hpad, Htab. reflexivity.
Qed.

(** Strict decoding undoes the encoding. *)
Lemma a2b_loop_b2a data :
  Forall (fun b => 0 <= b < 256) data ->
  forall out,
    a2b_loop true (b2a_base64 data) 0 0 0 false out = Some (rev out ++ data)%list.
Proof.
  assert (H3 : forall n (l : bytes), (length l <= n)%nat ->
               Forall (fun b => 0 <= b < 256) l ->
               forall out,
                 a2b_loop true (b2a_base64 l) 0 0 0 false out = Some (rev out ++ l)%list).
  { induction n as [|n IH]; intros l Hlen Hl out.
    - destruct l; [|simpl in Hlen; lia]. cbn. rewrite app_nil_r. reflexivity.
    - destruct l as [|a [|b [|c rest]]]; cbn [b2a_base64].
      + cbn. rewrite app_nil_r. reflexivity.
      + inversion Hl as [|? ? Ha _]; subst.
        destruct (sextets_bounded a a Ha Ha) as (B1 & _ & _ & _ & B2 & _).
        destruct (bytes_restored a a Ha Ha) as (_ & R & _).
        rewrite (a2b_loop_sextet _ _ _ _ _ _ B1). cbn [Z.eqb].
        rewrite (a2b_loop_sextet _ _ _ _ _ _ B2). cbn [Z.eqb Pos.eqb].
        fold (s1 a). rewrite R. cbn. reflexivity.
      + inversion Hl as [|? ? Ha Hl1]; subst. inversion Hl1 as [|? ? Hb _]; subst.
        destruct (sextets_bounded a b Ha Hb) as (B1 & B2 & _).
        destruct (sextets_bounded b b Hb Hb) as (_ & _ & _ & _ & _ & B3).
        destruct (bytes_restored a b Ha Hb) as (R1 & _ & R2 & _).
        destruct (bytes_restored b b Hb Hb) as (_ & _ & _ & _ & R3 & R4 & _).
        rewrite (a2b_loop_sextet _ _ _ _ _ _ B1). cbn [Z.eqb].
        rewrite (a2b_loop_sextet _ _ _ _ _ _ B2). cbn [Z.eqb Pos.eqb].
        rewrite (a2b_loop_sextet _ _ _ _ _ _ B3). cbn [Z.eqb Pos.eqb].
        fold (s1 a) (s2 a b). rewrite R1, R2, R3, R4. cbn.
        rewrite <- app_assoc. reflexivity.
      + inversion Hl as [|? ? Ha Hl1]; subst. inversion Hl1 as [|? ? Hb Hl2]; subst.
        inversion Hl2 as [|? ? Hc Hl3]; subst.
        destruct (sextets_bounded a b Ha Hb) as (B1 & B2 & _).
        destruct (sextets_bounded b c Hb Hc) as (_ & _ & B3 & _).
        destruct (sextets_bounded c c Hc Hc) as (_ & _ & _ & B4 & _).
        destruct (bytes_restored a b Ha Hb) as (R1 & _ & R2 & _).
        destruct (bytes_restored b c Hb Hc) as (_ & _ & _ & R3 & _ & R4 & R5).
        rewrite (a2b_loop_sextet _ _ _ _ _ _ B1). cbn [Z.eqb].
        rewrite (a2b_loop_sextet _ _ _ _ _ _ B2). cbn [Z.eqb Pos.eqb].
        rewrite (a2b_loop_sextet _ _ _ _ _ _ B3). cbn [Z.eqb Pos.eqb].
        rewrite (a2b_loop_sextet _ _ _ _ _ _ B4). cbn [Z.eqb Pos.eqb].
        fold (s1 a) (s2 a b) (s3 b c) (s4 c). rewrite R1, R2, R3, R4, R5.
        rewrite IH; [|simpl in Hlen; lia|assumption].
        cbn [rev]. rewrite <- !app_assoc. reflexivity. }
  intros H out. apply (H3 (length data)); auto.
Qed.

End Base64RoundTrip.

Lemma ord_chr z : 0 <= z < 256 -> ord (chr z) = z.
Proof.
  intros Hz. unfold ord, chr. rewrite N_ascii_embedding; lia.
Qed.

Lemma chr_ord c : chr (ord c) = c.
Proof. unfold ord, chr. rewrite N2Z.id. apply ascii_N_embedding. Qed.

Lemma bytes_of_str_of_bytes l :
  Forall (fun b => 0 <= b < 256) l -> bytes_of_str (str_of_bytes l) = l.
Proof.
  unfold bytes_of_str, str_of_bytes. rewrite list_ascii_of_string_of_list_ascii.
  induction 1 as [|b l Hb _ IH]; [reflexivity|].
  simpl. rewrite (ord_chr _ Hb), IH. reflexivity.
Qed.

Lemma str_of_bytes_of_str s : str_of_bytes (bytes_of_str s) = s.
Proof.
  unfold bytes_of_str, str_of_bytes. rewrite map_map.
  rewrite (map_ext _ (fun c => c) chr_ord), map_id.
  apply string_of_list_ascii_of_string.
Qed.

Lemma bytes_of_str_bounded s : Forall (fun b => 0 <= b < 256) (bytes_of_str s).
Proof.
  unfold bytes_of_str. apply Forall_forall. intros b Hb.
  apply in_map_iff in Hb. destruct Hb as (c & <- & _).
  unfold ord. pose proof (N_ascii_bounded c). lia.
Qed.

Lemma Forall_weaken {A} (P Q : A -> Prop) l :
  (forall x, P x -> Q x) -> Forall P l -> Forall Q l.
Proof. intros H HP. induction HP; constructor; auto. Qed.

(** Every character of the encoder passes the character test of
    [_is_base64]. *)
Lemma table_b2a_charset v :
  0 <= v -> PyStr.mem (chr (Base64.table_b2a_base64 v)) base64_charset = true.
Proof.
  intros Hv. destruct (Z.ltb_spec v 64) as [Hlt|Hge].
  - apply (forall_below
             (fun v => PyStr.mem (chr (Base64.table_b2a_base64 v)) base64_charset)
             64 eq_refl v). lia.
  - unfold Base64.table_b2a_base64.
    destruct (Z.ltb_spec v 26); [lia|].
    destruct (Z.ltb_spec v 52); [lia|].
    destruct (Z.ltb_spec v 62); [lia|].
    destruct (Z.eqb_spec v 62); [lia|]. reflexivity.
Qed.

Lemma b2a_base64_charset data :
  Forall (fun b => 0 <= b) data ->
  Forall (fun c => PyStr.mem (chr c) base64_charset = true) (Base64.b2a_base64 data).
Proof.
  assert (Hpad : PyStr.mem (chr Base64.BASE64_PAD) base64_charset = true) by reflexivity.
  assert (H3 : forall n (l : bytes), (length l <= n)%nat ->
               Forall (fun b => 0 <= b) l ->
               Forall (fun c => PyStr.mem (chr c) base64_charset = true)
                      (Base64.b2a_base64 l)).
  { induction n as [|n IH]; intros l Hlen Hl.
    - destruct l; [constructor | simpl in Hlen; lia].
    - destruct l as [|a [|b [|c rest]]]; cbn [Base64.b2a_base64].
      + constructor.
      + inversion Hl; subst.
        repeat apply Forall_cons; try apply Forall_nil; try exact Hpad;
          apply table_b2a_charset; nonneg.
      + inversion Hl as [|? ? Ha Hl1]; subst. inversion Hl1; subst.
        repeat apply Forall_cons; try apply Forall_nil; try exact Hpad;
          apply table_b2a_charset; nonneg.
      + inversion Hl as [|? ? Ha Hl1]; subst. inversion Hl1 as [|? ? Hb Hl2]; subst.
        inversion Hl2 as [|? ? Hc Hl3]; subst.
        repeat apply Forall_cons;
          try (apply table_b2a_charset; nonneg).
        apply IH; [simpl in Hlen; lia | assumption]. }
  intros H. apply (H3 (length data)); auto.
Qed.

(** [base64.b64decode(base64.b64encode(data), validate=True) == data] *)
Lemma b64decode_b64encode data :
  Forall (fun b => 0 <= b < 256) data ->
  Base64.b64decode (str_of_bytes (Base64.b64encode data)) true = Some data.
Proof.
  intros Hdata. unfold Base64.b64decode, Base64.b64encode.
  assert (Hnn : Forall (fun b => 0 <= b) data)
    by (apply (Forall_weaken (fun b => 0 <= b < 256) _ _); [intros; lia | exact Hdata]).
  assert (Hascii := b2a_base64_ascii data Hnn).
  rewrite bytes_of_str_of_bytes
    by (apply (Forall_weaken (fun c => 0 <= c < 128) _ _); [intros; lia | exact Hascii]).
  assert (Hall : forallb (fun b => b <? 128) (Base64.b2a_base64 data) = true).
  { apply forallb_forall. intros c Hc. rewrite Forall_forall in Hascii.
    apply Z.ltb_lt, Hascii, Hc. }
  rewrite Hall. unfold Base64.a2b_base64.
  pose proof (a2b_loop_b2a data Hdata []) as Hloop. cbn [rev List.app] in Hloop.
  destruct (Base64.b2a_base64 data) as [|c rest] eqn:E; [exact Hloop|].
  assert (Hc : (c =? Base64.BASE64_PAD) = false).
  { destruct data as [|a [|b [|c' rest']]]; cbn [Base64.b2a_base64] in E;
      [discriminate| | |]; injection E as <- _;
      inversion Hdata as [|? ? Ha _]; subst;
      apply sextet_char;
      destruct (sextets_bounded a a Ha Ha) as (B1 & _); exact B1. }
  rewrite Hc. exact Hloop.
Qed.

(** X7: what was base64-encoded from text is decoded back:
    [_decode_result(base64.b64encode(s.encode("utf-8")).decode("utf-8"))]
    is [s], for every text [s] (the empty one included).  In particular
    the [metadata] a mint builds from [metadata_text] reads back as that
    text. *)
Theorem decode_result_encoded s :
  Utf8.valid (bytes_of_str s) = true ->
  _decode_result (JStr (str_of_bytes (Base64.b64encode (bytes_of_str s)))) = JStr s.
Proof.
  intros Hvalid.
  destruct s as [|c0 s0]; [reflexivity|].
  assert (Hne : nonempty (str_of_bytes (Base64.b64encode (bytes_of_str (String c0 s0))))
                = true).
  { change (bytes_of_str (String c0 s0)) with (ord c0 :: bytes_of_str s0).
    destruct (bytes_of_str s0) as [|? [|? ?]]; reflexivity. }
  remember (String c0 s0) as s eqn:Es. clear Es.
  pose proof (b64decode_b64encode _ (bytes_of_str_bounded s)) as Hdec.
  unfold _decode_result. rewrite is_base64_spec, Hdec.
  rewrite (b64decode_strict_lenient _ _ Hdec).
  unfold Utf8.decode. rewrite Hvalid, str_of_bytes_of_str.
  assert (Hcs : charset_only (str_of_bytes (Base64.b64encode (bytes_of_str s))) = true).
  { unfold charset_only, str_of_bytes, Base64.b64encode.
    rewrite list_ascii_of_string_of_list_ascii.
    apply forallb_forall. intros c Hc.
    apply in_map_iff in Hc. destruct Hc as (z & <- & Hz).
    pose proof (b2a_base64_charset _ (bytes_of_str_nonneg s)) as Hall.
    rewrite Forall_forall in Hall. apply Hall, Hz. }
  rewrite Hne, Hcs. reflexivity.
Qed.

Lemma decode_result_encoded_witness :
  _decode_result (JStr (str_of_bytes (Base64.b64encode (bytes_of_str "héllo, 世界")))) =
  JStr "héllo, 世界".
Proof. apply decode_result_encoded. vm_compute. reflexivity. Defined.

(** What strict decoding accepts is made of alphabet characters and
    padding. *)
Lemma a2b_loop_accepts data :
  forall quad_pos leftchar pads started out bs,
    Base64.a2b_loop true data quad_pos leftchar pads started out = Some bs ->
    Forall (fun c => c = Base64.BASE64_PAD \/ Base64.table_a2b_base64 c <> None) data.
Proof.
  induction data as [|c rest IH]; intros q l p st out bs; [constructor|].
  cbn [Base64.a2b_loop].
  destruct (Z.eqb_spec c Base64.BASE64_PAD) as [->|Hc].
  - destruct (2 <=? q).
    + destruct (4 <=? q + (p + 1)).
      * destruct rest; [intros _; repeat constructor; auto | discriminate].
      * intros H. constructor; [auto | eapply IH, H].
    + intros H. constructor; [auto | eapply IH, H].
  - destruct (Base64.table_a2b_base64 c) as [v|] eqn:Ev; [|discriminate].
    destruct (true && st); [discriminate|].
    assert (Hhd : c = Base64.BASE64_PAD \/ Base64.table_a2b_base64 c <> None)
      by (right; rewrite Ev; discriminate).
    destruct (q =? 0); [intros H; constructor; [exact Hhd | eapply IH, H]|].
    destruct (q =? 1); [intros H; constructor; [exact Hhd | eapply IH, H]|].
    destruct (q =? 2); intros H; (constructor; [exact Hhd | eapply IH, H]).
Qed.

Lemma table_a2b_alphabet c :
  Base64.table_a2b_base64 (ord c) <> None -> PyStr.mem c Base64.alphabet = true.
Proof.
  intros H.
  assert (Hc : 0 <= ord c < 256).
  { unfold ord. pose proof (N_ascii_bounded c). lia. }
  pose proof (forall_below
                (fun z => match Base64.table_a2b_base64 z with
                          | Some _ => PyStr.mem (chr z) Base64.alphabet
                          | None => true
                          end) 256 eq_refl (ord c) Hc) as Hall.
  cbv beta in Hall. rewrite chr_ord in Hall.
  destruct (Base64.table_a2b_base64 (ord c)); [exact Hall | contradiction].
Qed.

(** X8: a string [_is_base64] accepts is non-empty and made of alphabet
    characters and ['='] only (no line break, although the character test
    lets them through), and the decoding without validation that
    [_decode_result] then runs yields the very bytes of the validating
    one: only the UTF-8 step can still make [_decode_result] fall back. *)
Theorem is_base64_accepts s :
  _is_base64 s = true ->
  nonempty s = true /\
  Forall (fun c => PyStr.mem c Base64.alphabet = true \/ c = "="%char)
         (list_ascii_of_string s) /\
  exists bs, Base64.b64decode s true = Some bs /\ Base64.b64decode s false = Some bs.
Proof.
  rewrite is_base64_spec. intros H.
  apply andb_prop in H. destruct H as [H Hdec].
  apply andb_prop in H. destruct H as [Hne _].
  destruct (Base64.b64decode s true) as [bs|] eqn:E; [|discriminate].
  split; [exact Hne|]. split.
  - assert (Hall : Forall (fun c => c = Base64.BASE64_PAD
                                    \/ Base64.table_a2b_base64 c <> None)
                          (bytes_of_str s)).
    { unfold Base64.b64decode, Base64.a2b_base64 in E.
      destruct (forallb _ _); [|discriminate].
      destruct (bytes_of_str s) as [|c rest]; [constructor|].
      destruct (true && (c =? Base64.BASE64_PAD)); [discriminate|].
      eapply a2b_loop_accepts, E. }
    unfold bytes_of_str in Hall. rewrite Forall_forall in *.
    intros c Hc. destruct (Hall (ord c) (in_map ord _ _ Hc)) as [Hpad|Htab].
    + right. rewrite <- (chr_ord c), Hpad. reflexivity.
    + left. apply table_a2b_alphabet, Htab.
  - exists bs. split; [reflexivity | apply b64decode_strict_lenient, E].
Qed.

Lemma is_base64_accepts_witness :
  nonempty "aGVsbG8=" = true /\
  Forall (fun c => PyStr.mem c Base64.alphabet = true \/ c = "="%char)
         (list_ascii_of_string "aGVsbG8=") /\
  exists bs, Base64.b64decode "aGVsbG8=" true = Some bs
             /\ Base64.b64decode "aGVsbG8=" false = Some bs.
Proof. apply is_base64_accepts. vm_compute. reflexivity. Defined.

(** ** The status endpoint and the wrapper *)

(** X10: the status endpoint starts no process and logs nothing; it
    always answers [{success: true, data}], and it reports ["OK"] for both
    the binary and the SDK configuration exactly when a call of
    [exec_cmc] on the same machine gets past its checks and starts the
    process. *)
Theorem system_status_agrees cfg w now method params sync timeout :
  exists cmc sdk,
    serve (system_status cfg now) w =
    ([], inr (ok (JObj [("cmc", JStr cmc); ("sdk_config", JStr sdk);
                        ("contract", JStr (CONTRACT_NAME cfg));
                        ("workdir", JStr (WORK_DIR cfg));
                        ("time", JStr now)]))) /\
    (cmc = "OK" \/ cmc = "MISSING") /\ (sdk = "OK" \/ sdk = "MISSING") /\
    ((cmc = "OK" /\ sdk = "OK") <->
     spawns (fst (serve (exec_cmc cfg method params sync timeout) w)) <> []).
Proof.
  rewrite serve_exec_cmc. unfold serve, system_status, bind, os_path_exists, ret.
  destruct (path_exists w (PosixPath.join (WORK_DIR cfg) (PosixPath.basename (CMC_BIN cfg))));
    destruct (path_exists w (PosixPath.join (WORK_DIR cfg) (SDK_CONF_PATH cfg)));
    do 2 eexists; (split; [reflexivity|]); cbn;
    (split; [auto|]); (split; [auto|]);
    split; try (intros [H1 H2]; discriminate); try (intros H; exfalso; apply H; reflexivity);
    try (intros _; discriminate); auto.
Qed.

(** X11: [exec_cmc] never raises, and what it returns with a failure is
    always a message, so that [err] is given a string. *)
Theorem exec_cmc_failure_is_message cfg w method params sync timeout :
  exists ok_ data,
    snd (serve (exec_cmc cfg method params sync timeout) w) = inr (ok_, data) /\
    (ok_ = false -> exists msg, data = JStr msg).
Proof.
  rewrite serve_exec_cmc.
  destruct (negb (path_exists w _)); [do 2 eexists; split; [reflexivity|eauto]|].
  destruct (negb (path_exists w _)); [do 2 eexists; split; [reflexivity|eauto]|].
  cbv zeta. cbn [snd].
  destruct (outcome (recursion_room w) (subprocess_run w _ _ _)) as [ok_ data] eqn:E.
  exists ok_, data. split; [reflexivity|].
  intros ->. eapply outcome_failure_message, E.
Qed.

Lemma exec_cmc_failure_is_message_witness :
  exists ok_ data,
    snd (serve (exec_cmc Scenario.cfg0 "Burn" None false 5)
           (Scenario.machine Scenario.installed (OtherError "boom")))
    = inr (ok_, data) /\
    (ok_ = false -> exists msg, data = JStr msg).
Proof.
  exact (exec_cmc_failure_is_message Scenario.cfg0
           (Scenario.machine Scenario.installed (OtherError "boom")) "Burn" None false 5).
Defined.

(** ** Fields a handler does not read *)

(** X12: the answer of an endpoint, and what it leaves behind, depend on
    the body only through the fields the handler reads: two bodies that
    agree on them are served alike. *)
Theorem unread_fields_ignored cfg e kvs kvs' w tr :
  (forall k, In k (fields_read e) -> dict_get kvs k = dict_get kvs' k) ->
  handle cfg e (JObj kvs) w tr = handle cfg e (JObj kvs') w tr.
Proof.
  intros H.
  destruct e; cbn [fields_read required_fields] in H; unfold handle;
    [ reflexivity
    | unfold owner_of | unfold token_uri | unfold balance_of | unfold mint
    | unfold transfer_from | unfold burn | unfold create_or_set_category ];
    cbn [Dyn.get];
    repeat match goal with
           | |- context [dict_get kvs ?k] =>
               rewrite (H k) by (cbn; tauto)
           end;
    reflexivity.
Qed.

Lemma unread_fields_ignored_witness :
  handle Scenario.cfg0 Burn (JObj [("tokenId", JStr "7"); ("note", JInt 1)])
         (Scenario.machine Scenario.installed (Completed 0 "{}" "")) []
  = handle Scenario.cfg0 Burn (JObj [("tokenId", JStr "7")])
           (Scenario.machine Scenario.installed (Completed 0 "{}" "")) [].
Proof.
  apply unread_fields_ignored.
  intros k [<-|[]]. reflexivity.
Defined.

(** ** Output that is not a JSON object *)

(** X13: on every endpoint, when the process exits with code 0 and its
    trimmed output is not a JSON object -- [json.loads] fails on it,
    for its syntax or for nesting beyond the recursion limit, so that
    [exec_cmc] returns it as a string, or it parses to an array, a
    string, a number, a boolean or null -- the handler raises
    [AttributeError] on [get] for the type of that value instead of
    answering. *)
Theorem non_object_output_raises cfg e body w cmd cwd t out errout :
  In (cmd, cwd, t) (spawns (fst (serve (handle cfg e body) w))) ->
  subprocess_run w cmd cwd t = Completed 0 out errout ->
  (forall d, Json.loads_within (recursion_room w) (PyStr.strip out) <> Some (JObj d)) ->
  snd (serve (handle cfg e body) w) =
  inl (AttributeError
         match Json.loads_within (recursion_room w) (PyStr.strip out) with
         | Some data => Py.type_name data
         | None => "str"
         end "get").
Proof.
  intros Hin Hrun Hshape.
  rewrite (handle_completed _ _ _ _ _ _ _ _ _ Hin Hrun).
  unfold after, reply. cbn [negb].
  destruct (Json.loads_within (recursion_room w) (PyStr.strip out)) as [data|].
  - destruct data; try (destruct (is_write e); reflexivity).
    exfalso. eapply Hshape. reflexivity.
  - destruct (is_write e); reflexivity.
Qed.

Lemma non_object_output_raises_witness :
  snd (serve (handle Scenario.cfg0 TokenURI (JObj [("tokenId", JStr "7")]))
         (Scenario.machine Scenario.installed (Completed 0 "12" "")))
  = inl (AttributeError "int" "get").
Proof.
  refine (non_object_output_raises Scenario.cfg0 TokenURI (JObj [("tokenId", JStr "7")])
            (Scenario.machine Scenario.installed (Completed 0 "12" ""))
            (command_line Scenario.cfg0 "TokenURI" (Some [("tokenId", JStr "7")]) true)
            (WORK_DIR Scenario.cfg0) 60 "12" "" _ eq_refl _).
  - vm_compute. left. reflexivity.
  - intros d. vm_compute. discriminate.
Defined.

(** X9: a result that holds a line break is never decoded:
    [_decode_result] returns it unchanged, although the character test of
    [_is_base64] lets line breaks through. *)
Theorem line_break_returned_unchanged s :
  In "010"%char (list_ascii_of_string s) \/ In "013"%char (list_ascii_of_string s) ->
  _is_base64 s = false /\ _decode_result (JStr s) = JStr s.
Proof.
  intros Hin. split; [|apply decode_result_line_break, Hin].
  destruct (_is_base64 s) eqn:E; [|reflexivity].
  exfalso.
  assert (Hdec : exists bs, Base64.b64decode s true = Some bs).
  { rewrite is_base64_spec in E. destruct (Base64.b64decode s true); [eauto|].
    rewrite andb_false_r in E. discriminate. }
  destruct Hdec as [bs Hdec].
  unfold Base64.b64decode, Base64.a2b_base64 in Hdec.
  assert (Hb : In 10 (bytes_of_str s) \/ In 13 (bytes_of_str s)).
  { unfold bytes_of_str.
    destruct Hin as [H|H]; [left|right]; apply (in_map ord) in H; exact H. }
  destruct (forallb _ _); [|discriminate].
  destruct (bytes_of_str s) as [|c rest]; [destruct Hb as [[]|[]]|].
  destruct (true && (c =? Base64.BASE64_PAD)); [discriminate|].
  rewrite a2b_loop_line_break in Hdec by exact Hb. discriminate.
Qed.

Lemma line_break_returned_unchanged_witness :
  _is_base64 ("aGVs" ++ String "010" "bG8=") = false /\
  _decode_result (JStr ("aGVs" ++ String "010" "bG8=")) = JStr ("aGVs" ++ String "010" "bG8=").
Proof.
  apply line_break_returned_unchanged. left. vm_compute. do 4 right. left. reflexivity.
Defined.

(** ** JSON: writing, then reading *)

(** *** Code points and their bytes *)

(** Encoding the code point of a two-byte sequence gives the sequence. *)
Lemma encode_cp_2 b1 b2 :
  194 <= b1 <= 223 -> 128 <= b2 <= 191 ->
  let cp := Z.lor (Z.shiftl (Z.land b1 31) 6) (Z.land b2 63) in
  Utf8.encode_cp cp = [b1; b2] /\ 128 <= cp < 2048.
Proof.
  intros H1 H2 cp.
  assert (Hcp : cp = (b1 - 192) * 64 + (b2 - 128)) by (subst cp; bits).
  clearbody cp. split; [|lia].
  unfold Utf8.encode_cp.
  destruct (Z.ltb_spec cp 128); [lia|].
  destruct (Z.ltb_spec cp 2048); [|lia].
  change 192 with (Z.shiftl 3 6). change 128 with (Z.shiftl 2 6).
  repeat f_equal; bits.
Qed.

(** The same for a three-byte sequence that is no overlong form and no
    surrogate. *)
Lemma encode_cp_3 b1 b2 b3 :
  224 <= b1 <= 239 -> 128 <= b2 <= 191 -> 128 <= b3 <= 191 ->
  (b1 = 224 -> 160 <= b2) -> (b1 = 237 -> b2 <= 159) ->
  let cp := Z.lor (Z.shiftl (Z.land b1 15) 12)
              (Z.lor (Z.shiftl (Z.land b2 63) 6) (Z.land b3 63)) in
  Utf8.encode_cp cp = [b1; b2; b3] /\ 2048 <= cp < 65536 /\
  between 55296 cp 57343 = false.
Proof.
  intros H1 H2 H3 Ha Hb cp.
  assert (Hcp : cp = (b1 - 224) * 4096 + (b2 - 128) * 64 + (b3 - 128)) by (subst cp; bits).
  clearbody cp. split; [|split; [lia|]].
  - unfold Utf8.encode_cp.
    destruct (Z.ltb_spec cp 128); [lia|].
    destruct (Z.ltb_spec cp 2048); [lia|].
    destruct (Z.ltb_spec cp 65536); [|lia].
    change 224 with (Z.shiftl 14 4). change 128 with (Z.shiftl 2 6).
    repeat f_equal; bits.
  - unfold between.
    destruct (Z.leb_spec 55296 cp); destruct (Z.leb_spec cp 57343); try reflexivity.
    exfalso. lia.
Qed.

(** The same for a four-byte sequence up to U+10FFFF. *)
Lemma encode_cp_4 b1 b2 b3 b4 :
  240 <= b1 <= 244 -> 128 <= b2 <= 191 -> 128 <= b3 <= 191 -> 128 <= b4 <= 191 ->
  (b1 = 240 -> 144 <= b2) -> (b1 = 244 -> b2 <= 143) ->
  let cp := Z.lor (Z.shiftl (Z.land b1 7) 18)
              (Z.lor (Z.shiftl (Z.land b2 63) 12)
                 (Z.lor (Z.shiftl (Z.land b3 63) 6) (Z.land b4 63))) in
  Utf8.encode_cp cp = [b1; b2; b3; b4] /\ 65536 <= cp < 1114112.
Proof.
  intros H1 H2 H3 H4 Ha Hb cp.
  assert (Hcp : cp = (b1 - 240) * 262144 + (b2 - 128) * 4096 + (b3 - 128) * 64
                     + (b4 - 128)) by (subst cp; bits).
  clearbody cp. split; [|lia].
  unfold Utf8.encode_cp.
  destruct (Z.ltb_spec cp 128); [lia|].
  destruct (Z.ltb_spec cp 2048); [lia|].
  destruct (Z.ltb_spec cp 65536); [lia|].
  change 240 with (Z.shiftl 30 3). change 128 with (Z.shiftl 2 6).
  repeat f_equal; bits.
Qed.

(** *** Reading back one escape *)

Lemma hex_digit_val d :
  0 <= d < 16 -> Json.hex_val (JsonDump.hex_digit d) = Some d.
Proof.
  intros Hd.
  pose proof (forall_below
                (fun d => match Json.hex_val (JsonDump.hex_digit d) with
                          | Some x => x =? d
                          | None => false
                          end) 16 eq_refl d Hd) as H.
  cbv beta in H. destruct (Json.hex_val (JsonDump.hex_digit d)); [|discriminate].
  apply Z.eqb_eq in H. subst. reflexivity.
Qed.

Lemma hex4_u_escape n :
  0 <= n < 65536 ->
  Json.hex4 (JsonDump.hex_digit (Z.land (Z.shiftr n 12) 15))
            (JsonDump.hex_digit (Z.land (Z.shiftr n 8) 15))
            (JsonDump.hex_digit (Z.land (Z.shiftr n 4) 15))
            (JsonDump.hex_digit (Z.land n 15)) = Some n.
Proof.
  intros Hn. unfold Json.hex4.
  rewrite !hex_digit_val by bits. f_equal. bits.
Qed.


(** *** The scanner, one character at a time *)

Lemma append_cons c s t : String c s ++ t = String c (s ++ t).
Proof. reflexivity. Qed.

Lemma append_empty t : "" ++ t = t.
Proof. reflexivity. Qed.

(** Inside a string. *)
Lemma scan_in_string buf hi c rest acc :
  Json.scan (Json.InStr buf hi) (String c rest) acc =
  if Ascii.eqb c Json.quote then
    Json.scan Json.Top rest
      (Json.TAtom (JStr (string_of_list_ascii (rev (Json.flush hi buf)))) :: acc)
  else if Ascii.eqb c Json.backslash then
    match rest with
    | String "u" (String h1 (String h2 (String h3 (String h4 r)))) =>
        match Json.hex4 h1 h2 h3 h4 with
        | None => None
        | Some u =>
            match hi with
            | Some h =>
                if Json.is_low u then
                  Json.scan (Json.InStr
                          (Json.push_cp (65536 + Z.lor (Z.shiftl (h - 55296) 10)
                                              (u - 56320)) buf) None) r acc
                else if Json.is_high u then
                  Json.scan (Json.InStr (Json.push_cp h buf) (Some u)) r acc
                else Json.scan (Json.InStr (Json.push_cp u (Json.push_cp h buf)) None) r acc
            | None =>
                if Json.is_high u then Json.scan (Json.InStr buf (Some u)) r acc
                else Json.scan (Json.InStr (Json.push_cp u buf) None) r acc
            end
        end
    | String e r =>
        match Json.simple_escape e with
        | Some ch => Json.scan (Json.InStr (ch :: Json.flush hi buf) None) r acc
        | None => None
        end
    | EmptyString => None
    end
  else if ord c <? 32 then None
  else Json.scan (Json.InStr (c :: Json.flush hi buf) None) rest acc.
Proof. reflexivity. Qed.

(** What the scanner does with [\uXXXX] inside a string. *)
Lemma scan_u_escape n buf hi rest acc :
  0 <= n < 65536 ->
  Json.scan (Json.InStr buf hi) (JsonDump.u_escape n ++ rest) acc =
  match hi with
  | Some h =>
      if Json.is_low n then
        Json.scan (Json.InStr
                     (Json.push_cp (65536 + Z.lor (Z.shiftl (h - 55296) 10) (n - 56320)) buf)
                     None) rest acc
      else if Json.is_high n then
        Json.scan (Json.InStr (Json.push_cp h buf) (Some n)) rest acc
      else Json.scan (Json.InStr (Json.push_cp n (Json.push_cp h buf)) None) rest acc
  | None =>
      if Json.is_high n then Json.scan (Json.InStr buf (Some n)) rest acc
      else Json.scan (Json.InStr (Json.push_cp n buf) None) rest acc
  end.
Proof.
  intros Hn. pose proof (hex4_u_escape n Hn) as Hhex.
  unfold JsonDump.u_escape. rewrite !append_cons, append_empty.
  rewrite scan_in_string.
  change (Ascii.eqb Json.backslash Json.quote) with false.
  change (Ascii.eqb Json.backslash Json.backslash) with true.
  cbv iota. rewrite Hhex. reflexivity.
Qed.

Lemma append_assoc (s t u : string) : (s ++ t) ++ u = s ++ (t ++ u).
Proof.
  induction s as [|c s IH]; [reflexivity|].
  rewrite !append_cons, IH. reflexivity.
Qed.

(** *** Reading back one code point *)

Lemma eqb_chr n c : 0 <= n < 256 -> n <> ord c -> Ascii.eqb (chr n) c = false.
Proof.
  intros Hn Hne. apply Ascii.eqb_neq. intros <-.
  rewrite ord_chr in Hne by lia. contradiction.
Qed.

Lemma push_cp_ascii n buf : n < 128 -> Json.push_cp n buf = chr n :: buf.
Proof.
  intros Hn. unfold Json.push_cp, Utf8.encode_cp.
  destruct (Z.ltb_spec n 128); [reflexivity|lia].
Qed.

Lemma scalar_range cp :
  scalar cp = true -> 0 <= cp <= 1114111 /\ ~ 55296 <= cp <= 57343.
Proof.
  unfold scalar, between. intros H.
  apply andb_prop in H. destruct H as [H1 H2].
  apply andb_prop in H1. destruct H1 as [H0 H1].
  apply Z.leb_le in H0, H1. split; [lia|].
  intros [Ha Hb]. apply Z.leb_le in Ha, Hb. rewrite Ha, Hb in H2. discriminate.
Qed.

(** One [\uXXXX] for the rest of the BMP, a surrogate pair above it. *)
Lemma scan_hex_escape cp buf rest acc :
  0 <= cp <= 1114111 -> ~ 55296 <= cp <= 57343 ->
  Json.scan (Json.InStr buf None)
    ((if cp <? 65536 then JsonDump.u_escape cp
      else let m := cp - 65536 in
           JsonDump.u_escape (Z.lor 55296 (Z.land (Z.shiftr m 10) 1023))
           ++ JsonDump.u_escape (Z.lor 56320 (Z.land m 1023))) ++ rest) acc =
  Json.scan (Json.InStr (Json.push_cp cp buf) None) rest acc.
Proof.
  intros Hr Hs. destruct (Z.ltb_spec cp 65536).
  - rewrite scan_u_escape by lia. unfold Json.is_high, between.
    destruct (Z.leb_spec 55296 cp); destruct (Z.leb_spec cp 56319);
      cbn [andb]; try reflexivity.
    exfalso. lia.
  - cbv zeta. rewrite append_assoc.
    change 55296 with (Z.shiftl 54 10) at 1. change 56320 with (Z.shiftl 55 10) at 1.
    assert (Hh : Z.lor (Z.shiftl 54 10) (Z.land (Z.shiftr (cp - 65536) 10) 1023)
                 = 55296 + (cp - 65536) / 1024) by bits.
    assert (Hl : Z.lor (Z.shiftl 55 10) (Z.land (cp - 65536) 1023)
                 = 56320 + (cp - 65536) mod 1024) by bits.
    rewrite Hh, Hl.
    rewrite scan_u_escape by arith.
    unfold Json.is_high at 1. unfold between.
    destruct (Z.leb_spec 55296 (55296 + (cp - 65536) / 1024)); [|exfalso; arith].
    destruct (Z.leb_spec (55296 + (cp - 65536) / 1024) 56319); [|exfalso; arith].
    cbn [andb].
    rewrite scan_u_escape by arith.
    unfold Json.is_low, between.
    destruct (Z.leb_spec 56320 (56320 + (cp - 65536) mod 1024)); [|exfalso; arith].
    destruct (Z.leb_spec (56320 + (cp - 65536) mod 1024) 57343); [|exfalso; arith].
    cbn [andb]. do 3 f_equal. bits.
Qed.

(** The escape written for a code point is read back as the code
    point. *)
Lemma scan_escape_cp cp buf rest acc :
  scalar cp = true ->
  Json.scan (Json.InStr buf None) (JsonDump.escape_cp cp ++ rest) acc =
  Json.scan (Json.InStr (Json.push_cp cp buf) None) rest acc.
Proof.
  intros H. apply scalar_range in H. destruct H as [Hr Hs].
  unfold JsonDump.escape_cp.
  destruct (Z.eqb_spec cp 34) as [->|]; [reflexivity|].
  destruct (Z.eqb_spec cp 92) as [->|]; [reflexivity|].
  destruct (Z.eqb_spec cp 10) as [->|]; [reflexivity|].
  destruct (Z.eqb_spec cp 13) as [->|]; [reflexivity|].
  destruct (Z.eqb_spec cp 9) as [->|]; [reflexivity|].
  destruct (Z.eqb_spec cp 8) as [->|]; [reflexivity|].
  destruct (Z.eqb_spec cp 12) as [->|]; [reflexivity|].
  unfold between.
  destruct (Z.leb_spec 32 cp); cbn [andb];
    [destruct (Z.leb_spec cp 126)|]; cbn [andb].
  - rewrite append_cons, append_empty, scan_in_string.
    rewrite !eqb_chr by (try lia; assumption).
    rewrite ord_chr by lia.
    destruct (Z.ltb_spec cp 32); [lia|].
    cbn [Json.flush]. rewrite push_cp_ascii by lia. reflexivity.
  - apply scan_hex_escape; assumption.
  - apply scan_hex_escape; assumption.
Qed.

(** *** Text and its code points *)

Lemma scalar_intro cp :
  0 <= cp <= 1114111 -> ~ 55296 <= cp <= 57343 -> scalar cp = true.
Proof.
  intros Hr Hs. unfold scalar, between.
  destruct (Z.leb_spec 0 cp); [|lia]. destruct (Z.leb_spec cp 1114111); [|lia].
  destruct (Z.leb_spec 55296 cp); destruct (Z.leb_spec cp 57343); try reflexivity.
  exfalso. lia.
Qed.

Lemma some_eq {A} (x y : A) : Some x = Some y -> x = y.
Proof. congruence. Qed.

Ltac to_prop H :=
  unfold Utf8.cont, between in H;
  rewrite ?andb_true_iff, ?orb_true_iff, ?Z.leb_le, ?Z.eqb_eq in H.

(** The strict decoder yields scalar values only, their encoding is the
    bytes decoded, and the decoder that lets surrogates through reads
    the same. *)
Lemma code_points_strict bs : forall cps,
  Utf8.code_points false bs = Some cps ->
  Utf8.code_points true bs = Some cps /\
  Forall (fun cp => scalar cp = true) cps /\
  flat_map Utf8.encode_cp cps = bs.
Proof.
  induction bs as [bs IH] using (induction_ltof1 _ (@length Z)). unfold ltof in IH.
  intros cps. destruct bs as [|b1 t1]; cbn [Utf8.code_points].
  { intros [= <-]. repeat split; constructor. }
  destruct (between 0 b1 127) eqn:E1.
  { destruct (Utf8.code_points false t1) as [cps1|] eqn:Ht; [|discriminate].
    cbn [option_map]. intros Hx. apply some_eq in Hx. subst cps. destruct (IH t1 ltac:(simpl; lia) _ Ht) as (Ha & Hb & Hc).
    rewrite Ha. to_prop E1. split; [reflexivity|]. split.
    - constructor; [|assumption]. cbv beta. apply scalar_intro; lia.
    - cbn [flat_map]. rewrite Hc. unfold Utf8.encode_cp.
      destruct (Z.ltb_spec b1 128); [reflexivity|lia]. }
  destruct t1 as [|b2 t2]; [discriminate|].
  destruct (between 194 b1 223 && Utf8.cont b2) eqn:E2.
  { destruct (Utf8.code_points false t2) as [cps1|] eqn:Ht; [|discriminate].
    cbn [option_map]. intros Hx. apply some_eq in Hx. subst cps. destruct (IH t2 ltac:(simpl; lia) _ Ht) as (Ha & Hb & Hc).
    rewrite Ha. to_prop E2. split; [reflexivity|].
    destruct (encode_cp_2 b1 b2 ltac:(lia) ltac:(lia)) as [He Hcp]; cbv zeta in He, Hcp.
    split.
    - constructor; [|assumption]. cbv beta. apply scalar_intro; lia.
    - cbn [flat_map]. rewrite Hc, He. reflexivity. }
  destruct t2 as [|b3 t3]; [discriminate|].
  match goal with
  | |- (if ?c then _ else _) = _ -> _ => destruct c eqn:E3
  end.
  { destruct (Utf8.code_points false t3) as [cps1|] eqn:Ht; [|discriminate].
    cbn [option_map]. intros Hx. apply some_eq in Hx. subst cps. destruct (IH t3 ltac:(simpl; lia) _ Ht) as (Ha & Hb & Hc).
    rewrite Ha. to_prop E3.
    destruct (encode_cp_3 b1 b2 b3 ltac:(lia) ltac:(lia) ltac:(lia) ltac:(lia)
                ltac:(lia)) as (He & Hcp & Hsur); cbv zeta in He, Hcp, Hsur.
    split.
    - match goal with
      | |- (if ?c then _ else _) = _ => replace c with true; [reflexivity|]
      end.
      symmetry. unfold Utf8.cont, between.
      rewrite ?andb_true_iff, ?orb_true_iff, ?Z.leb_le, ?Z.eqb_eq. lia.
    - split.
      + constructor; [|assumption]. cbv beta. unfold scalar. rewrite Hsur.
        unfold between. rewrite andb_true_r, andb_true_iff, !Z.leb_le. lia.
      + cbn [flat_map]. rewrite Hc, He. reflexivity. }
  destruct t3 as [|b4 t4]; [discriminate|].
  match goal with
  | |- (if ?c then _ else _) = _ -> _ => destruct c eqn:E4; [|discriminate]
  end.
  destruct (Utf8.code_points false t4) as [cps1|] eqn:Ht; [|discriminate].
  cbn [option_map]. intros Hx. apply some_eq in Hx. subst cps. destruct (IH t4 ltac:(simpl; lia) _ Ht) as (Ha & Hb & Hc).
  rewrite Ha. to_prop E4.
  destruct (encode_cp_4 b1 b2 b3 b4 ltac:(lia) ltac:(lia) ltac:(lia) ltac:(lia)
              ltac:(lia) ltac:(lia)) as (He & Hcp); cbv zeta in He, Hcp.
  split.
  - match goal with
    | |- (if ?c then _ else _) = _ => replace c with false; [reflexivity|]
    end.
    symmetry. apply not_true_is_false. unfold Utf8.cont, between.
    rewrite ?andb_true_iff, ?orb_true_iff, ?Z.leb_le, ?Z.eqb_eq. lia.
  - split.
    + constructor; [|assumption]. cbv beta. apply scalar_intro; lia.
    + cbn [flat_map]. rewrite Hc, He. reflexivity.
Qed.

(** *** Reading back a string *)

Lemma append_empty_r s : s ++ "" = s.
Proof.
  induction s as [|c s IH]; [reflexivity|]. rewrite append_cons, IH. reflexivity.
Qed.

Lemma concat_cons x xs : String.concat "" (x :: xs) = x ++ String.concat "" xs.
Proof.
  destruct xs as [|y ys]; cbn [String.concat].
  - rewrite append_empty_r. reflexivity.
  - rewrite append_empty. reflexivity.
Qed.

Lemma scan_escapes cps :
  Forall (fun cp => scalar cp = true) cps ->
  forall buf rest acc,
    Json.scan (Json.InStr buf None)
      (String.concat "" (map JsonDump.escape_cp cps) ++ rest) acc =
    Json.scan (Json.InStr (rev (map chr (flat_map Utf8.encode_cp cps)) ++ buf)%list None)
      rest acc.
Proof.
  induction 1 as [|cp cps Hcp _ IH]; intros buf rest acc; [reflexivity|].
  cbn [map flat_map]. rewrite concat_cons, append_assoc.
  rewrite scan_escape_cp by assumption. rewrite IH.
  unfold Json.push_cp. rewrite map_app, rev_app_distr, app_assoc. reflexivity.
Qed.

(** A string literal written by [json.dumps] is read back as one token
    holding the text. *)
Lemma scan_text s rest acc :
  Utf8.valid (bytes_of_str s) = true ->
  Json.scan Json.Top (JsonDump.encode_basestring_ascii s ++ rest) acc =
  Json.scan Json.Top rest (Json.TAtom (JStr s) :: acc).
Proof.
  unfold Utf8.valid. intros Hv.
  destruct (Utf8.code_points false (bytes_of_str s)) as [cps|] eqn:E; [|discriminate].
  destruct (code_points_strict _ _ E) as (Ht & Hs & Hb).
  unfold JsonDump.encode_basestring_ascii. rewrite Ht. cbv zeta.
  rewrite append_cons, append_assoc.
  change (Json.scan Json.Top (String Json.quote ?r) acc)
    with (Json.scan (Json.InStr [] None) r acc).
  rewrite scan_escapes by assumption.
  rewrite append_cons, append_empty, scan_in_string.
  change (Ascii.eqb Json.quote Json.quote) with true. cbv iota.
  cbn [Json.flush]. rewrite Hb, app_nil_r, rev_involutive.
  change (string_of_list_ascii (map chr (bytes_of_str s)))
    with (str_of_bytes (bytes_of_str s)).
  rewrite str_of_bytes_of_str. reflexivity.
Qed.

(** *** Reading back an object of strings *)

Section Separators.

Variables item_sep key_sep : string.

Hypothesis item_sep_comma : forall rest acc,
  Json.scan Json.Top (item_sep ++ rest) acc = Json.scan Json.Top rest (Json.TComma :: acc).

Hypothesis key_sep_colon : forall rest acc,
  Json.scan Json.Top (key_sep ++ rest) acc = Json.scan Json.Top rest (Json.TColon :: acc).

Let entry (kv : string * json) : string :=
  JsonDump.encode_basestring_ascii (fst kv) ++ key_sep
  ++ JsonDump.dumps item_sep key_sep (snd kv).

Lemma scan_entry kv rest acc :
  text_entry kv = true ->
  Json.scan Json.Top (entry kv ++ rest) acc =
  Json.scan Json.Top rest (rev (entry_tokens kv) ++ acc)%list.
Proof.
  destruct kv as [k v]. unfold text_entry, entry, entry_tokens. cbn [fst snd].
  intros H. apply andb_prop in H. destruct H as [Hk Hv].
  destruct v; try discriminate. cbn [is_text] in Hv.
  cbn [JsonDump.dumps]. rewrite !append_assoc.
  rewrite scan_text by assumption. rewrite key_sep_colon.
  rewrite scan_text by assumption. reflexivity.
Qed.

Lemma scan_entries d : forall kv rest acc,
  forallb text_entry (kv :: d) = true ->
  Json.scan Json.Top (PyStr.join item_sep (map entry (kv :: d)) ++ rest) acc =
  Json.scan Json.Top rest (rev (entry_tokens kv ++ more_tokens d) ++ acc)%list.
Proof.
  induction d as [|kv' d IH]; intros kv rest acc H;
    cbn [forallb] in H; apply andb_prop in H; destruct H as [Hkv Hd].
  - cbn [map PyStr.join more_tokens flat_map]. rewrite app_nil_r.
    apply scan_entry; assumption.
  - change (PyStr.join item_sep (map entry (kv :: kv' :: d)))
      with (entry kv ++ item_sep ++ PyStr.join item_sep (map entry (kv' :: d))).
    rewrite !append_assoc. rewrite scan_entry by assumption.
    rewrite item_sep_comma. rewrite IH by assumption.
    cbn [more_tokens flat_map]. fold (more_tokens d).
    f_equal. change (Json.TComma :: entry_tokens kv')
      with ([Json.TComma] ++ entry_tokens kv')%list.
    rewrite !rev_app_distr, <- !app_assoc. reflexivity.
Qed.

Lemma scan_object kv d :
  forallb text_entry (kv :: d) = true ->
  Json.scan Json.Top (JsonDump.dumps item_sep key_sep (JObj (kv :: d))) [] =
  Some (rev (Json.TLBrace :: entry_tokens kv ++ more_tokens d ++ [Json.TRBrace]))%list.
Proof.
  intros H.
  change (JsonDump.dumps item_sep key_sep (JObj (kv :: d)))
    with ("{" ++ PyStr.join item_sep (map entry (kv :: d)) ++ "}").
  rewrite append_cons, append_empty.
  change (Json.scan Json.Top (String "{" ?r) [])
    with (Json.scan Json.Top r [Json.TLBrace]).
  rewrite scan_entries by assumption.
  cbn [rev]. rewrite app_assoc, !rev_app_distr. reflexivity.
Qed.

End Separators.

Lemma dict_set_fresh d k v :
  ~ In k (map fst d) -> dict_set d k v = (d ++ [(k, v)])%list.
Proof.
  induction d as [|[k' v'] d IH]; intros Hk; [reflexivity|].
  cbn [dict_set app]. cbn [map fst In] in Hk.
  destruct (String.eqb_spec k k') as [->|_]; [tauto|].
  rewrite IH by tauto. reflexivity.
Qed.

Lemma parse_more d : forall d0,
  NoDup (map fst (d0 ++ d)) ->
  Json.parse (Json.PObjNext d0 []) (more_tokens d ++ [Json.TRBrace]) =
  Some (JObj (d0 ++ d)).
Proof.
  induction d as [|[k v] d IH]; intros d0 Hnd.
  - rewrite app_nil_r. reflexivity.
  - cbn [more_tokens flat_map entry_tokens fst snd app Json.parse Json.step
         Json.begin_value Json.complete].
    fold (more_tokens d).
    rewrite dict_set_fresh.
    + rewrite IH; rewrite <- app_assoc; [reflexivity|exact Hnd].
    + rewrite map_app in Hnd. apply NoDup_remove_2 in Hnd.
      intros Hin. apply Hnd. apply in_or_app. left. exact Hin.
Qed.

Lemma parse_object kv d :
  NoDup (map fst (kv :: d)) ->
  Json.parse (Json.PValue [])
    (Json.TLBrace :: entry_tokens kv ++ more_tokens d ++ [Json.TRBrace]) =
  Some (JObj (kv :: d)).
Proof.
  intros Hnd. destruct kv as [k v].
  cbn [entry_tokens fst snd app Json.parse Json.step Json.begin_value
       Json.complete dict_set].
  apply (parse_more d [(k, v)]). exact Hnd.
Qed.

(** An object of strings written with separators that read as a comma
    and a colon is read back as it was. *)
Lemma loads_dumps_text item_sep key_sep d :
  (forall rest acc, Json.scan Json.Top (item_sep ++ rest) acc
                    = Json.scan Json.Top rest (Json.TComma :: acc)) ->
  (forall rest acc, Json.scan Json.Top (key_sep ++ rest) acc
                    = Json.scan Json.Top rest (Json.TColon :: acc)) ->
  NoDup (map fst d) -> forallb text_entry d = true ->
  Json.loads (JsonDump.dumps item_sep key_sep (JObj d)) = Some (JObj d).
Proof.
  intros Hi Hk Hnd Ht. destruct d as [|kv d]; [reflexivity|].
  unfold Json.loads. rewrite (scan_object _ _ Hi Hk) by assumption.
  rewrite rev_involutive. apply parse_object. exact Hnd.
Qed.

(** *** Trimming keeps text well formed *)

(** The strict decoder, one character at a time. *)
Lemma valid_step b1 t1 :
  Utf8.valid (b1 :: t1) =
  if between 0 b1 127 then Utf8.valid t1
  else
    match t1 with
    | [] => false
    | b2 :: t2 =>
        if between 194 b1 223 && Utf8.cont b2 then Utf8.valid t2
        else
          match t2 with
          | [] => false
          | b3 :: t3 =>
              if ((b1 =? 224) && between 160 b2 191
                  || between 225 b1 236 && Utf8.cont b2
                  || (b1 =? 237) && between 128 b2 159
                  || between 238 b1 239 && Utf8.cont b2) && Utf8.cont b3
              then Utf8.valid t3
              else
                match t3 with
                | [] => false
                | b4 :: t4 =>
                    if ((b1 =? 240) && between 144 b2 191
                        || between 241 b1 243 && Utf8.cont b2
                        || (b1 =? 244) && between 128 b2 143)
                       && Utf8.cont b3 && Utf8.cont b4
                    then Utf8.valid t4
                    else false
                end
          end
    end.
Proof.
  unfold Utf8.valid. cbn [Utf8.code_points].
  destruct (between 0 b1 127).
  { destruct (Utf8.code_points false t1); reflexivity. }
  destruct t1 as [|b2 t2]; [reflexivity|].
  destruct (between 194 b1 223 && Utf8.cont b2).
  { destruct (Utf8.code_points false t2); reflexivity. }
  destruct t2 as [|b3 t3]; [reflexivity|].
  match goal with |- context [if ?c then option_map _ _ else _] => destruct c end.
  { destruct (Utf8.code_points false t3); reflexivity. }
  destruct t3 as [|b4 t4]; [reflexivity|].
  match goal with |- context [if ?c then option_map _ _ else _] => destruct c end.
  { destruct (Utf8.code_points false t4); reflexivity. }
  reflexivity.
Qed.

Ltac unfold_tests :=
  unfold PyStr.space1, PyStr.space2, PyStr.space3, Utf8.cont, between in *.

Ltac bool_prop :=
  rewrite ?andb_true_iff, ?orb_true_iff, ?Z.leb_le, ?Z.eqb_eq.

Ltac bool_prop_in H :=
  rewrite ?andb_true_iff, ?orb_true_iff, ?andb_false_iff, ?orb_false_iff,
    ?Z.leb_le, ?Z.eqb_eq, ?Z.leb_gt, ?Z.eqb_neq in H.

(** Settles a test whose outcome follows from the tests already made. *)
Ltac settle :=
  repeat match goal with
         | H : _ = true |- _ => progress bool_prop_in H
         | H : _ = false |- _ => progress bool_prop_in H
         end;
  repeat match goal with
         | |- context [if ?c then _ else _] =>
             first [ replace c with true by (symmetry; bool_prop; lia)
                   | replace c with false
                       by (symmetry; apply not_true_is_false;
                           let X := fresh in intros X; bool_prop_in X; lia) ]
         end.

(** Trimming on the left drops whole characters. *)
Lemma lstrip_valid bs :
  Utf8.valid bs = true -> Utf8.valid (PyStr.lstrip false bs) = true.
Proof.
  induction bs as [bs IH] using (induction_ltof1 _ (@length Z)). unfold ltof in IH.
  destruct bs as [|b1 t1]; [trivial|]. cbn [PyStr.lstrip].
  destruct (PyStr.space1 b1) eqn:S1.
  { rewrite valid_step. unfold_tests. settle. apply IH. simpl. lia. }
  destruct t1 as [|b2 t2]; [trivial|].
  destruct (PyStr.space2 b1 b2) eqn:S2.
  { rewrite valid_step. unfold_tests. settle. apply IH. simpl. lia. }
  destruct t2 as [|b3 t3]; [trivial|].
  destruct (PyStr.space3 b1 b2 b3) eqn:S3; [|trivial].
  rewrite valid_step. unfold_tests. clear S1 S2. settle. apply IH. simpl. lia.
Qed.

Ltac refute_in H :=
  repeat match type of H with
         | context [if ?c then _ else _] =>
             replace c with false in H
               by (symmetry; apply not_true_is_false;
                   let X := fresh in intros X; bool_prop_in X; lia)
         end.

Ltac dead_end H :=
  repeat first
    [ progress refute_in H
    | match type of H with
      | match ?l with [] => _ | _ :: _ => _ end = true =>
          destruct l; [discriminate|]
      end ];
  discriminate.

(** A piece of well-formed text that ends where a character starts is
    well formed. *)
Lemma valid_prefix p : forall q,
  Utf8.valid (p ++ q)%list = true ->
  match q with [] => True | b :: _ => Utf8.cont b = false end ->
  Utf8.valid p = true.
Proof.
  induction p as [p IH] using (induction_ltof1 _ (@length Z)). unfold ltof in IH.
  intros q H Hq. destruct p as [|b1 t1]; [reflexivity|].
  rewrite <- app_comm_cons in H. rewrite valid_step in H. rewrite valid_step.
  destruct (between 0 b1 127).
  { apply (IH t1 ltac:(simpl; lia) q); assumption. }
  destruct t1 as [|b2 t2].
  { exfalso. destruct q as [|b2 t2]; [discriminate|]. cbn [app] in H.
    unfold_tests. bool_prop_in Hq. dead_end H. }
  rewrite <- app_comm_cons in H.
  destruct (between 194 b1 223 && Utf8.cont b2).
  { apply (IH t2 ltac:(simpl; lia) q); assumption. }
  destruct t2 as [|b3 t3].
  { exfalso. destruct q as [|b3 t3]; [discriminate|]. cbn [app] in H.
    unfold_tests. bool_prop_in Hq. dead_end H. }
  rewrite <- app_comm_cons in H.
  match goal with |- context [if ?c then Utf8.valid t3 else _] => destruct c end.
  { apply (IH t3 ltac:(simpl; lia) q); assumption. }
  destruct t3 as [|b4 t4].
  { exfalso. destruct q as [|b4 t4]; [discriminate|]. cbn [app] in H.
    unfold_tests. bool_prop_in Hq. dead_end H. }
  rewrite <- app_comm_cons in H.
  match goal with |- context [if ?c then Utf8.valid t4 else _] => destruct c end.
  { apply (IH t4 ltac:(simpl; lia) q); assumption. }
  discriminate.
Qed.

(** Trimming on the right drops whole characters: the bytes are read
    from the end. *)
Lemma rstrip_valid r :
  Utf8.valid (rev r) = true -> Utf8.valid (rev (PyStr.lstrip true r)) = true.
Proof.
  induction r as [r IH] using (induction_ltof1 _ (@length Z)). unfold ltof in IH.
  destruct r as [|b1 t1]; [trivial|]. cbn [PyStr.lstrip].
  destruct (PyStr.space1 b1) eqn:S1.
  { intros H. apply IH; [simpl; lia|]. cbn [rev] in H.
    apply (valid_prefix _ _ H). unfold_tests. bool_prop_in S1.
    apply not_true_is_false. intros X. bool_prop_in X. lia. }
  destruct t1 as [|b2 t2]; [trivial|].
  destruct (PyStr.space2 b2 b1) eqn:S2.
  { intros H. apply IH; [simpl; lia|]. cbn [rev] in H. rewrite <- app_assoc in H.
    apply (valid_prefix _ _ H). cbn [app]. unfold_tests. bool_prop_in S2.
    apply not_true_is_false. intros X. bool_prop_in X. lia. }
  destruct t2 as [|b3 t3]; [trivial|].
  destruct (PyStr.space3 b3 b2 b1) eqn:S3; [|trivial].
  intros H. apply IH; [simpl; lia|]. cbn [rev] in H. rewrite <- !app_assoc in H.
  apply (valid_prefix _ _ H). cbn [app]. unfold_tests. clear S1 S2. bool_prop_in S3.
  apply not_true_is_false. intros X. bool_prop_in X. lia.
Qed.

Lemma lstrip_Forall (P : Z -> Prop) rv bs :
  Forall P bs -> Forall P (PyStr.lstrip rv bs).
Proof.
  induction bs as [bs IH] using (induction_ltof1 _ (@length Z)). unfold ltof in IH.
  intros H. destruct bs as [|b1 t1]; [exact H|]. cbn [PyStr.lstrip].
  destruct (PyStr.space1 b1).
  { apply IH; [simpl; lia|]. exact (Forall_inv_tail H). }
  destruct t1 as [|b2 t2]; [exact H|].
  destruct (if rv then PyStr.space2 b2 b1 else PyStr.space2 b1 b2).
  { apply IH; [simpl; lia|]. exact (Forall_inv_tail (Forall_inv_tail H)). }
  destruct t2 as [|b3 t3]; [exact H|].
  destruct (if rv then PyStr.space3 b3 b2 b1 else PyStr.space3 b1 b2 b3); [|exact H].
  apply IH; [simpl; lia|].
  exact (Forall_inv_tail (Forall_inv_tail (Forall_inv_tail H))).
Qed.

(** [s.strip()] of well-formed text is well-formed text. *)
Lemma strip_valid s :
  Utf8.valid (bytes_of_str s) = true ->
  Utf8.valid (bytes_of_str (PyStr.strip s)) = true.
Proof.
  intros H. unfold PyStr.strip. rewrite bytes_of_str_of_bytes.
  - apply rstrip_valid. rewrite rev_involutive. apply lstrip_valid, H.
  - apply Forall_rev, lstrip_Forall, Forall_rev, lstrip_Forall, bytes_of_str_bounded.
Qed.

(** *** What [json.dumps] writes is printable *)

Lemma printable_app s t : printable (s ++ t) = printable s && printable t.
Proof.
  unfold printable, bytes_of_str.
  induction s as [|c s IH]; [reflexivity|].
  rewrite append_cons. cbn [list_ascii_of_string map forallb].
  rewrite IH. apply andb_assoc.
Qed.

Lemma printable_cons c s :
  printable (String c s) = between 32 (ord c) 126 && printable s.
Proof. reflexivity. Qed.

Lemma hex_digit_printable d :
  0 <= d < 16 -> between 32 (ord (JsonDump.hex_digit d)) 126 = true.
Proof.
  intros Hd.
  exact (forall_below (fun d => between 32 (ord (JsonDump.hex_digit d)) 126) 16
           eq_refl d Hd).
Qed.

Lemma u_escape_printable n : printable (JsonDump.u_escape n) = true.
Proof.
  unfold JsonDump.u_escape. rewrite !printable_cons.
  rewrite !hex_digit_printable by bits. reflexivity.
Qed.

Lemma escape_cp_printable n : printable (JsonDump.escape_cp n) = true.
Proof.
  unfold JsonDump.escape_cp.
  repeat match goal with
         | |- context [if ?n =? ?k then _ else _] => destruct (n =? k); [reflexivity|]
         end.
  destruct (between 32 n 126) eqn:E.
  - rewrite printable_cons. unfold between in E. apply andb_prop in E.
    destruct E as [E1 E2]. apply Z.leb_le in E1, E2.
    rewrite ord_chr by lia. unfold between.
    destruct (Z.leb_spec 32 n); [|lia]. destruct (Z.leb_spec n 126); [|lia].
    reflexivity.
  - destruct (n <? 65536); [apply u_escape_printable|].
    cbv zeta. rewrite printable_app, !u_escape_printable. reflexivity.
Qed.

Lemma encode_basestring_ascii_printable s :
  printable (JsonDump.encode_basestring_ascii s) = true.
Proof.
  unfold JsonDump.encode_basestring_ascii. cbv zeta.
  generalize (match Utf8.code_points true (bytes_of_str s) with
              | Some cps => cps
              | None => bytes_of_str s
              end) as cps.
  intros cps. rewrite printable_cons, printable_app.
  assert (H : printable (String.concat "" (map JsonDump.escape_cp cps)) = true).
  { induction cps as [|cp cps IH]; [reflexivity|].
    cbn [map]. rewrite concat_cons, printable_app, escape_cp_printable, IH.
    reflexivity. }
  rewrite H. reflexivity.
Qed.

(** An object of strings written with printable separators. *)
Lemma dumps_printable item_sep key_sep d :
  printable item_sep = true -> printable key_sep = true ->
  forallb text_entry d = true ->
  printable (JsonDump.dumps item_sep key_sep (JObj d)) = true.
Proof.
  intros Hi Hk Ht. destruct d as [|kv d]; [reflexivity|].
  change (JsonDump.dumps item_sep key_sep (JObj (kv :: d)))
    with ("{" ++ PyStr.join item_sep
                   (map (fun kv => JsonDump.encode_basestring_ascii (fst kv) ++ key_sep
                                   ++ JsonDump.dumps item_sep key_sep (snd kv))
                        (kv :: d)) ++ "}").
  rewrite !printable_app. change (printable "{") with true.
  change (printable "}") with true. rewrite andb_true_r. cbn [andb].
  revert kv Ht. induction d as [|kv' d IH]; intros [k v] Ht;
    cbn [forallb] in Ht; apply andb_prop in Ht; destruct Ht as [Hkv Hd];
    unfold text_entry in Hkv; apply andb_prop in Hkv; destruct Hkv as [_ Hv];
    cbn [fst snd] in Hv; destruct v; try discriminate.
  - cbn [map fst snd JsonDump.dumps].
    match goal with
    | |- printable (PyStr.join _ [?x]) = true => change (printable x = true)
    end.
    rewrite !printable_app, !encode_basestring_ascii_printable, Hk. reflexivity.
  - cbn [map] in *.
    match goal with
    | |- printable (PyStr.join _ (?x :: ?y :: ?r)) = true =>
        change (PyStr.join item_sep (x :: y :: r))
          with (x ++ item_sep ++ PyStr.join item_sep (y :: r))
    end.
    cbn [fst snd JsonDump.dumps].
    rewrite !printable_app, !encode_basestring_ascii_printable, Hk, Hi.
    cbn [andb]. apply IH. exact Hd.
Qed.

Lemma printable_valid s : printable s = true -> Utf8.valid (bytes_of_str s) = true.
Proof.
  unfold printable. intros H. apply valid_ascii. apply Forall_forall.
  intros b Hb. rewrite forallb_forall in H. specialize (H b Hb).
  unfold between in H. apply andb_prop in H. destruct H as [H1 H2].
  apply Z.leb_le in H1, H2. lia.
Qed.

(** *** The params of an invocation *)

Lemma loads_dumps_compact d :
  NoDup (map fst d) -> forallb text_entry d = true ->
  Json.loads (JsonDump.dumps_compact (JObj d)) = Some (JObj d).
Proof. apply loads_dumps_text; intros; reflexivity. Qed.

Lemma loads_dumps_default d :
  NoDup (map fst d) -> forallb text_entry d = true ->
  Json.loads (JsonDump.dumps_default (JObj d)) = Some (JObj d).
Proof. apply loads_dumps_text; intros; reflexivity. Qed.

Lemma trimmed_valid kvs k :
  text_at kvs k = true ->
  Utf8.valid (bytes_of_str (PyStr.strip (field kvs k))) = true.
Proof. intros H. apply strip_valid, field_valid, H. Qed.

Lemma mint_metadata_valid kvs :
  text_at kvs "metadata_b64" = true ->
  Utf8.valid (bytes_of_str (mint_metadata kvs)) = true.
Proof.
  intros H. unfold mint_metadata.
  destruct (nonempty (field kvs "metadata_b64")); [apply field_valid, H|].
  pose proof (b2a_base64_ascii _ (bytes_of_str_nonneg (field kvs "metadata_text")))
    as Ha.
  rewrite bytes_of_str_of_bytes.
  - apply valid_ascii, Ha.
  - apply (Forall_weaken (fun c => 0 <= c < 128)); [intros c Hc; lia|exact Ha].
Qed.

Ltac distinct_keys :=
  cbn [map fst]; repeat constructor; cbn [In]; intuition discriminate.

(** The params a handler passes are a mapping of string to string with
    distinct keys. *)
Lemma invocation_params_text e kvs params :
  text_request e kvs = true -> invocation_params e kvs = Some params ->
  NoDup (map fst params) /\ forallb text_entry params = true /\ params <> [].
Proof.
  unfold text_request. intros Ht Hp.
  destruct e; cbn [fields_read required_fields forallb] in Ht;
    repeat (apply andb_prop in Ht; destruct Ht as [? Ht]);
    unfold invocation_params, trimmed in Hp; cbn [required_fields map List.app] in Hp;
    try discriminate; apply some_eq in Hp; subst params;
    (split; [distinct_keys|split; [|discriminate]]);
    unfold text_entry; cbn [forallb fst snd is_text];
    rewrite ?trimmed_valid, ?mint_metadata_valid by assumption;
    try reflexivity.
  rewrite (printable_valid (JsonDump.dumps_default _)); [reflexivity|].
  apply dumps_printable; try reflexivity.
  unfold text_entry. cbn [forallb fst snd is_text].
  rewrite !trimmed_valid by assumption. reflexivity.
Qed.

(** The command of a process started for a request made of text. *)
Lemma spawned_command cfg e kvs w cmd cwd t :
  text_request e kvs = true ->
  In (cmd, cwd, t) (spawns (fst (serve (handle cfg e (JObj kvs)) w))) ->
  cmd = command_line cfg (method_name e) (invocation_params e kvs) true.
Proof.
  intros Ht. unfold serve. rewrite (handle_text _ _ _ _ _ Ht).
  destruct (passes_validation e kvs); [|intros []].
  rewrite fst_bind_pure by apply pure_after.
  intros Hin. apply exec_cmc_spawned in Hin. tauto.
Qed.

(** X14.  What a handler puts behind [--params=] is printable ASCII, and
    reading it as JSON gives back the params the handler passed: the
    trimmed fields, character for character, whatever text they hold.
    [total-supply] passes no params and its command has no such
    argument. *)
Theorem params_read_back cfg e kvs w cmd cwd t :
  text_request e kvs = true ->
  In (cmd, cwd, t) (spawns (fst (serve (handle cfg e (JObj kvs)) w))) ->
  match invocation_params e kvs with
  | None => cmd = command_line cfg (method_name e) None true
  | Some params =>
      exists payload,
        cmd = List.app (command_line cfg (method_name e) None true)
                       ["--params=" ++ payload] /\
        printable payload = true /\
        Json.loads payload = Some (JObj params)
  end.
Proof.
  intros Ht Hin. rewrite (spawned_command _ _ _ _ _ _ _ Ht Hin).
  destruct (invocation_params e kvs) as [params|] eqn:E; [|reflexivity].
  destruct (invocation_params_text _ _ _ Ht E) as (Hnd & Htext & Hne).
  exists (JsonDump.dumps_compact (JObj params)).
  split; [|split].
  - destruct params as [|kv d]; [contradiction|reflexivity].
  - apply dumps_printable; auto.
  - apply loads_dumps_compact; assumption.
Qed.

Lemma params_read_back_witness :
  exists payload,
    ["./cmc"; "client"; "contract"; "user"; "invoke"; "--contract-name=CMNFA";
     "--method=OwnerOf"; "--sdk-conf-path=./testdata/sdk_config.yml";
     "--sync-result=true"; "--params=" ++ JsonDump.dumps_compact
                                            (JObj [("tokenId", JStr "7")])]
    = List.app (command_line Scenario.cfg0 "OwnerOf" None true)
               ["--params=" ++ payload] /\
    printable payload = true /\
    Json.loads payload = Some (JObj [("tokenId", JStr "7")]).
Proof.
  exact (params_read_back Scenario.cfg0 OwnerOf Scenario.owner_request
           (Scenario.machine Scenario.installed (Completed 0 "{}" ""))
           _ (WORK_DIR Scenario.cfg0) default_timeout eq_refl (or_introl eq_refl)).
Defined.

(** X15.  The [category] parameter of [create-or-set-category] is itself
    JSON text: reading the [--params=] argument and then the [category]
    string in it gives the trimmed name and URI of the request. *)
Theorem category_read_back cfg kvs w cmd cwd t :
  text_request CreateOrSetCategory kvs = true ->
  In (cmd, cwd, t)
     (spawns (fst (serve (create_or_set_category cfg (JObj kvs)) w))) ->
  exists payload category,
    last cmd "" = "--params=" ++ payload /\
    Json.loads payload = Some (JObj [("category", JStr category)]) /\
    Json.loads category =
    Some (JObj [("categoryName", JStr (PyStr.strip (field kvs "categoryName")));
                ("categoryURI", JStr (PyStr.strip (field kvs "categoryURI")))]).
Proof.
  intros Ht Hin.
  rewrite (spawned_command cfg CreateOrSetCategory _ _ _ _ _ Ht Hin).
  destruct (invocation_params_text CreateOrSetCategory kvs _ Ht eq_refl)
    as (Hnd & Htext & _).
  exists (JsonDump.dumps_compact
            (JObj [("category",
                    JStr (JsonDump.dumps_default
                            (JObj (trimmed CreateOrSetCategory kvs))))])).
  exists (JsonDump.dumps_default (JObj (trimmed CreateOrSetCategory kvs))).
  split; [reflexivity|]. split.
  - apply loads_dumps_compact; assumption.
  - unfold text_request in Ht. cbn [fields_read required_fields forallb] in Ht.
    repeat (apply andb_prop in Ht; destruct Ht as [? Ht]).
    apply loads_dumps_default; [distinct_keys|].
    unfold trimmed, text_entry. cbn [required_fields map forallb fst snd is_text].
    rewrite !trimmed_valid by assumption. reflexivity.
Qed.

Lemma category_read_back_witness :
  exists payload category,
    last (command_line Scenario.cfg0 "CreateOrSetCategory"
            (Some [("category",
                    JStr (JsonDump.dumps_default
                            (JObj [("categoryName", JStr "画廊");
                                   ("categoryURI", JStr "https://example.org/nfa")])))])
            true) ""
    = "--params=" ++ payload /\
    Json.loads payload = Some (JObj [("category", JStr category)]) /\
    Json.loads category =
    Some (JObj [("categoryName", JStr "画廊");
                ("categoryURI", JStr "https://example.org/nfa")]).
Proof.
  exact (category_read_back Scenario.cfg0
           [("categoryName", JStr " 画廊 ");
            ("categoryURI", JStr ("https://example.org/nfa" ++ Scenario.newline))]
           (Scenario.machine Scenario.installed (Completed 0 "{}" ""))
           _ (WORK_DIR Scenario.cfg0) default_timeout eq_refl (or_introl eq_refl)).
Defined.

(** ** Fields of the wrong type *)

(** Reading a field with [.get(k, "").strip()]. *)
Lemma read_strip {A} kvs k (rest : string -> M A) w tr :
  bind (Dyn.get (JObj kvs) k (JStr "")) (fun raw => bind (Dyn.strip raw) rest) w tr =
  match dict_get kvs k with
  | Some (JStr s) => rest (PyStr.strip s) w tr
  | Some v => (tr, inl (AttributeError (Py.type_name v) "strip"))
  | None => rest (PyStr.strip "") w tr
  end.
Proof.
  destruct (dict_get kvs k) as [v|] eqn:E; cbn [Dyn.get]; rewrite bind_ret_run, E;
    [destruct v|]; reflexivity.
Qed.





Lemma read_strip_str {A} kvs k (rest : string -> M A) w tr :
  str_at kvs k = true ->
  bind (Dyn.get (JObj kvs) k (JStr "")) (fun raw => bind (Dyn.strip raw) rest) w tr =
  rest (PyStr.strip (field kvs k)) w tr.
Proof.
  unfold str_at, field. intros H. rewrite read_strip.
  destruct (dict_get kvs k) as [v|]; [|reflexivity].
  destruct v; try discriminate. reflexivity.
Qed.

(** X17.  [mint] encodes [metadata_text] before it validates anything:
    when the three required fields are strings (empty or not) and
    [metadata_text] holds a value that counts as true and is no
    well-formed text, the handler raises and starts no process:
    [AttributeError] on [encode] for a value that is no string,
    [UnicodeEncodeError] for a string with a lone surrogate. *)
Theorem mint_metadata_text_raises cfg kvs v w :
  forallb (str_at kvs) (required_fields Mint) = true ->
  dict_get kvs "metadata_text" = Some v ->
  Py.truthy v = true -> is_text v = false ->
  serve (mint cfg (JObj kvs)) w =
  ([], inl (if is_str v then UnicodeEncodeError
            else AttributeError (Py.type_name v) "encode")).
Proof.
  intros Hreq Hk Htrue Htext.
  cbn [required_fields forallb] in Hreq.
  repeat (apply andb_prop in Hreq; destruct Hreq as [? Hreq]).
  unfold serve, mint.
  rewrite !read_strip_str by assumption.
  cbn [Dyn.get]. rewrite bind_ret_run, Hk. unfold Py.or. rewrite Htrue.
  destruct v; try reflexivity.
  cbn [is_text] in Htext. unfold bind, Dyn.encode, Utf8.encode.
  rewrite Htext. reflexivity.
Qed.

Lemma mint_metadata_text_raises_witness :
  serve (mint Scenario.cfg0
           (JObj [("to", JStr "alice"); ("metadata_text", JInt 5)]))
        (Scenario.machine Scenario.installed (Completed 0 "{}" ""))
  = ([], inl (AttributeError "int" "encode")).
Proof.
  exact (mint_metadata_text_raises Scenario.cfg0
           [("to", JStr "alice"); ("metadata_text", JInt 5)] (JInt 5)
           (Scenario.machine Scenario.installed (Completed 0 "{}" ""))
           eq_refl eq_refl eq_refl eq_refl).
Defined.

(** ** Requests as they come *)

(** [(b.get("metadata_text") or "").encode("utf-8")] where it succeeds. *)
Lemma encode_metadata_text {A} kvs (rest : bytes -> M A) w tr :
  encodable kvs "metadata_text" = true ->
  bind (Dyn.get (JObj kvs) "metadata_text" JNull)
       (fun raw => bind (Dyn.encode (Py.or raw (JStr ""))) rest) w tr
  = rest (bytes_of_str (field kvs "metadata_text")) w tr.
Proof.
  unfold encodable, field. intros H. cbn [Dyn.get]. rewrite bind_ret_run.
  destruct (dict_get kvs "metadata_text") as [v|]; [|reflexivity].
  unfold Py.or. destruct (Py.truthy v) eqn:Ht.
  - cbn [negb orb] in H. destruct v; try discriminate. cbn [is_text] in H.
    unfold bind, Dyn.encode, Utf8.encode. rewrite H. reflexivity.
  - destruct v; try reflexivity. cbn [Py.truthy] in Ht.
    destruct s; [reflexivity|discriminate].
Qed.

(** A handler whose reads succeed validates the required fields and then
    invokes the contract method. *)
Lemma handle_reached cfg e kvs w tr :
  reaches_validation e kvs = true ->
  handle cfg e (JObj kvs) w tr =
  if passes_validation e kvs then
    bind (exec_cmc cfg (method_name e) (passed_params e kvs) true default_timeout)
         (after e) w tr
  else (tr, inr (err (JStr (validation_message e)))).
Proof.
  unfold reaches_validation. intros H. apply andb_prop in H. destruct H as [H Hm].
  destruct e; cbn [required_fields forallb] in H;
    repeat (apply andb_prop in H; destruct H as [? H]);
    unfold handle, passes_validation, passed_params, invocation_params, trimmed;
    cbn [required_fields forallb map List.app method_name];
    unfold owner_of, token_uri, balance_of, mint, transfer_from, burn,
      create_or_set_category;
    rewrite ?read_strip_str by assumption.
  - reflexivity.
  - destruct (nonempty (PyStr.strip (field kvs "tokenId"))); reflexivity.
  - destruct (nonempty (PyStr.strip (field kvs "tokenId"))); reflexivity.
  - destruct (nonempty (PyStr.strip (field kvs "account"))); reflexivity.
  - rewrite encode_metadata_text by assumption.
    cbn [Dyn.get]. rewrite bind_ret_run.
    destruct (nonempty (PyStr.strip (field kvs "to")));
      destruct (nonempty (PyStr.strip (field kvs "tokenId")));
      destruct (nonempty (PyStr.strip (field kvs "categoryName")));
      try reflexivity.
    cbn [andb negb]. unfold metadata_encoded.
    assert (He : forall (k : json -> M json),
               bind match bytes_of_str (field kvs "metadata_text") with
                    | [] => ret (JStr "")
                    | _ :: _ =>
                        text <- Dyn.decode
                                  (Base64.b64encode
                                     (bytes_of_str (field kvs "metadata_text"))) ;;
                        ret (JStr text)
                    end k w tr
               = k (JStr (str_of_bytes
                            (Base64.b64encode
                               (bytes_of_str (field kvs "metadata_text"))))) w tr).
    { intros k. destruct (bytes_of_str (field kvs "metadata_text")) eqn:E;
        [reflexivity|].
      rewrite <- E. unfold Dyn.decode. rewrite decode_b64encode. reflexivity. }
    destruct (dict_get kvs "metadata_b64") as [v|]; cbv iota.
    + destruct (Py.truthy v); [reflexivity|]. apply He.
    + change (Py.truthy JNull) with false. cbv iota. apply He.
  - destruct (nonempty (PyStr.strip (field kvs "from")));
      destruct (nonempty (PyStr.strip (field kvs "to")));
      destruct (nonempty (PyStr.strip (field kvs "tokenId"))); reflexivity.
  - destruct (nonempty (PyStr.strip (field kvs "tokenId"))); reflexivity.
  - destruct (nonempty (PyStr.strip (field kvs "categoryName")));
      destruct (nonempty (PyStr.strip (field kvs "categoryURI"))); reflexivity.
Qed.

(** C4, as stated, fails: a mint body without [tokenId] and
    [categoryName] whose [metadata_text] is the number 5 is not answered
    at all, the handler raises on [encode] before it validates; and a
    body whose [tokenId] is [null] makes [owner] raise on [strip]. *)
Lemma missing_field_unanswered :
  let w := Scenario.machine Scenario.installed (Completed 0 "{}" "") in
  let body := [("to", JStr "alice"); ("metadata_text", JInt 5)] in
  dict_get body "tokenId" = None /\
  serve (handle Scenario.cfg0 Mint (JObj body)) w
  = ([], inl (AttributeError "int" "encode")) /\
  serve (handle Scenario.cfg0 OwnerOf (JObj [("tokenId", JNull)])) w
  = ([], inl (AttributeError "NoneType" "strip")).
Proof. vm_compute. repeat split. Qed.

(** C4, amended: on every endpoint with required fields, a body whose
    required fields are strings where present (and, for a mint, whose
    [metadata_text] is absent, counts as false or is well-formed text)
    and in which some required field is missing, or empty once trimmed,
    is answered with [{success: false, error}] where the error names
    each such field, and no process is started. *)
Theorem missing_field_rejected cfg w e kvs :
  reaches_validation e kvs = true ->
  (exists k, In k (required_fields e) /\ PyStr.strip (field kvs k) = "") ->
  exists msg,
    serve (handle cfg e (JObj kvs)) w = ([], inr (err (JStr msg))) /\
    spawns (fst (serve (handle cfg e (JObj kvs)) w)) = [] /\
    forall k, In k (required_fields e) -> PyStr.strip (field kvs k) = "" ->
              PyStr.contains k msg = true.
Proof.
  intros Hreach (k & Hin & Hk).
  exists (validation_message e).
  unfold serve. rewrite (handle_reached _ _ _ _ _ Hreach).
  rewrite (validation_fails _ _ _ Hin Hk).
  repeat split. intros k' Hin' _. apply validation_message_names, Hin'.
Qed.

Lemma missing_field_rejected_witness :
  exists msg,
    serve (handle Scenario.cfg0 Mint
             (JObj [("to", JStr "alice"); ("tokenId", JStr "  ");
                    ("metadata_text", JInt 0); ("metadata_b64", JInt 5)]))
          (Scenario.machine Scenario.installed (Completed 0 "{}" ""))
    = ([], inr (err (JStr msg))) /\
    spawns (fst (serve (handle Scenario.cfg0 Mint
                          (JObj [("to", JStr "alice"); ("tokenId", JStr "  ");
                                 ("metadata_text", JInt 0); ("metadata_b64", JInt 5)]))
                   (Scenario.machine Scenario.installed (Completed 0 "{}" "")))) = [] /\
    forall k, In k (required_fields Mint) ->
              PyStr.strip (field [("to", JStr "alice"); ("tokenId", JStr "  ");
                                  ("metadata_text", JInt 0); ("metadata_b64", JInt 5)] k)
              = "" ->
              PyStr.contains k msg = true.
Proof.
  apply (missing_field_rejected Scenario.cfg0
           (Scenario.machine Scenario.installed (Completed 0 "{}" ""))
           Mint [("to", JStr "alice"); ("tokenId", JStr "  ");
                 ("metadata_text", JInt 0); ("metadata_b64", JInt 5)]).
  - reflexivity.
  - exists "tokenId". split; [right; left; reflexivity | vm_compute; reflexivity].
Defined.

(** C5, as stated, fails: with [to], [tokenId] and [categoryName]
    non-empty and [metadata_b64] supplied, a [metadata_text] that is the
    number 5 makes the handler raise before anything is passed; and a
    [to] of one blank, which is not empty, is refused by the validation. *)
Lemma mint_metadata_not_passed :
  let w := Scenario.machine Scenario.installed (Completed 0 "{}" "") in
  serve (mint Scenario.cfg0
           (JObj [("to", JStr "alice"); ("tokenId", JStr "7");
                  ("categoryName", JStr "art"); ("metadata_b64", JStr "aGk=");
                  ("metadata_text", JInt 5)])) w
  = ([], inl (AttributeError "int" "encode")) /\
  nonempty " " = true /\
  serve (mint Scenario.cfg0
           (JObj [("to", JStr " "); ("tokenId", JStr "7");
                  ("categoryName", JStr "art"); ("metadata_b64", JStr "aGk=")])) w
  = ([], inr (err (JStr "to / tokenId / categoryName 不能为空"))).
Proof. vm_compute. repeat split. Qed.

(** C5, amended: a mint whose [to], [tokenId] and [categoryName] are
    strings, non-empty once trimmed, and whose [metadata_text] is absent,
    counts as false or is well-formed text, invokes [Mint] with a
    [metadata] parameter that is [metadata_b64], unchanged, when that is
    supplied and counts as true (a non-empty string, in particular), and
    the base64 encoding of [metadata_text] otherwise; ["hello"] gives
    ["aGVsbG8="], and an empty [metadata_text] gives the empty string,
    which is still passed. *)
Theorem mint_metadata_param cfg w kvs :
  reaches_validation Mint kvs = true ->
  passes_validation Mint kvs = true ->
  (forall tr,
      mint cfg (JObj kvs) w tr =
      bind (exec_cmc cfg "Mint"
              (Some [("to", JStr (PyStr.strip (field kvs "to")));
                     ("tokenId", JStr (PyStr.strip (field kvs "tokenId")));
                     ("categoryName", JStr (PyStr.strip (field kvs "categoryName")));
                     ("metadata",
                      match dict_get kvs "metadata_b64" with
                      | Some v =>
                          if Py.truthy v then v
                          else JStr (str_of_bytes
                                       (Base64.b64encode
                                          (bytes_of_str (field kvs "metadata_text"))))
                      | None =>
                          JStr (str_of_bytes
                                  (Base64.b64encode
                                     (bytes_of_str (field kvs "metadata_text"))))
                      end)])
              true default_timeout)
           (after Mint) w tr) /\
  (forall s, dict_get kvs "metadata_b64" = Some (JStr s) ->
             Py.truthy (JStr s) = nonempty s) /\
  str_of_bytes (Base64.b64encode (bytes_of_str "hello")) = "aGVsbG8=" /\
  str_of_bytes (Base64.b64encode (bytes_of_str "")) = "".
Proof.
  intros Hreach Hvalid. split; [|repeat split].
  intros tr.
  change (mint cfg (JObj kvs)) with (handle cfg Mint (JObj kvs)).
  rewrite (handle_reached _ _ _ _ _ Hreach), Hvalid. reflexivity.
Qed.

Lemma mint_metadata_param_witness :
  spawns (fst (serve (mint Scenario.cfg0 (JObj Scenario.mint_request))
                 (Scenario.machine Scenario.installed (Completed 0 "{}" ""))))
  = [(command_line Scenario.cfg0 "Mint"
        (Some [("to", JStr "alice"); ("tokenId", JStr "7");
               ("categoryName", JStr "art"); ("metadata", JStr "aGVsbG8=")]) true,
      WORK_DIR Scenario.cfg0, 60)].
Proof.
  unfold serve.
  rewrite (proj1 (mint_metadata_param Scenario.cfg0
                    (Scenario.machine Scenario.installed (Completed 0 "{}" ""))
                    Scenario.mint_request eq_refl eq_refl) []).
  vm_compute. reflexivity.
Defined.

(** Output nested beyond the room of the interpreter is passed on as a
    string, although it is JSON; on a machine with room for 900
    containers, 901 arrays are too many. *)
Example deep_output_sample :
  let out := nested 901 "" in
  let w := Scenario.machine Scenario.installed (Completed 0 out "") in
  (exists v, Json.loads out = Some v) /\
  Json.loads_within (recursion_room w) out = None /\
  Json.loads_within (recursion_room w) (nested 900 "") <> None /\
  snd (serve (exec_cmc Scenario.cfg0 "TotalSupply" None true default_timeout) w)
  = inr (true, JStr out) /\
  snd (serve (handle Scenario.cfg0 TotalSupply JNull) w)
  = inl (AttributeError "str" "get").
Proof.
  cbv zeta. split; [|split; [|split; [|split]]].
  - destruct (Json.loads (nested 901 "")) as [v|] eqn:E; [exists v; reflexivity|].
    vm_compute in E. discriminate.
  - vm_compute. reflexivity.
  - vm_compute. discriminate.
  - vm_compute. reflexivity.
  - vm_compute. reflexivity.
Qed.
